(** * AppAdminProductos: the credential and token subsystem

    A shallow embedding of [src/models/Usuario.js], [src/middleware/auth.js],
    [src/controllers/authController.js] and [src/config/config.js].

    - SQLite tables are lists of rows in rowid order; a statement's [get]
      returns the first matching row, an [UPDATE] rewrites every matching row.
    - Instants ([Date.now()], [new Date()], [CURRENT_TIMESTAMP], the ISO text
      stored in [bloqueado_hasta]) are integers, milliseconds since the epoch.
    - JavaScript strings are [string]; [toLowerCase] and [trim] act on the
      ASCII letters and the ASCII white space.
    - A JavaScript exception is a value of [Exn]; a call ends in a
      [Completion] and leaves a database behind.
    - [bcryptjs] and [jsonwebtoken] are external: they are the classes
      [Bcrypt] and [Jwt]. *)

From Stdlib Require Import ZArith String Ascii HexString List Bool Lia.
From stdpp Require Import base option list strings gmap.

Local Open Scope string_scope.
Local Open Scope Z_scope.

(** ** JavaScript string primitives used by the sources *)

Module Js.

Definition is_upper (c : ascii) : bool :=
  let n := N_of_ascii c in ((65 <=? n) && (n <=? 90))%N.

Definition lower_char (c : ascii) : ascii :=
  if is_upper c then ascii_of_N (N_of_ascii c + 32) else c.

(** [s.toLowerCase()] *)
Fixpoint toLowerCase (s : string) : string :=
  match s with
  | EmptyString => EmptyString
  | String c s' => String (lower_char c) (toLowerCase s')
  end.

(** White space removed by [trim]: tab, line feed, vertical tab, form feed,
    carriage return and space. *)
Definition is_space (c : ascii) : bool :=
  let n := N_of_ascii c in (((9 <=? n) && (n <=? 13)) || (n =? 32))%N.

Fixpoint trimStart (s : string) : string :=
  match s with
  | EmptyString => EmptyString
  | String c s' => if is_space c then trimStart s' else s
  end.

Fixpoint trimEnd (s : string) : string :=
  match s with
  | EmptyString => EmptyString
  | String c s' =>
      match trimEnd s' with
      | EmptyString => if is_space c then EmptyString else String c EmptyString
      | r => String c r
      end
  end.

(** [s.trim()] *)
Definition trim (s : string) : string := trimEnd (trimStart s).

(** [s.startsWith(p)] *)
Fixpoint startsWith (p s : string) : bool :=
  match p, s with
  | EmptyString, _ => true
  | String a p', String b s' => Ascii.eqb a b && startsWith p' s'
  | String _ _, EmptyString => false
  end.

(** [s.split(' ')] *)
Fixpoint split_space (s : string) : list string :=
  match s with
  | EmptyString => [EmptyString]
  | String c s' =>
      if Ascii.eqb c " "%char then EmptyString :: split_space s'
      else match split_space s' with
           | h :: t => String c h :: t
           | [] => [String c EmptyString]
           end
  end.

(** No space occurs in [s]. *)
Fixpoint no_space (s : string) : bool :=
  match s with
  | EmptyString => true
  | String c s' => negb (Ascii.eqb c " "%char) && no_space s'
  end.

(** [s.includes(p)] *)
Fixpoint includes (p s : string) : bool :=
  startsWith p s ||
  match s with
  | EmptyString => false
  | String _ s' => includes p s'
  end.

End Js.

(** ** Exceptions and completions *)

Inductive Exn : Type :=
| Error (message : string)          (* [throw new Error(message)] *)
| TypeError (message : string)      (* a method called on [undefined] *)
| SqliteError (message : string).   (* thrown by a better-sqlite3 statement *)

Definition exn_message (e : Exn) : string :=
  match e with
  | Error m | TypeError m | SqliteError m => m
  end.

Inductive Completion (A : Type) : Type :=
| Return (a : A)
| Throw (e : Exn).

Arguments Return {A} a.
Arguments Throw {A} e.

(** ** config/config.js *)

Record Config : Type := {
  jwt_secret : string;
  jwt_expiresIn : Z;          (* seconds *)
  bcryptRounds : Z;
  passwordMinLength : Z;
  maxLoginAttempts : Z;
  lockoutTime : Z             (* milliseconds *)
}.

(** The values of [config] when the environment sets nothing. *)
Definition default_config : Config := {|
  jwt_secret := "jwt_default_secret_change_in_production";
  jwt_expiresIn := 3600;
  bcryptRounds := 12;
  passwordMinLength := 8;
  maxLoginAttempts := 5;
  lockoutTime := 15 * 60 * 1000
|}.

(** ** database/init.js: the tables [usuarios] and [intentos_login] *)

Record UsuarioRow : Type := {
  id : Z;
  nombre : string;
  email : string;
  password_hash : string;
  rol : string;
  activo : bool;
  intentos_fallidos : Z;
  bloqueado_hasta : option Z;
  ultimo_login : option Z;
  fecha_creacion : Z;
  fecha_actualizacion : Z
}.

Record IntentoLogin : Type := {
  il_email : string;
  il_ip_address : option string;
  il_exitoso : bool;
  il_fecha : Z
}.

Record Db : Type := {
  usuarios : list UsuarioRow;
  intentos_login : list IntentoLogin
}.

(** What a call reads from outside the program: the clock at the lockout
    check ([new Date()], line 202), the clock inside
    [incrementFailedAttempts] ([Date.now()], line 251), SQLite's
    [CURRENT_TIMESTAMP], whether the INSERT into [intentos_login] throws
    (and with what), the salt [bcrypt.hash] draws, and the clock [jwt.sign]
    reads. *)
Record Env : Type := {
  clock_check : Z;
  clock_write : Z;
  sql_timestamp : Z;
  ledger_fault : option Exn;
  bcrypt_salt : string;
  clock_sign : Z
}.

(** ** External libraries *)

(** bcryptjs: [hash(password, rounds)] draws a salt; [compare(password, hash)]. *)
Class Bcrypt : Type := {
  bcrypt_hash : string -> Z -> string -> string;   (* password, rounds, salt *)
  bcrypt_compare : string -> string -> bool
}.

Record JwtPayload : Type := {
  userId : Z;
  jwt_email : string;
  jwt_rol : string
}.

Record JwtDecoded : Type := {
  payload : JwtPayload;
  iat : Z;
  exp : Z
}.

Inductive JwtResult : Type :=
| Decoded (d : JwtDecoded)
| JwtThrow (name : string).   (* [error.name] of the exception of [jwt.verify] *)

(** jsonwebtoken: [sign(payload, secret, {expiresIn})] and
    [verify(token, secret)], both reading the clock. *)
Class Jwt : Type := {
  jwt_sign : JwtPayload -> string -> Z -> Z -> string;   (* payload, secret, expiresIn, now *)
  jwt_verify : string -> string -> Z -> JwtResult        (* token, secret, now *)
}.

(** ** Calls that read and write the database and may throw *)

Definition M (A : Type) : Type := Db -> Completion A * Db.

Definition ret {A} (a : A) : M A := fun db => (Return a, db).

Definition throw {A} (e : Exn) : M A := fun db => (Throw e, db).

Definition bind {A B} (m : M A) (k : A -> M B) : M B :=
  fun db =>
    match m db with
    | (Return a, db') => k a db'
    | (Throw e, db') => (Throw e, db')
    end.

Definition get_db : M Db := fun db => (Return db, db).

Definition put_db (db' : Db) : M unit := fun _ => (Return tt, db').

Notation "x <- m ;; k" := (bind m (fun x => k))
  (at level 100, m at next level, right associativity).
Notation "m ;;; k" := (bind m (fun _ => k))
  (at level 100, right associativity).

(** ** models/Usuario.js *)

(** The object [verifyCredentials] and [create] return. *)
Record PublicUser : Type := {
  pu_id : Z;
  pu_nombre : string;
  pu_email : string;
  pu_rol : string
}.

(** The columns [findById] and [findAll] select. *)
Record UsuarioView : Type := {
  v_id : Z;
  v_nombre : string;
  v_email : string;
  v_rol : string;
  v_activo : bool;
  v_ultimo_login : option Z;
  v_fecha_creacion : Z
}.

Definition view (u : UsuarioRow) : UsuarioView := {|
  v_id := id u; v_nombre := nombre u; v_email := email u; v_rol := rol u;
  v_activo := activo u; v_ultimo_login := ultimo_login u;
  v_fecha_creacion := fecha_creacion u
|}.

Definition public (u : UsuarioRow) : PublicUser := {|
  pu_id := id u; pu_nombre := nombre u; pu_email := email u; pu_rol := rol u
|}.

(** [SET intentos_fallidos = ?, bloqueado_hasta = ?] *)
Definition set_attempts (n : Z) (until : option Z) (u : UsuarioRow) : UsuarioRow := {|
  id := id u; nombre := nombre u; email := email u;
  password_hash := password_hash u; rol := rol u; activo := activo u;
  intentos_fallidos := n; bloqueado_hasta := until;
  ultimo_login := ultimo_login u; fecha_creacion := fecha_creacion u;
  fecha_actualizacion := fecha_actualizacion u
|}.

(** [SET ultimo_login = CURRENT_TIMESTAMP] *)
Definition set_ultimo_login (t : Z) (u : UsuarioRow) : UsuarioRow := {|
  id := id u; nombre := nombre u; email := email u;
  password_hash := password_hash u; rol := rol u; activo := activo u;
  intentos_fallidos := intentos_fallidos u; bloqueado_hasta := bloqueado_hasta u;
  ultimo_login := Some t; fecha_creacion := fecha_creacion u;
  fecha_actualizacion := fecha_actualizacion u
|}.

(** [SET activo = ?, fecha_actualizacion = CURRENT_TIMESTAMP] *)
Definition set_activo (a : bool) (t : Z) (u : UsuarioRow) : UsuarioRow := {|
  id := id u; nombre := nombre u; email := email u;
  password_hash := password_hash u; rol := rol u; activo := a;
  intentos_fallidos := intentos_fallidos u; bloqueado_hasta := bloqueado_hasta u;
  ultimo_login := ultimo_login u; fecha_creacion := fecha_creacion u;
  fecha_actualizacion := t
|}.

(** [SET nombre = COALESCE(?, nombre), email = COALESCE(?, email),
    rol = COALESCE(?, rol), fecha_actualizacion = CURRENT_TIMESTAMP] *)
Definition set_profile (nombre' email' rol' : option string) (t : Z)
    (u : UsuarioRow) : UsuarioRow := {|
  id := id u; nombre := default (nombre u) nombre';
  email := default (email u) email';
  password_hash := password_hash u; rol := default (rol u) rol';
  activo := activo u;
  intentos_fallidos := intentos_fallidos u; bloqueado_hasta := bloqueado_hasta u;
  ultimo_login := ultimo_login u; fecha_creacion := fecha_creacion u;
  fecha_actualizacion := t
|}.

(** [SET password_hash = ?, fecha_actualizacion = CURRENT_TIMESTAMP] *)
Definition set_password_hash (hash : string) (t : Z) (u : UsuarioRow) : UsuarioRow := {|
  id := id u; nombre := nombre u; email := email u;
  password_hash := hash; rol := rol u; activo := activo u;
  intentos_fallidos := intentos_fallidos u; bloqueado_hasta := bloqueado_hasta u;
  ultimo_login := ultimo_login u; fecha_creacion := fecha_creacion u;
  fecha_actualizacion := t
|}.

(** [UPDATE usuarios SET ... WHERE id = ?] *)
Definition update_by_id (userId : Z) (f : UsuarioRow -> UsuarioRow) (db : Db) : Db := {|
  usuarios := map (fun u => if id u =? userId then f u else u) (usuarios db);
  intentos_login := intentos_login db
|}.

(** [SELECT ... FROM usuarios WHERE id = ?] *)
Definition select_by_id (userId : Z) (db : Db) : option UsuarioRow :=
  find (fun u => id u =? userId) (usuarios db).

(** The [rol] column's CHECK constraint. *)
Definition rol_check (r : string) : bool :=
  String.eqb r "admin" || String.eqb r "usuario" || String.eqb r "moderador".

(** The rowid AUTOINCREMENT gives the next inserted row. Rows are never
    deleted, so it is one more than the largest [id] in the table. *)
Definition next_rowid (rows : list UsuarioRow) : Z :=
  fold_right Z.max 0 (map id rows) + 1.

Module Usuario.

(** The three errors the model throws itself. *)
Definition CuentaBloqueada : Exn :=
  Error "Cuenta bloqueada temporalmente. Intente más tarde.".

Definition CuentaDesactivada : Exn := Error "La cuenta está desactivada".

Definition EmailYaRegistrado : Exn := Error "El email ya está registrado".

Definition findById (userId : Z) (db : Db) : option UsuarioView :=
  view <$> find (fun u => (id u =? userId) && activo u) (usuarios db).

Definition findByEmail (email' : string) (db : Db) : option UsuarioRow :=
  find (fun u => String.eqb (email u) (Js.trim (Js.toLowerCase email')))
       (usuarios db).

(** [INSERT INTO usuarios (nombre, email, password_hash, rol)]: the other
    columns take their defaults; UNIQUE(email) and CHECK(rol) may throw. *)
Definition insert_usuario (env : Env) (nombre' email' hash rol' : string) : M Z :=
  fun db =>
    if existsb (fun u => String.eqb (email u) email') (usuarios db) then
      (Throw (SqliteError "UNIQUE constraint failed: usuarios.email"), db)
    else if negb (rol_check rol') then
      (Throw (SqliteError "CHECK constraint failed: rol"), db)
    else
      let rowid := next_rowid (usuarios db) in
      (Return rowid,
       {| usuarios := usuarios db ++
            [{| id := rowid; nombre := nombre'; email := email';
                password_hash := hash; rol := rol'; activo := true;
                intentos_fallidos := 0; bloqueado_hasta := None;
                ultimo_login := None;
                fecha_creacion := sql_timestamp env;
                fecha_actualizacion := sql_timestamp env |}];
          intentos_login := intentos_login db |}).

(** [create({ nombre, email, password, rol = 'usuario' })]: every field is
    a string or, when the caller's object lacks it, [None] ([undefined]),
    which is what the two callers, [register] and [apiRegister], pass.
    JavaScript's [null] is not among the arguments modelled: the default
    of [rol] replaces only [undefined], so [rol: null] would be bound as
    NULL, which CHECK lets through. *)
Definition create `{Bcrypt} (cfg : Config) (env : Env)
    (nombre' email' password : option string) (rol' : option string)
  : M PublicUser :=
  match email' with
  | None =>
      throw (TypeError "Cannot read properties of undefined (reading 'toLowerCase')")
  | Some email' =>
      db <- get_db ;;
      match findByEmail email' db with
      | Some _ => throw EmailYaRegistrado
      | None =>
          match password with
          | None => throw (Error "Illegal arguments: undefined, number")
          | Some password =>
              let passwordHash :=
                bcrypt_hash password (bcryptRounds cfg) (bcrypt_salt env) in
              match nombre' with
              | None =>
                  throw (TypeError "Cannot read properties of undefined (reading 'trim')")
              | Some nombre' =>
                  let rol' := default "usuario" rol' in
                  rowid <- insert_usuario env (Js.trim nombre')
                             (Js.trim (Js.toLowerCase email')) passwordHash rol' ;;
                  ret {| pu_id := rowid; pu_nombre := Js.trim nombre';
                         pu_email := Js.trim (Js.toLowerCase email');
                         pu_rol := rol' |}
              end
          end
      end
  end.

(** [incrementFailedAttempts(userId)]: [now] is [Date.now()]. *)
Definition incrementFailedAttempts (cfg : Config) (now : Z) (userId : Z) : M unit :=
  db <- get_db ;;
  let user := select_by_id userId db in
  let newAttempts :=
    match user with Some u => intentos_fallidos u | None => 0 end + 1 in
  let bloqueadoHasta :=
    if maxLoginAttempts cfg <=? newAttempts
    then Some (now + lockoutTime cfg) else None in
  put_db (update_by_id userId (set_attempts newAttempts bloqueadoHasta) db).

Definition resetFailedAttempts (userId : Z) : M unit :=
  db <- get_db ;;
  put_db (update_by_id userId (set_attempts 0 None) db).

Definition updateLastLogin (env : Env) (userId : Z) : M unit :=
  db <- get_db ;;
  put_db (update_by_id userId (set_ultimo_login (sql_timestamp env)) db).

(** The row [registerLoginAttempt] inserts and the table after it. *)
Definition ledger_record (env : Env) (email' : string) (exitoso : bool) : IntentoLogin := {|
  il_email := Js.toLowerCase email'; il_ip_address := None;
  il_exitoso := exitoso; il_fecha := sql_timestamp env
|}.

Definition ledger_append (env : Env) (email' : string) (exitoso : bool) (db : Db) : Db := {|
  usuarios := usuarios db;
  intentos_login := intentos_login db ++ [ledger_record env email' exitoso]
|}.

(** [registerLoginAttempt(email, exitoso, ipAddress = null)] *)
Definition registerLoginAttempt (env : Env) (email' : string) (exitoso : bool) : M unit :=
  match ledger_fault env with
  | Some e => throw e
  | None =>
      db <- get_db ;;
      put_db (ledger_append env email' exitoso db)
  end.

(** [user.bloqueado_hasta && new Date(user.bloqueado_hasta) > new Date()] *)
Definition is_locked (user : UsuarioRow) (now : Z) : bool :=
  match bloqueado_hasta user with
  | Some t => now <? t
  | None => false
  end.

(** Where [verifyCredentials] stands when it first gives up control: it has
    returned, or it waits for [bcrypt.compare] holding the row it read. *)
Inductive Suspended : Type :=
| Done (result : option PublicUser)
| AwaitCompare (user : UsuarioRow).

(** Lines 193-209: everything before [await bcrypt.compare]. *)
Definition before_await (env : Env) (email' : string) : M Suspended :=
  db <- get_db ;;
  match findByEmail email' db with
  | None =>
      registerLoginAttempt env email' false ;;;
      ret (Done None)
  | Some user =>
      if is_locked user (clock_check env) then
        throw CuentaBloqueada
      else if negb (activo user) then
        throw CuentaDesactivada
      else ret (AwaitCompare user)
  end.

(** Lines 214-232: everything after [await bcrypt.compare], [isValid]
    being its value. *)
Definition after_await (cfg : Config) (env : Env) (email' : string)
    (user : UsuarioRow) (isValid : bool) : M (option PublicUser) :=
  if negb isValid then
    incrementFailedAttempts cfg (clock_write env) (id user) ;;;
    registerLoginAttempt env email' false ;;;
    ret None
  else
    resetFailedAttempts (id user) ;;;
    updateLastLogin env (id user) ;;;
    registerLoginAttempt env email' true ;;;
    ret (Some (public user)).

Definition verifyCredentials `{Bcrypt} (cfg : Config) (env : Env)
    (email' password : string) : M (option PublicUser) :=
  s <- before_await env email' ;;
  match s with
  | Done result => ret result
  | AwaitCompare user =>
      after_await cfg env email' user
        (bcrypt_compare password (password_hash user))
  end.

Definition deactivate (env : Env) (userId : Z) : M bool :=
  db <- get_db ;;
  put_db (update_by_id userId (set_activo false (sql_timestamp env)) db) ;;;
  ret (existsb (fun u => id u =? userId) (usuarios db)).

Definition activate (env : Env) (userId : Z) : M bool :=
  db <- get_db ;;
  put_db (update_by_id userId (set_activo true (sql_timestamp env)) db) ;;;
  ret (existsb (fun u => id u =? userId) (usuarios db)).

Definition EmailDeOtroUsuario : Exn :=
  Error "El email ya está registrado por otro usuario".

(** [if (email)]: a string is truthy unless it is empty, [undefined] is
    not. *)
Definition truthy (o : option string) : bool :=
  match o with
  | Some (String _ _) => true
  | _ => false
  end.

(** [SELECT COUNT( * ) as total FROM usuarios] *)
Definition count (db : Db) : Z := Z.of_nat (length (usuarios db)).

(** The UPDATE of [update] as SQLite runs it: [undefined] is bound as NULL,
    so COALESCE keeps the column; the statement fails, changing nothing,
    when a row it rewrites breaks CHECK(rol) or shares its new email with
    another row (UNIQUE); it returns the number of rows it matched. *)
Definition update_usuario (env : Env) (userId : Z)
    (nombre' email' rol' : option string) : M Z :=
  fun db =>
    let db' :=
      update_by_id userId (set_profile nombre' email' rol' (sql_timestamp env)) db in
    let rewritten u := id u =? userId in
    if existsb (fun u => rewritten u && negb (rol_check (rol u))) (usuarios db') then
      (Throw (SqliteError "CHECK constraint failed: rol"), db)
    else if existsb (fun u => rewritten u &&
                       (1 <? count_occ string_dec (map email (usuarios db')) (email u))%nat)
                    (usuarios db') then
      (Throw (SqliteError "UNIQUE constraint failed: usuarios.email"), db)
    else
      (Return (Z.of_nat (length (List.filter rewritten (usuarios db)))), db').

(** [update(id, { nombre, email, rol })] *)
Definition update (env : Env) (userId : Z) (nombre' email' rol' : option string)
  : M bool :=
  db <- get_db ;;
  let existingUser :=
    if truthy email' then email' ≫= (fun e => findByEmail e db) else None in
  let statement :=
    changes <- update_usuario env userId nombre'
                 ((fun e => Js.trim (Js.toLowerCase e)) <$> email') rol' ;;
    ret (0 <? changes) in
  match existingUser with
  | Some existing =>
      if negb (id existing =? userId) then throw EmailDeOtroUsuario else statement
  | None => statement
  end.

(** [changePassword(id, newPassword)] *)
Definition changePassword `{Bcrypt} (cfg : Config) (env : Env) (userId : Z)
    (newPassword : option string) : M bool :=
  match newPassword with
  | None => throw (Error "Illegal arguments: undefined, number")
  | Some newPassword =>
      let passwordHash :=
        bcrypt_hash newPassword (bcryptRounds cfg) (bcrypt_salt env) in
      db <- get_db ;;
      put_db (update_by_id userId
                (set_password_hash passwordHash (sql_timestamp env)) db) ;;;
      ret (existsb (fun u => id u =? userId) (usuarios db))
  end.

End Usuario.

(** ** HTTP: request bodies and responses *)

(** [req.body] after the body parser: a JavaScript object. *)
Abbreviation Body := (gmap string string).

Inductive Flash : Type :=
| FlashList (messages : list string)
| FlashObject (o : gmap string string).

Inductive Response : Type :=
| Json (status : Z) (success : bool) (message : string)
       (data : option (PublicUser * string))     (* [{ user, token }] *)
| Redirect (location : string) (flash : list (string * Flash)).

(** The object [{ k: o.k }]. *)
Definition pick (k : string) (o : gmap string string) : gmap string string :=
  match o !! k with
  | Some v => {[ k := v ]}
  | None => ∅
  end.

(** [try { m } catch (error) { h(error) }] *)
Definition try_catch {A} (m : M A) (h : Exn -> M A) : M A :=
  fun db =>
    match m db with
    | (Return a, db') => (Return a, db')
    | (Throw e, db') => h e db'
    end.

(** A value of a parsed JSON or form body. *)
Inductive JsValue : Type :=
| JsUndefined
| JsNull
| JsBoolean (b : bool)
| JsNumber (n : Z)
| JsString (s : string)
| JsObject.

(** What [if (v)] and [v ? a : b] test. *)
Definition js_truthy (v : JsValue) : bool :=
  match v with
  | JsUndefined | JsNull => false
  | JsBoolean b => b
  | JsNumber n => negb (n =? 0)
  | JsString s => negb (String.eqb s "")
  | JsObject => true
  end.

(** [req.session.user]: the object [login] stores; [updateProfile]
    overwrites its name and email with fields of the body, which may be
    [undefined]. *)
Record SessionUser : Type := {
  su_id : Z;
  su_nombre : option string;
  su_email : option string;
  su_rol : string
}.

Definition session_user_of (user : PublicUser) : SessionUser := {|
  su_id := pu_id user; su_nombre := Some (pu_nombre user);
  su_email := Some (pu_email user); su_rol := pu_rol user
|}.

(** [req.session], which express-session sets on every request. *)
Record Session : Type := {
  sessionID : Z;
  session_user : option SessionUser;
  returnTo : option string
}.

(** [req.user]: set by [verifyToken] to a row of the store, by
    [optionalAuth] to the session's user. *)
Inductive Principal : Type :=
| FromToken (user : UsuarioView)
| FromSession (user : SessionUser).

Definition principal_rol (p : Principal) : string :=
  match p with
  | FromToken user => v_rol user
  | FromSession user => su_rol user
  end.

Record Request : Type := {
  req_xhr : bool;
  req_accept : option string;       (* [req.headers.accept] *)
  req_originalUrl : string;
  req_session : Session;
  req_user : option Principal
}.

(** [req.xhr || req.headers.accept?.includes('application/json')] *)
Definition wants_json (req : Request) : bool :=
  req_xhr req ||
  match req_accept req with
  | Some accept => Js.includes "application/json" accept
  | None => false
  end.

(** ** middleware/auth.js *)

Module Auth.

Definition generateToken `{Jwt} (cfg : Config) (env : Env) (user : PublicUser) : string :=
  jwt_sign {| userId := pu_id user; jwt_email := pu_email user; jwt_rol := pu_rol user |}
           (jwt_secret cfg) (jwt_expiresIn cfg) (clock_sign env).

(** What a middleware does with a request: answer it, or call [next()]
    after setting [req.user]. *)
Inductive Outcome : Type :=
| Respond (r : Response)
| Next (req_user : UsuarioView).

Definition unauthorized (message : string) : Outcome :=
  Respond (Json 401 false message None).

(** [authHeader.split(' ')[1]] *)
Definition token_of (authHeader : string) : string :=
  nth 1 (Js.split_space authHeader) "".

(** [verifyToken(req, res, next)]: [authorization] is
    [req.headers.authorization], [now] the clock [jwt.verify] reads. *)
Definition verifyToken `{Jwt} (cfg : Config) (now : Z)
    (authorization : option string) (db : Db) : Outcome :=
  match authorization with
  | None => unauthorized "Token de acceso no proporcionado"
  | Some authHeader =>
      if negb (Js.startsWith "Bearer " authHeader) then
        unauthorized "Token de acceso no proporcionado"
      else
        let token := token_of authHeader in
        match jwt_verify token (jwt_secret cfg) now with
        | Decoded decoded =>
            match Usuario.findById (userId (payload decoded)) db with
            | None => unauthorized "Usuario no encontrado o inactivo"
            | Some user => Next user
            end
        | JwtThrow name =>
            if String.eqb name "TokenExpiredError" then
              unauthorized "Token expirado. Por favor, inicie sesión nuevamente."
            else unauthorized "Token inválido"
        end
  end.

(** The header a client sends for a token. *)
Definition bearer (token : string) : option string :=
  Some ("Bearer " ++ token)%string.

(** What a session guard does with a request: answer it, or call
    [next()]; either way the request it leaves, and [res.locals.user] when
    it set it. *)
Inductive Guard : Type :=
| Answer (r : Response) (req' : Request)
| Proceed (req' : Request) (locals_user : option SessionUser).

Definition isAuthenticated (req : Request) : Guard :=
  match session_user (req_session req) with
  | Some user => Proceed req (Some user)
  | None =>
      if wants_json req then
        Answer (Json 401 false "No autorizado. Por favor, inicie sesión." None) req
      else
        Answer (Redirect "/auth/login"
                  [("error",
                    FlashList ["Debe iniciar sesión para acceder a esta página"])])
               {| req_xhr := req_xhr req; req_accept := req_accept req;
                  req_originalUrl := req_originalUrl req;
                  req_session :=
                    {| sessionID := sessionID (req_session req);
                       session_user := None;
                       returnTo := Some (req_originalUrl req) |};
                  req_user := req_user req |}
  end.

Definition isNotAuthenticated (req : Request) : Guard :=
  match session_user (req_session req) with
  | Some _ => Answer (Redirect "/dashboard" []) req
  | None => Proceed req None
  end.

(** [req.session?.user || req.user] *)
Definition effective_user (req : Request) : option Principal :=
  match session_user (req_session req) with
  | Some user => Some (FromSession user)
  | None => req_user req
  end.

Definition hasRole (roles : list string) (req : Request) : Guard :=
  match effective_user req with
  | None =>
      if wants_json req then Answer (Json 401 false "No autorizado" None) req
      else Answer (Redirect "/auth/login"
                     [("error", FlashList ["Debe iniciar sesión"])]) req
  | Some user =>
      if negb (existsb (String.eqb (principal_rol user)) roles) then
        if wants_json req then
          Answer (Json 403 false "No tiene permisos para realizar esta acción" None)
                 req
        else
          Answer (Redirect "/dashboard"
                    [("error",
                      FlashList ["No tiene permisos para acceder a esta página"])])
                 req
      else Proceed req None
  end.

Definition isAdmin : Request -> Guard := hasRole ["admin"].

Definition isModeratorOrAdmin : Request -> Guard := hasRole ["admin"; "moderador"].

Definition optionalAuth (req : Request) : Guard :=
  match session_user (req_session req) with
  | Some user =>
      Proceed {| req_xhr := req_xhr req; req_accept := req_accept req;
                 req_originalUrl := req_originalUrl req;
                 req_session := req_session req;
                 req_user := Some (FromSession user) |}
              (Some user)
  | None => Proceed req None
  end.

End Auth.

(** ** controllers/authController.js *)

Module AuthController.

Definition register `{Bcrypt} (cfg : Config) (env : Env) (body : Body) : M Response :=
  try_catch
    (Usuario.create cfg env (body !! "nombre") (body !! "email")
                    (body !! "password") (Some "usuario") ;;;
     ret (Redirect "/auth/login"
            [("success",
              FlashList ["¡Cuenta creada exitosamente! Ahora puede iniciar sesión."])]))
    (fun error =>
       ret (Redirect "/auth/register"
              [("errors", FlashList [exn_message error]);
               ("oldInput", FlashObject (pick "nombre" body ∪ pick "email" body))])).

Definition apiRegister `{Bcrypt} `{Jwt} (cfg : Config) (env : Env) (body : Body)
  : M Response :=
  try_catch
    (user <- Usuario.create cfg env (body !! "nombre") (body !! "email")
                            (body !! "password") (Some "usuario") ;;
     let token := Auth.generateToken cfg env user in
     ret (Json 201 true "Usuario registrado exitosamente" (Some (user, token))))
    (fun error => ret (Json 400 false (exn_message error) None)).

(** [Usuario.verifyCredentials(email, password)] on fields of [req.body]
    that may be [undefined]. *)
Definition verifyCredentials_body `{Bcrypt} (cfg : Config) (env : Env)
    (email' password : option string) : M (option PublicUser) :=
  match email', password with
  | None, _ =>
      throw (TypeError "Cannot read properties of undefined (reading 'toLowerCase')")
  | Some email', Some password => Usuario.verifyCredentials cfg env email' password
  | Some email', None =>
      s <- Usuario.before_await env email' ;;
      match s with
      | Usuario.Done result => ret result
      | Usuario.AwaitCompare _ => throw (Error "Illegal arguments: undefined, string")
      end
  end.

Definition apiLogin `{Bcrypt} `{Jwt} (cfg : Config) (env : Env) (body : Body)
  : M Response :=
  try_catch
    (user <- verifyCredentials_body cfg env (body !! "email") (body !! "password") ;;
     match user with
     | None => ret (Json 401 false "Credenciales inválidas" None)
     | Some user =>
         let token := Auth.generateToken cfg env user in
         ret (Json 200 true "Login exitoso" (Some (user, token)))
     end)
    (fun error => ret (Json 500 false (exn_message error) None)).

(** [req.session.regenerate]: express-session drops the session and
    starts an empty one under a new id. *)
Definition regenerate (newId : Z) (session : Session) : Session :=
  {| sessionID := newId; session_user := None; returnTo := None |}.

(** [login(req, res)]: [newId] is the id the regenerated session gets. The
    result is the response and the session the request ends with. *)
Definition login `{Bcrypt} (cfg : Config) (env : Env) (newId : Z) (body : Body)
    (session : Session) : M (Response * Session) :=
  try_catch
    (user <- verifyCredentials_body cfg env (body !! "email") (body !! "password") ;;
     match user with
     | None =>
         ret (Redirect "/auth/login"
                [("errors", FlashList ["Email o contraseña incorrectos"]);
                 ("oldInput", FlashObject (pick "email" body))],
              session)
     | Some user =>
         let session1 :=
           {| sessionID := sessionID session;
              session_user := Some (session_user_of user);
              returnTo := returnTo session |} in
         let session2 := regenerate newId session1 in
         let session3 :=
           {| sessionID := sessionID session2;
              session_user := Some (session_user_of user);
              returnTo := returnTo session2 |} in
         ret (Redirect (match returnTo session3 with
                        | Some (String c url) => String c url
                        | _ => "/dashboard"
                        end)
                [("success", FlashList [("¡Bienvenido, " ++ pu_nombre user ++ "!")%string])],
              {| sessionID := sessionID session3;
                 session_user := session_user session3;
                 returnTo := None |})
     end)
    (fun error =>
       ret (Redirect "/auth/login"
              [("errors", FlashList [exn_message error]);
               ("oldInput", FlashObject (pick "email" body))],
            session)).

End AuthController.

(** ** controllers/userController.js *)

Module UserController.

(** [updateProfile(req, res)]: the response and [req.session.user] after
    it. *)
Definition updateProfile (env : Env) (body : Body) (user : SessionUser)
  : M (Response * SessionUser) :=
  try_catch
    (Usuario.update env (su_id user) (body !! "nombre") (body !! "email") None ;;;
     ret (Redirect "/dashboard/perfil"
            [("success", FlashList ["Perfil actualizado exitosamente"])],
          {| su_id := su_id user; su_nombre := body !! "nombre";
             su_email := body !! "email"; su_rol := su_rol user |}))
    (fun error =>
       ret (Redirect "/dashboard/perfil"
              [("errors", FlashList [exn_message error]);
               ("oldInput", FlashObject body)],
            user)).

(** [changePassword(req, res)] *)
Definition changePassword `{Bcrypt} (cfg : Config) (env : Env) (body : Body)
    (user : SessionUser) : M Response :=
  try_catch
    (match su_email user with
     | None =>
         throw (TypeError "Cannot read properties of undefined (reading 'toLowerCase')")
     | Some sessionEmail =>
         db <- get_db ;;
         match Usuario.findByEmail sessionEmail db with
         | None =>
             ret (Redirect "/dashboard/cambiar-password"
                    [("errors", FlashList ["Usuario no encontrado"])])
         | Some row =>
             match body !! "currentPassword" with
             | None => throw (Error "Illegal arguments: undefined, string")
             | Some currentPassword =>
                 if negb (bcrypt_compare currentPassword (password_hash row)) then
                   ret (Redirect "/dashboard/cambiar-password"
                          [("errors",
                            FlashList ["La contraseña actual es incorrecta"])])
                 else
                   Usuario.changePassword cfg env (su_id user)
                     (body !! "newPassword") ;;;
                   ret (Redirect "/dashboard/perfil"
                          [("success",
                            FlashList ["Contraseña cambiada exitosamente"])])
             end
         end
     end)
    (fun error =>
       ret (Redirect "/dashboard/cambiar-password"
              [("errors", FlashList [exn_message error])])).

(** [toggleUserStatus(req, res)]: [idParam] is [req.params.id], an integer
    after [idParamValidation]; [activo] is [req.body.activo]. *)
Definition toggleUserStatus (env : Env) (idParam : Z) (activo : JsValue)
    (req : Request) (user : SessionUser) : M Response :=
  if idParam =? su_id user then
    if wants_json req then
      ret (Json 400 false "No puede desactivar su propia cuenta" None)
    else
      ret (Redirect "/admin/usuarios"
             [("errors", FlashList ["No puede desactivar su propia cuenta"])])
  else
    let message :=
      ("Usuario " ++ (if js_truthy activo then "activado" else "desactivado")
       ++ " exitosamente")%string in
    (if js_truthy activo then Usuario.activate env idParam
     else Usuario.deactivate env idParam) ;;;
    if wants_json req then ret (Json 200 true message None)
    else ret (Redirect "/admin/usuarios" [("success", FlashList [message])]).

End UserController.

(** ** routes/admin.js *)

Module AdminRoutes.

(** [router.use(isAuthenticated, isAdmin)]: the second guard runs on the
    request the first one left, if that one called [next()]. *)
Definition guards (req : Request) : Auth.Guard :=
  match Auth.isAuthenticated req with
  | Auth.Proceed req' locals =>
      match Auth.isAdmin req' with
      | Auth.Proceed req'' _ => Auth.Proceed req'' locals
      | answer => answer
      end
  | answer => answer
  end.

(** [router.post('/usuarios/:id/toggle', idParamValidation,
    userController.toggleUserStatus)] behind the guards; [idParam] is the
    integer [idParamValidation] leaves. Without a user in the session,
    [req.session.user.id] throws inside the controller's [try]. *)
Definition toggle (env : Env) (idParam : Z) (activo : JsValue) (req : Request)
  : M Response :=
  match guards req with
  | Auth.Answer r _ => ret r
  | Auth.Proceed req' _ =>
      match session_user (req_session req') with
      | Some user => UserController.toggleUserStatus env idParam activo req' user
      | None =>
          let message := "Cannot read properties of undefined (reading 'id')" in
          if wants_json req' then ret (Json 400 false message None)
          else ret (Redirect "/admin/usuarios" [("errors", FlashList [message])])
      end
  end.

End AdminRoutes.

(** ** Vocabulary of the statements *)

(** [id] is the table's PRIMARY KEY. *)
Definition primary_key (db : Db) : Prop := NoDup (map id (usuarios db)).

(** [u] is the account of [email']: the row [findByEmail] returns, which is
    also the row the statements [WHERE id = ?] read. *)
Definition account (email' : string) (db : Db) (u : UsuarioRow) : Prop :=
  Usuario.findByEmail email' db = Some u /\ select_by_id (id u) db = Some u.

(** The identity [email'] is registered: some stored row, whatever its
    state, has its normalized form as email. *)
Definition registered_identity (email' : string) (db : Db) : Prop :=
  exists u, In u (usuarios db) /\ email u = Js.trim (Js.toLowerCase email').

(** [verifyCredentials] called once per element of [calls], in order, each
    call with its own environment and password. *)
Fixpoint logins `{Bcrypt} (cfg : Config) (email' : string)
    (calls : list (Env * string)) (db : Db)
  : list (Completion (option PublicUser)) * Db :=
  match calls with
  | [] => ([], db)
  | (env, password) :: rest =>
      let '(c, db') := Usuario.verifyCredentials cfg env email' password db in
      let '(cs, db'') := logins cfg email' rest db' in
      (c :: cs, db'')
  end.

(** A call that did not authenticate. *)
Definition failed (c : Completion (option PublicUser)) : Prop :=
  forall p, c <> Return (Some p).

(** The counter and the lockout agree, as every write of them leaves them:
    a lockout is stored exactly from the threshold on. *)
Definition lockout_state (cfg : Config) (u : UsuarioRow) : Prop :=
  0 <= intentos_fallidos u /\
  (bloqueado_hasta u <> None -> maxLoginAttempts cfg <= intentos_fallidos u).

(** What [k] failed logins in a row leave of an account: its counter and
    lockout agree, and while no lockout is stored every one of the [k]
    logins was counted and the threshold is not reached. *)
Definition counted (cfg : Config) (k : Z) (u : UsuarioRow) : Prop :=
  lockout_state cfg u /\
  (bloqueado_hasta u = None ->
   k <= intentos_fallidos u /\
   (1 <= k -> intentos_fallidos u < maxLoginAttempts cfg)).

(** The row after a failed password check at [now]. *)
Definition after_failure (cfg : Config) (now : Z) (u : UsuarioRow) : UsuarioRow :=
  set_attempts (intentos_fallidos u + 1)
    (if maxLoginAttempts cfg <=? intentos_fallidos u + 1
     then Some (now + lockoutTime cfg) else None) u.

(** The row after a successful login stamped [t]. *)
Definition after_success (t : Z) (u : UsuarioRow) : UsuarioRow :=
  set_ultimo_login t (set_attempts 0 None u).

(** The table after the two writes of [verifyCredentials] for account [u]. *)
Definition write_failure (cfg : Config) (now : Z) (u : UsuarioRow) (db : Db) : Db :=
  update_by_id (id u)
    (set_attempts (intentos_fallidos u + 1)
       (if maxLoginAttempts cfg <=? intentos_fallidos u + 1
        then Some (now + lockoutTime cfg) else None)) db.

Definition write_success (t : Z) (u : UsuarioRow) (db : Db) : Db :=
  update_by_id (id u) (set_ultimo_login t)
    (update_by_id (id u) (set_attempts 0 None) db).


(** ** Two requests in one Node.js process

    JavaScript runs a function to its next [await] without interruption,
    and better-sqlite3 statements are synchronous: a pending
    [verifyCredentials] is either not started, suspended at its
    [await bcrypt.compare], or finished, and the event loop advances one
    pending call at a time. *)

Module EventLoop.

Inductive Task : Type :=
| Start (env : Env) (email' password : string)
| Waiting (env : Env) (email' password : string) (user : UsuarioRow)
| Finished (c : Completion (option PublicUser)).

Definition step `{Bcrypt} (cfg : Config) (t : Task) (db : Db) : Task * Db :=
  match t with
  | Start env email' password =>
      match Usuario.before_await env email' db with
      | (Return (Usuario.Done result), db') => (Finished (Return result), db')
      | (Return (Usuario.AwaitCompare user), db') =>
          (Waiting env email' password user, db')
      | (Throw e, db') => (Finished (Throw e), db')
      end
  | Waiting env email' password user =>
      let '(c, db') :=
        Usuario.after_await cfg env email' user
          (bcrypt_compare password (password_hash user)) db in
      (Finished c, db')
  | Finished c => (t, db)
  end.

(** A schedule names, turn by turn, which of two pending calls runs:
    [true] the first, [false] the second. *)
Fixpoint run `{Bcrypt} (cfg : Config) (schedule : list bool)
    (t1 t2 : Task) (db : Db) : Task * Task * Db :=
  match schedule with
  | [] => (t1, t2, db)
  | true :: rest => let '(t1', db') := step cfg t1 db in run cfg rest t1' t2 db'
  | false :: rest => let '(t2', db') := step cfg t2 db in run cfg rest t1 t2' db'
  end.

(** The failed-attempt counter and the lockout of account [userId], as the
    statements [WHERE id = ?] read them. *)
Definition counter (userId : Z) (db : Db) : Z :=
  match select_by_id userId db with
  | Some u => intentos_fallidos u
  | None => 0
  end.

Definition lockout (userId : Z) (db : Db) : option Z :=
  select_by_id userId db ≫= bloqueado_hasta.

(** Calls suspended at their [await]: each still owes one write. *)
Definition pending (t : Task) : Z :=
  match t with
  | Waiting _ _ _ _ => 1
  | _ => 0
  end.

Definition finished (t : Task) : Prop :=
  match t with
  | Finished _ => True
  | _ => False
  end.

(** A call for account [userId] with a wrong password, past its checks:
    suspended holding a row of that account, or finished without
    authenticating. *)
Definition in_flight `{Bcrypt} (userId : Z) (t : Task) : Prop :=
  match t with
  | Start _ _ _ => False
  | Waiting _ _ password user =>
      id user = userId /\ bcrypt_compare password (password_hash user) = false
  | Finished c => failed c
  end.

(** Two such calls over a database: every write made so far is in the
    counter, and once a write was made the lockout follows the counter. *)
Definition two_in_flight `{Bcrypt} (cfg : Config) (userId c0 : Z)
    (t1 t2 : Task) (db : Db) : Prop :=
  in_flight userId t1 /\ in_flight userId t2
  /\ (exists cur, select_by_id userId db = Some cur)
  /\ counter userId db + pending t1 + pending t2 = c0 + 2
  /\ (pending t1 + pending t2 < 2 ->
      maxLoginAttempts cfg <= counter userId db -> lockout userId db <> None).

End EventLoop.

(** ** What the sources rely on from jsonwebtoken

    [sign] stamps [iat = floor(now / 1000)] and [exp = iat + expiresIn];
    [verify] returns the payload it signed while [floor(now / 1000) < exp]
    and throws [TokenExpiredError] from then on; a token is made of
    base64url text and dots. [verify] checks the HMAC signature before
    anything else: the signature taken as unforgeable, a string that no
    [sign] with the secret returns makes it throw [JsonWebTokenError]. *)
Class JwtLaws `{Jwt} : Prop := {
  jwt_verify_fresh : forall p secret e t now,
    now / 1000 < t / 1000 + e ->
    jwt_verify (jwt_sign p secret e t) secret now
    = Decoded {| payload := p; iat := t / 1000; exp := t / 1000 + e |};
  jwt_verify_expired : forall p secret e t now,
    t / 1000 + e <= now / 1000 ->
    jwt_verify (jwt_sign p secret e t) secret now = JwtThrow "TokenExpiredError";
  jwt_sign_no_space : forall p secret e t,
    Js.no_space (jwt_sign p secret e t) = true;
  jwt_verify_unsigned : forall token secret now,
    (forall p e t, token <> jwt_sign p secret e t) ->
    jwt_verify token secret now = JwtThrow "JsonWebTokenError"
}.

(** What the sources rely on from bcryptjs: a password verifies against
    its own hash, whatever the salt and the cost. *)
Class BcryptLaws `{Bcrypt} : Prop := {
  bcrypt_compare_hash : forall password rounds salt,
    bcrypt_compare password (bcrypt_hash password rounds salt) = true
}.

(** ** Reference instances of the two libraries

    Small executable stand-ins with the behaviour above, on which the
    model can be run. *)

Module Reference.

#[export] Instance bcrypt : Bcrypt := {|
  bcrypt_hash password _ _ := ("$2a$" ++ password)%string;
  bcrypt_compare password hash := String.eqb hash ("$2a$" ++ password)%string
|}.

Definition bit_char (b : bool) : ascii := if b then "1"%char else "0"%char.

Definition char_bit (c : ascii) : bool := Ascii.eqb c "1"%char.

(** A field is written as the bits of its characters, closed by a dot. *)
Fixpoint enc_field (f : string) (rest : string) : string :=
  match f with
  | EmptyString => String "."%char rest
  | String (Ascii b0 b1 b2 b3 b4 b5 b6 b7) f' =>
      String (bit_char b0) (String (bit_char b1) (String (bit_char b2)
      (String (bit_char b3) (String (bit_char b4) (String (bit_char b5)
      (String (bit_char b6) (String (bit_char b7) (enc_field f' rest))))))))
  end.

Fixpoint dec_field (s : string) : option (string * string) :=
  match s with
  | String c0 (String c1 (String c2 (String c3 (String c4 (String c5
      (String c6 (String c7 s'))))))) =>
      if Ascii.eqb c0 "."%char then
        Some (EmptyString,
              String c1 (String c2 (String c3 (String c4 (String c5
                (String c6 (String c7 s')))))))
      else
        match dec_field s' with
        | Some (f, rest) =>
            Some (String (Ascii (char_bit c0) (char_bit c1) (char_bit c2)
                                (char_bit c3) (char_bit c4) (char_bit c5)
                                (char_bit c6) (char_bit c7)) f, rest)
        | None => None
        end
  | String c0 rest => if Ascii.eqb c0 "."%char then Some (EmptyString, rest) else None
  | EmptyString => None
  end.

Definition encode (secret : string) (d : JwtDecoded) : string :=
  enc_field secret
    (enc_field (HexString.of_Z (userId (payload d)))
    (enc_field (jwt_email (payload d))
    (enc_field (jwt_rol (payload d))
    (enc_field (HexString.of_Z (iat d))
    (enc_field (HexString.of_Z (exp d)) EmptyString))))).

Definition decode (token : string) : option (string * JwtDecoded) :=
  '(secret, s1) ← dec_field token;
  '(uid, s2) ← dec_field s1;
  '(mail, s3) ← dec_field s2;
  '(role, s4) ← dec_field s3;
  '(issued, s5) ← dec_field s4;
  '(expires, s6) ← dec_field s5;
  match s6 with
  | EmptyString =>
      Some (secret,
            {| payload := {| userId := HexString.to_Z uid; jwt_email := mail;
                             jwt_rol := role |};
               iat := HexString.to_Z issued; exp := HexString.to_Z expires |})
  | _ => None
  end.

#[export] Instance jwt : Jwt := {|
  jwt_sign p secret expiresIn now :=
    encode secret {| payload := p; iat := now / 1000; exp := now / 1000 + expiresIn |};
  jwt_verify token secret now :=
    match decode token with
    | Some (secret', d) =>
        if negb (String.eqb secret' secret) then JwtThrow "JsonWebTokenError"
        else if negb (String.eqb token (encode secret' d)) then
          JwtThrow "JsonWebTokenError"
        else if exp d <=? now / 1000 then JwtThrow "TokenExpiredError"
        else Decoded d
    | None => JwtThrow "JsonWebTokenError"
    end
|}.

End Reference.

(** ** Concrete inputs

    The scenario of the specification: one registered account,
    "a@x.com" with password "Secret1!", run with the reference libraries. *)

Module Scenario.

(** A call at time [t] in which every statement succeeds. *)
Definition env (t : Z) : Env := {|
  clock_check := t; clock_write := t; sql_timestamp := t;
  ledger_fault := None; bcrypt_salt := "salt"; clock_sign := t
|}.

(** The same call when the INSERT into [intentos_login] throws. *)
Definition env_ledger_down (t : Z) : Env := {|
  clock_check := t; clock_write := t; sql_timestamp := t;
  ledger_fault := Some (SqliteError "disk I/O error");
  bcrypt_salt := "salt"; clock_sign := t
|}.

Definition empty : Db := {| usuarios := []; intentos_login := [] |}.

Definition ana : UsuarioRow := {|
  id := 1; nombre := "Ana"; email := "a@x.com";
  password_hash := "$2a$Secret1!"; rol := "usuario"; activo := true;
  intentos_fallidos := 0; bloqueado_hasta := None; ultimo_login := None;
  fecha_creacion := 1000; fecha_actualizacion := 1000
|}.

(** The database after registering Ana at time 1000. *)
Definition registered : Db := {| usuarios := [ana]; intentos_login := [] |}.

(** Ana after an administrator deactivated her account at time 2000. *)
Definition deactivated : Db :=
  snd (Usuario.deactivate (env 2000) 1 registered).

(** Five logins with the password "wrong", one second apart from 2000. *)
Definition five_wrong : list (Env * string) :=
  [(env 2000, "wrong"); (env 3000, "wrong"); (env 4000, "wrong");
   (env 5000, "wrong"); (env 6000, "wrong")].

(** Ana with her counter at the threshold and a lockout that ended at
    906000. *)
Definition ana_at_threshold : UsuarioRow := set_attempts 5 (Some 906000) ana.

Definition at_threshold : Db :=
  {| usuarios := [ana_at_threshold]; intentos_login := [] |}.

(** Ana one failure short of the threshold. *)
Definition ana_one_short : UsuarioRow := set_attempts 4 None ana.

Definition one_short : Db :=
  {| usuarios := [ana_one_short]; intentos_login := [] |}.

(** The token issued to Ana at time 5000, valid for an hour. *)
Definition token : string :=
  @Auth.generateToken Reference.jwt default_config (env 5000) (public ana).

End Scenario.

(** A second account beside Ana's, an administrator's, and the session
    and form of Ana changing her profile. *)

Module Roster.

Definition ben : UsuarioRow := {|
  id := 2; nombre := "Ben"; email := "b@x.com";
  password_hash := "$2a$Letmein2?"; rol := "admin"; activo := true;
  intentos_fallidos := 0; bloqueado_hasta := None; ultimo_login := None;
  fecha_creacion := 1500; fecha_actualizacion := 1500
|}.

Definition two : Db :=
  {| usuarios := [Scenario.ana; ben]; intentos_login := [] |}.

(** [req.session.user] after Ana logged in. *)
Definition ana_session : SessionUser := session_user_of (public Scenario.ana).

(** The body of [POST /dashboard/perfil]. *)
Definition profile : Body :=
  <["nombre" := "Ana Maria"]> (<["email" := " Ana@X.com "]> ∅).

End Roster.

(** ** Histories

    The calls that write to the database, and a database as a history of
    such calls leaves it, starting from the empty tables of
    [database/init.js]. The arguments of a call are the ones the
    definitions above take: strings, or [None] for [undefined]. *)

Inductive Call : Type :=
| CallCreate (env : Env) (nombre' email' password rol' : option string)
| CallVerifyCredentials (env : Env) (email' password : string)
| CallUpdate (env : Env) (userId : Z) (nombre' email' rol' : option string)
| CallChangePassword (env : Env) (userId : Z) (newPassword : option string)
| CallDeactivate (env : Env) (userId : Z)
| CallActivate (env : Env) (userId : Z)
| CallRegister (env : Env) (body : Body)
| CallApiRegister (env : Env) (body : Body)
| CallApiLogin (env : Env) (body : Body)
| CallLogin (env : Env) (newId : Z) (body : Body) (session : Session)
| CallUpdateProfile (env : Env) (body : Body) (user : SessionUser)
| CallChangePasswordForm (env : Env) (body : Body) (user : SessionUser)
| CallToggleUserStatus (env : Env) (idParam : Z) (activo : JsValue)
    (req : Request) (user : SessionUser).

Definition exec `{Bcrypt} `{Jwt} (cfg : Config) (c : Call) (db : Db) : Db :=
  match c with
  | CallCreate env nombre' email' password rol' =>
      snd (Usuario.create cfg env nombre' email' password rol' db)
  | CallVerifyCredentials env email' password =>
      snd (Usuario.verifyCredentials cfg env email' password db)
  | CallUpdate env userId nombre' email' rol' =>
      snd (Usuario.update env userId nombre' email' rol' db)
  | CallChangePassword env userId newPassword =>
      snd (Usuario.changePassword cfg env userId newPassword db)
  | CallDeactivate env userId => snd (Usuario.deactivate env userId db)
  | CallActivate env userId => snd (Usuario.activate env userId db)
  | CallRegister env body => snd (AuthController.register cfg env body db)
  | CallApiRegister env body => snd (AuthController.apiRegister cfg env body db)
  | CallApiLogin env body => snd (AuthController.apiLogin cfg env body db)
  | CallLogin env newId body session =>
      snd (AuthController.login cfg env newId body session db)
  | CallUpdateProfile env body user =>
      snd (UserController.updateProfile env body user db)
  | CallChangePasswordForm env body user =>
      snd (UserController.changePassword cfg env body user db)
  | CallToggleUserStatus env idParam activo req user =>
      snd (UserController.toggleUserStatus env idParam activo req user db)
  end.

Definition no_rows : Db := {| usuarios := []; intentos_login := [] |}.

Definition history `{Bcrypt} `{Jwt} (cfg : Config) (calls : list Call) : Db :=
  fold_left (fun db c => exec cfg c db) calls no_rows.

(** An email as the model stores it. *)
Definition normalized (e : string) : Prop := Js.trim (Js.toLowerCase e) = e.

(** The shape every write keeps: distinct ids, distinct emails, and in
    every row a normalized email, a role of the CHECK list and a counter
    and lockout that agree. *)
Definition well_formed (cfg : Config) (db : Db) : Prop :=
  NoDup (map id (usuarios db)) /\
  NoDup (map email (usuarios db)) /\
  Forall (fun u => normalized (email u) /\ rol_check (rol u) = true /\
                   lockout_state cfg u) (usuarios db).

(** The calls of [models/Usuario.js] through which every controller
    writes. *)
Inductive Write : Type :=
| WriteCreate (env : Env) (nombre' email' password rol' : option string)
| WriteVerifyCredentials (env : Env) (email' password : string)
| WriteBeforeAwait (env : Env) (email' : string)
| WriteUpdate (env : Env) (userId : Z) (nombre' email' rol' : option string)
| WriteChangePassword (env : Env) (userId : Z) (newPassword : option string)
| WriteDeactivate (env : Env) (userId : Z)
| WriteActivate (env : Env) (userId : Z).

Definition write `{Bcrypt} (cfg : Config) (w : Write) (db : Db) : Db :=
  match w with
  | WriteCreate env nombre' email' password rol' =>
      snd (Usuario.create cfg env nombre' email' password rol' db)
  | WriteVerifyCredentials env email' password =>
      snd (Usuario.verifyCredentials cfg env email' password db)
  | WriteBeforeAwait env email' => snd (Usuario.before_await env email' db)
  | WriteUpdate env userId nombre' email' rol' =>
      snd (Usuario.update env userId nombre' email' rol' db)
  | WriteChangePassword env userId newPassword =>
      snd (Usuario.changePassword cfg env userId newPassword db)
  | WriteDeactivate env userId => snd (Usuario.deactivate env userId db)
  | WriteActivate env userId => snd (Usuario.activate env userId db)
  end.

(** What identifies a row for good: its id and its creation date. *)
Definition birth (u : UsuarioRow) : Z * Z := (id u, fecha_creacion u).

(** From [db] to [db'] nothing was removed or renumbered: the ledger got
    at most one more row at its end, and so did [usuarios], its earlier
    rows keeping place, id and creation date. *)
Definition grows (db db' : Db) : Prop :=
  (exists more,
     (length more <= 1)%nat /\
     intentos_login db' = (intentos_login db ++ more)%list) /\
  (exists added,
     (length added <= 1)%nat /\
     map birth (usuarios db') = (map birth (usuarios db) ++ added)%list).

(** A string that does not begin with white space. *)
Definition head_kept (s : string) : Prop :=
  match s with
  | EmptyString => True
  | String c _ => Js.is_space c = false
  end.

(** What no login changes in a row. *)
Definition identity_data (u : UsuarioRow)
  : Z * string * string * string * string * bool * Z * Z :=
  (id u, nombre u, email u, password_hash u, rol u, activo u,
   fecha_creacion u, fecha_actualizacion u).

(** What tells whether a login for a row may succeed. *)
Definition login_data (u : UsuarioRow)
  : string * string * string * bool * Z * option Z :=
  (email u, password_hash u, rol u, activo u,
   intentos_fallidos u, bloqueado_hasta u).

(** * Proofs *)

(** ** Tables *)

Ltac run_m :=
  unfold bind, ret, throw, get_db, put_db, try_catch; simpl.

Section Tables.

Lemma find_map_stable {A} (P : A -> bool) (g : A -> A) (l : list A) :
  (forall x, P (g x) = P x) -> find P (map g l) = g <$> find P l.
Proof.
  intros HP. induction l as [|x l IH]; simpl; [reflexivity|].
  rewrite HP. destruct (P x); [reflexivity|exact IH].
Qed.

Lemma findByEmail_update_by_id e i f db :
  (forall u, email (f u) = email u) ->
  Usuario.findByEmail e (update_by_id i f db)
  = (fun u => if id u =? i then f u else u) <$> Usuario.findByEmail e db.
Proof.
  intros Hf. unfold Usuario.findByEmail, update_by_id; simpl.
  apply find_map_stable. intros u. destruct (id u =? i); [rewrite Hf|]; reflexivity.
Qed.

Lemma select_by_id_update_by_id j i f db :
  (forall u, id (f u) = id u) ->
  select_by_id j (update_by_id i f db)
  = (fun u => if id u =? i then f u else u) <$> select_by_id j db.
Proof.
  intros Hf. unfold select_by_id, update_by_id; simpl.
  apply find_map_stable. intros u. destruct (id u =? i); [rewrite Hf|]; reflexivity.
Qed.

Lemma account_update e db u f :
  (forall v, email (f v) = email v) -> (forall v, id (f v) = id v) ->
  account e db u -> account e (update_by_id (id u) f db) (f u).
Proof.
  intros He Hi [Hm Hs]. split.
  - rewrite findByEmail_update_by_id, Hm by exact He. simpl.
    rewrite Z.eqb_refl. reflexivity.
  - rewrite Hi, select_by_id_update_by_id, Hs by exact Hi. simpl.
    rewrite Z.eqb_refl. reflexivity.
Qed.

Lemma account_same_usuarios e db db' u :
  usuarios db' = usuarios db -> account e db u -> account e db' u.
Proof.
  unfold account, Usuario.findByEmail, select_by_id. intros ->. tauto.
Qed.

Lemma select_by_id_of_row rows u :
  NoDup (map id rows) -> In u rows -> find (fun v => id v =? id u) rows = Some u.
Proof.
  induction rows as [|r rows IH]; simpl; [tauto|].
  intros Hnd Hin. apply NoDup_cons in Hnd as [Hr Hnd].
  destruct Hin as [->|Hin]; [rewrite Z.eqb_refl; reflexivity|].
  destruct (Z.eqb_spec (id r) (id u)) as [Heq|_]; [|auto].
  exfalso. apply Hr. rewrite Heq. apply list_elem_of_In, in_map, Hin.
Qed.

Lemma primary_key_account e db u :
  primary_key db -> Usuario.findByEmail e db = Some u -> account e db u.
Proof.
  intros Hpk Hm. split; [exact Hm|].
  apply select_by_id_of_row; [exact Hpk|].
  apply find_some in Hm. tauto.
Qed.

End Tables.

(** ** The paths of [verifyCredentials] *)

Section Paths.
Context `{Bcrypt}.
Variables (cfg : Config) (env : Env) (email' password : string) (db : Db).

Lemma verifyCredentials_unknown :
  Usuario.findByEmail email' db = None ->
  Usuario.verifyCredentials cfg env email' password db
  = match ledger_fault env with
    | None => (Return None, Usuario.ledger_append env email' false db)
    | Some e => (Throw e, db)
    end.
Proof.
  intros Hm. unfold Usuario.verifyCredentials, Usuario.before_await,
    Usuario.registerLoginAttempt. run_m. rewrite Hm.
  destruct (ledger_fault env); reflexivity.
Qed.

Lemma verifyCredentials_locked u :
  Usuario.findByEmail email' db = Some u ->
  Usuario.is_locked u (clock_check env) = true ->
  Usuario.verifyCredentials cfg env email' password db
  = (Throw Usuario.CuentaBloqueada, db).
Proof.
  intros Hm Hl. unfold Usuario.verifyCredentials, Usuario.before_await. run_m.
  rewrite Hm, Hl. reflexivity.
Qed.

Lemma verifyCredentials_inactive u :
  Usuario.findByEmail email' db = Some u ->
  Usuario.is_locked u (clock_check env) = false ->
  activo u = false ->
  Usuario.verifyCredentials cfg env email' password db
  = (Throw Usuario.CuentaDesactivada, db).
Proof.
  intros Hm Hl Ha. unfold Usuario.verifyCredentials, Usuario.before_await. run_m.
  rewrite Hm, Hl, Ha. reflexivity.
Qed.

Lemma verifyCredentials_wrong u :
  account email' db u ->
  Usuario.is_locked u (clock_check env) = false ->
  activo u = true ->
  bcrypt_compare password (password_hash u) = false ->
  let db1 := write_failure cfg (clock_write env) u db in
  Usuario.verifyCredentials cfg env email' password db
  = match ledger_fault env with
    | None => (Return None, Usuario.ledger_append env email' false db1)
    | Some e => (Throw e, db1)
    end.
Proof.
  intros [Hm Hs] Hl Ha Hc. unfold Usuario.verifyCredentials, Usuario.before_await,
    Usuario.after_await, Usuario.incrementFailedAttempts,
    Usuario.registerLoginAttempt. run_m.
  rewrite Hm, Hl, Ha. simpl. rewrite Hc. simpl. rewrite Hs.
  destruct (ledger_fault env); reflexivity.
Qed.

Lemma verifyCredentials_verified u :
  Usuario.findByEmail email' db = Some u ->
  Usuario.is_locked u (clock_check env) = false ->
  activo u = true ->
  bcrypt_compare password (password_hash u) = true ->
  let db1 := write_success (sql_timestamp env) u db in
  Usuario.verifyCredentials cfg env email' password db
  = match ledger_fault env with
    | None => (Return (Some (public u)), Usuario.ledger_append env email' true db1)
    | Some e => (Throw e, db1)
    end.
Proof.
  intros Hm Hl Ha Hc. unfold Usuario.verifyCredentials, Usuario.before_await,
    Usuario.after_await, Usuario.resetFailedAttempts, Usuario.updateLastLogin,
    Usuario.registerLoginAttempt. run_m.
  rewrite Hm, Hl, Ha. simpl. rewrite Hc. simpl.
  destruct (ledger_fault env); reflexivity.
Qed.

(** The account after each of the two paths that write to it. *)
Lemma account_write_failure u :
  account email' db u ->
  account email' (write_failure cfg (clock_write env) u db)
          (after_failure cfg (clock_write env) u).
Proof.
  intros Ha. unfold write_failure.
  apply (account_update email' db u
           (set_attempts (intentos_fallidos u + 1)
              (if maxLoginAttempts cfg <=? intentos_fallidos u + 1
               then Some (clock_write env + lockoutTime cfg) else None)));
    [reflexivity | reflexivity | exact Ha].
Qed.

Lemma account_write_success u :
  account email' db u ->
  account email' (write_success (sql_timestamp env) u db)
          (after_success (sql_timestamp env) u).
Proof.
  intros Ha. unfold write_success, after_success.
  apply (account_update email' _ (set_attempts 0 None u)
           (set_ultimo_login (sql_timestamp env))); [reflexivity..|].
  apply (account_update email' db u (set_attempts 0 None));
    [reflexivity | reflexivity | exact Ha].
Qed.

End Paths.

(** ** The order of the checks and the unknown identity *)

Section Checks.
Context `{Bcrypt}.

(** C4. [verifyCredentials] looks the identity up, then tests the lockout,
    then the active flag, and only then verifies the password, stopping at
    the first test that fails. An identity without a row is answered
    before any other test, alike for every password and password hasher.
    A locked account fails as locked whatever its active flag and the
    password. An inactive account that is not locked fails as inactive for
    every password and every password hasher, the database left as it was
    (no counter update, no ledger row). And a call authenticates only for
    an account that passed both tests and a password that verifies. *)
Theorem C4_check_order (cfg : Config) (env : Env) (email' password : string)
    (db : Db) :
  (Usuario.findByEmail email' db = None ->
   forall (hasher : Bcrypt) (password' : string),
     @Usuario.verifyCredentials hasher cfg env email' password' db
     = Usuario.verifyCredentials cfg env email' password db)
  /\ forall u,
       Usuario.findByEmail email' db = Some u ->
       (Usuario.is_locked u (clock_check env) = true ->
        forall (hasher : Bcrypt) (password' : string),
          @Usuario.verifyCredentials hasher cfg env email' password' db
          = (Throw Usuario.CuentaBloqueada, db))
       /\ (Usuario.is_locked u (clock_check env) = false -> activo u = false ->
           forall (hasher : Bcrypt) (password' : string),
             @Usuario.verifyCredentials hasher cfg env email' password' db
             = (Throw Usuario.CuentaDesactivada, db))
       /\ (forall p, fst (Usuario.verifyCredentials cfg env email' password db)
                     = Return (Some p) ->
           Usuario.is_locked u (clock_check env) = false /\ activo u = true
           /\ bcrypt_compare password (password_hash u) = true).
Proof.
  split.
  - intros Hm hasher password'.
    rewrite (@verifyCredentials_unknown hasher cfg env email' password' db Hm),
            (verifyCredentials_unknown cfg env email' password db Hm).
    reflexivity.
  - intros u Hm. split; [|split].
    + intros Hl hasher password'.
      exact (@verifyCredentials_locked hasher cfg env email' password' db u Hm Hl).
    + intros Hl Ha hasher password'.
      exact (@verifyCredentials_inactive hasher cfg env email' password' db u Hm Hl Ha).
    + intros p. unfold Usuario.verifyCredentials, Usuario.before_await,
        Usuario.after_await, Usuario.incrementFailedAttempts,
        Usuario.resetFailedAttempts, Usuario.updateLastLogin,
        Usuario.registerLoginAttempt. run_m. rewrite Hm.
      destruct (Usuario.is_locked u (clock_check env)); simpl; [discriminate|].
      destruct (activo u); simpl; [|discriminate].
      destruct (bcrypt_compare password (password_hash u)); simpl;
        destruct (ledger_fault env); simpl; intros Hp; try discriminate; auto.
Qed.

(** C2, as amended. An identity that matches no row is answered with
    [null], the value a wrong password for a live account is answered
    with, and the ledger receives one failure row whose email is the
    attempted identity in lower case (not trimmed), the [usuarios] table
    left as it was. *)
Theorem C2_unknown_identity (cfg : Config) (env : Env) (email' password : string)
    (db : Db) :
  Usuario.findByEmail email' db = None ->
  ledger_fault env = None ->
  Usuario.verifyCredentials cfg env email' password db
  = (Return None,
     {| usuarios := usuarios db;
        intentos_login := intentos_login db ++
          [{| il_email := Js.toLowerCase email'; il_ip_address := None;
              il_exitoso := false; il_fecha := sql_timestamp env |}] |})
  /\ forall email2 password2 db2 u,
       account email2 db2 u ->
       Usuario.is_locked u (clock_check env) = false ->
       activo u = true ->
       bcrypt_compare password2 (password_hash u) = false ->
       fst (Usuario.verifyCredentials cfg env email2 password2 db2) = Return None.
Proof.
  intros Hm Hf. split.
  - rewrite verifyCredentials_unknown, Hf by exact Hm. reflexivity.
  - intros email2 password2 db2 u Ha Hl Hact Hc.
    rewrite (verifyCredentials_wrong cfg env email2 password2 db2 u Ha Hl Hact Hc), Hf.
    reflexivity.
Qed.

(** C3, as amended. [verifyCredentials] does not catch what the ledger
    INSERT throws. With the INSERT throwing [e], a call ends either locked
    or inactive (the two paths that write nothing) or with [e] itself; a
    call whose password verified ends with [e] after the counter reset and
    the last-login stamp were written. *)
Theorem C3_ledger_failure_propagates (cfg : Config) (env : Env)
    (email' password : string) (db : Db) (e : Exn) :
  ledger_fault env = Some e ->
  (fst (Usuario.verifyCredentials cfg env email' password db) = Throw e
   \/ Usuario.verifyCredentials cfg env email' password db
      = (Throw Usuario.CuentaBloqueada, db)
   \/ Usuario.verifyCredentials cfg env email' password db
      = (Throw Usuario.CuentaDesactivada, db))
  /\ forall u,
       Usuario.findByEmail email' db = Some u ->
       Usuario.is_locked u (clock_check env) = false ->
       activo u = true ->
       bcrypt_compare password (password_hash u) = true ->
       Usuario.verifyCredentials cfg env email' password db
       = (Throw e, write_success (sql_timestamp env) u db).
Proof.
  intros Hf. split.
  - destruct (Usuario.findByEmail email' db) as [u|] eqn:Hm.
    + destruct (Usuario.is_locked u (clock_check env)) eqn:Hl.
      { right; left. exact (verifyCredentials_locked cfg env email' password db u Hm Hl). }
      destruct (activo u) eqn:Ha.
      2:{ right; right.
          exact (verifyCredentials_inactive cfg env email' password db u Hm Hl Ha). }
      left. unfold Usuario.verifyCredentials, Usuario.before_await,
        Usuario.after_await, Usuario.incrementFailedAttempts,
        Usuario.resetFailedAttempts, Usuario.updateLastLogin,
        Usuario.registerLoginAttempt. run_m. rewrite Hm, Hl, Ha, Hf. simpl.
      destruct (bcrypt_compare password (password_hash u)); reflexivity.
    + left. rewrite verifyCredentials_unknown, Hf by exact Hm. reflexivity.
  - intros u Hm Hl Ha Hc.
    rewrite (verifyCredentials_verified cfg env email' password db u Hm Hl Ha Hc), Hf.
    reflexivity.
Qed.

End Checks.


(** ** Lockout *)

Section Lockout.
Context `{Bcrypt}.
Variable cfg : Config.
Variable email' : string.

Lemma counted_after_failure k now u :
  0 <= k -> counted cfg k u -> counted cfg (k + 1) (after_failure cfg now u).
Proof.
  intros Hk [[Hc Hl] Hn]. unfold counted, lockout_state, after_failure; simpl.
  destruct (Z.leb_spec (maxLoginAttempts cfg) (intentos_fallidos u + 1)) as [Hle|Hlt].
  - split; [split; [lia | intros _; exact Hle] | intros Hb; discriminate Hb].
  - split; [split; [lia | intros Hb; contradiction] |].
    intros _. destruct (bloqueado_hasta u) eqn:Hb.
    + assert (maxLoginAttempts cfg <= intentos_fallidos u) by (apply Hl; discriminate).
      lia.
    + destruct (Hn eq_refl) as [Hk' _]. lia.
Qed.

(** One login with a wrong password on an active account without a
    lockout and with the threshold more than one failure away: it fails,
    is counted, and stores no lockout. *)
Lemma login_below_threshold env password db u :
  account email' db u -> activo u = true ->
  bloqueado_hasta u = None ->
  intentos_fallidos u + 1 < maxLoginAttempts cfg ->
  bcrypt_compare password (password_hash u) = false ->
  exists c db1 u1,
    Usuario.verifyCredentials cfg env email' password db = (c, db1)
    /\ failed c /\ account email' db1 u1 /\ activo u1 = true
    /\ password_hash u1 = password_hash u /\ public u1 = public u
    /\ intentos_fallidos u1 = intentos_fallidos u + 1
    /\ bloqueado_hasta u1 = None.
Proof.
  intros Hacc Hact Hb Hlt Hw.
  assert (Hl : Usuario.is_locked u (clock_check env) = false)
    by (unfold Usuario.is_locked; rewrite Hb; reflexivity).
  pose proof (verifyCredentials_wrong cfg env email' password db u Hacc Hl Hact Hw)
    as Hvc.
  pose proof (account_write_failure cfg env email' db u Hacc) as Hacc1.
  assert (Hnone : bloqueado_hasta (after_failure cfg (clock_write env) u) = None).
  { unfold after_failure; simpl.
    destruct (Z.leb_spec (maxLoginAttempts cfg) (intentos_fallidos u + 1));
      [lia|reflexivity]. }
  cbv zeta in Hvc. destruct (ledger_fault env) as [e|].
  - exists (Throw e), (write_failure cfg (clock_write env) u db),
      (after_failure cfg (clock_write env) u).
    split; [exact Hvc|]. split; [intros p; discriminate|].
    split; [exact Hacc1|]. split; [exact Hact|].
    split; [reflexivity|]. split; [reflexivity|]. split; [reflexivity|exact Hnone].
  - exists (Return None),
      (Usuario.ledger_append env email' false
         (write_failure cfg (clock_write env) u db)),
      (after_failure cfg (clock_write env) u).
    split; [exact Hvc|]. split; [intros p; discriminate|].
    split; [eapply account_same_usuarios; [|exact Hacc1]; reflexivity|].
    split; [exact Hact|].
    split; [reflexivity|]. split; [reflexivity|]. split; [reflexivity|exact Hnone].
Qed.

(** A run of wrong passwords that ends below the threshold: every call
    fails, every one is counted, and no lockout is stored. *)
Lemma logins_below_threshold calls :
  forall db u,
    account email' db u -> activo u = true ->
    bloqueado_hasta u = None ->
    intentos_fallidos u + Z.of_nat (length calls) < maxLoginAttempts cfg ->
    Forall (fun call => bcrypt_compare (snd call) (password_hash u) = false) calls ->
    Forall failed (fst (logins cfg email' calls db))
    /\ exists u',
         account email' (snd (logins cfg email' calls db)) u'
         /\ activo u' = true /\ password_hash u' = password_hash u
         /\ public u' = public u
         /\ intentos_fallidos u' = intentos_fallidos u + Z.of_nat (length calls)
         /\ bloqueado_hasta u' = None.
Proof.
  induction calls as [|[env password] calls IH]; intros db u Hacc Hact Hb Hlt Hw.
  - simpl. split; [constructor|]. exists u. rewrite Z.add_0_r. auto 10.
  - apply Forall_cons in Hw as [Hw1 Hw]. simpl in Hw1.
    cbn [length] in Hlt.
    destruct (login_below_threshold env password db u Hacc Hact Hb ltac:(lia) Hw1)
      as (c & db1 & u1 & Hvc & Hfail & Hacc1 & Hact1 & Hh1 & Hp1 & Hn1 & Hb1).
    cbn [logins length]. rewrite Hvc.
    rewrite <- Hh1 in Hw.
    specialize (IH db1 u1 Hacc1 Hact1 Hb1 ltac:(lia) Hw).
    destruct (logins cfg email' calls db1) as [cs db2]. simpl in *.
    destruct IH as [Hf (u' & Ha' & Hact' & Hh' & Hp' & Hn' & Hb')].
    split; [constructor; assumption|].
    exists u'. split; [exact Ha'|]. split; [exact Hact'|].
    split; [congruence|]. split; [congruence|]. split; [lia|exact Hb'].
Qed.

Lemma logins_app calls1 calls2 db :
  logins cfg email' (calls1 ++ calls2) db
  = (fst (logins cfg email' calls1 db)
     ++ fst (logins cfg email' calls2 (snd (logins cfg email' calls1 db))),
     snd (logins cfg email' calls2 (snd (logins cfg email' calls1 db))))%list.
Proof.
  revert db. induction calls1 as [|[env password] calls1 IH]; intros db.
  - simpl. destruct (logins cfg email' calls2 db); reflexivity.
  - cbn [app logins].
    destruct (Usuario.verifyCredentials cfg env email' password db) as [c db1].
    rewrite IH. destruct (logins cfg email' calls1 db1) as [cs db2]. simpl.
    destruct (logins cfg email' calls2 db2); reflexivity.
Qed.

(** C1. An active account without a lockout, its counter below the
    threshold (0 for an account just registered or just logged in), and a
    run of logins with wrong passwords, one call after the other, whose
    last one brings the counter to [maxLoginAttempts]. Every call of the
    run fails. Before the last one no lockout is stored: after any shorter
    part of the run the counter has counted exactly the failures so far
    and the right password still authenticates. The last call stores the
    counter [maxLoginAttempts] and the lockout instant [Date.now()] of
    that call plus [lockoutTime]; while that instant lies in the future
    every login, also one with the right password, is refused as locked
    and changes nothing; and from that instant on a login with the right
    password authenticates and leaves the counter at 0, the lockout
    cleared. *)
Theorem C1_lockout_after_max_failures (db : Db) (u : UsuarioRow)
    (calls : list (Env * string)) (env_n : Env) (password_n : string) :
  primary_key db ->
  Usuario.findByEmail email' db = Some u ->
  activo u = true ->
  bloqueado_hasta u = None ->
  intentos_fallidos u + Z.of_nat (length calls) + 1 = maxLoginAttempts cfg ->
  Forall (fun call => bcrypt_compare (snd call) (password_hash u) = false)
         (calls ++ [(env_n, password_n)]) ->
  let run := (calls ++ [(env_n, password_n)])%list in
  let db' := snd (logins cfg email' run db) in
  let until_ := clock_write env_n + lockoutTime cfg in
  Forall failed (fst (logins cfg email' run db))
  /\ (forall shorter rest,
        run = (shorter ++ rest)%list -> rest <> [] ->
        let dbk := snd (logins cfg email' shorter db) in
        exists uk,
          account email' dbk uk
          /\ intentos_fallidos uk = intentos_fallidos u + Z.of_nat (length shorter)
          /\ bloqueado_hasta uk = None
          /\ forall env password,
               bcrypt_compare password (password_hash u) = true ->
               ledger_fault env = None ->
               fst (Usuario.verifyCredentials cfg env email' password dbk)
               = Return (Some (public u)))
  /\ exists u',
       account email' db' u'
       /\ intentos_fallidos u' = maxLoginAttempts cfg
       /\ bloqueado_hasta u' = Some until_
       /\ (forall env password,
             clock_check env < until_ ->
             Usuario.verifyCredentials cfg env email' password db'
             = (Throw Usuario.CuentaBloqueada, db'))
       /\ (forall env password,
             until_ <= clock_check env ->
             bcrypt_compare password (password_hash u) = true ->
             ledger_fault env = None ->
             exists db'' u'',
               Usuario.verifyCredentials cfg env email' password db'
               = (Return (Some (public u)), db'')
               /\ account email' db'' u''
               /\ intentos_fallidos u'' = 0 /\ bloqueado_hasta u'' = None).
Proof.
  intros Hpk Hm Hact Hb Hlen Hw run db' until_.
  pose proof (primary_key_account email' db u Hpk Hm) as Hacc.
  assert (Hbelow : forall shorter,
            Forall (fun call => bcrypt_compare (snd call) (password_hash u) = false)
                   shorter ->
            intentos_fallidos u + Z.of_nat (length shorter) < maxLoginAttempts cfg ->
            Forall failed (fst (logins cfg email' shorter db))
            /\ exists uk,
                 account email' (snd (logins cfg email' shorter db)) uk
                 /\ activo uk = true /\ password_hash uk = password_hash u
                 /\ public uk = public u
                 /\ intentos_fallidos uk
                    = intentos_fallidos u + Z.of_nat (length shorter)
                 /\ bloqueado_hasta uk = None).
  { intros shorter Hws Hlt.
    exact (logins_below_threshold shorter db u Hacc Hact Hb Hlt Hws). }
  pose proof Hw as Hw'. apply Forall_app in Hw' as [Hwc Hwn].
  apply Forall_cons in Hwn as [Hwn _]. cbn [snd] in Hwn.
  destruct (Hbelow calls Hwc ltac:(lia))
    as [Hf (un & Haccn & Hactn & Hhn & Hpn & Hnn & Hbn)].
  assert (Hln : Usuario.is_locked un (clock_check env_n) = false)
    by (unfold Usuario.is_locked; rewrite Hbn; reflexivity).
  rewrite <- Hhn in Hwn.
  pose proof (verifyCredentials_wrong cfg env_n email' password_n _ un
                Haccn Hln Hactn Hwn) as Hvc.
  pose proof (account_write_failure cfg env_n email' _ un Haccn) as Hacc1.
  cbv zeta in Hvc.
  set (u' := after_failure cfg (clock_write env_n) un).
  assert (Hcount : intentos_fallidos u' = maxLoginAttempts cfg)
    by (unfold u', after_failure; simpl; lia).
  assert (Hlock : bloqueado_hasta u' = Some until_).
  { unfold u', after_failure; simpl.
    destruct (Z.leb_spec (maxLoginAttempts cfg) (intentos_fallidos un + 1));
      [reflexivity|lia]. }
  assert (Hrun : exists c,
            logins cfg email' run db
            = ((fst (logins cfg email' calls db) ++ [c])%list, db')
            /\ failed c /\ account email' db' u').
  { unfold db', run. rewrite logins_app. cbn [logins fst snd].
    destruct (ledger_fault env_n) as [e|]; rewrite Hvc; cbn [fst snd].
    - exists (Throw e). split; [reflexivity|]. split; [intros p; discriminate|].
      exact Hacc1.
    - exists (Return None). split; [reflexivity|].
      split; [intros p; discriminate|].
      eapply account_same_usuarios; [|exact Hacc1]. reflexivity. }
  destruct Hrun as (c & Hrun & Hfc & Hacc').
  split; [|split].
  - rewrite Hrun. cbn [fst]. apply Forall_app. split; [exact Hf|].
    constructor; [exact Hfc|constructor].
  - intros shorter rest Hsplit Hrest dbk.
    assert (Hlt : intentos_fallidos u + Z.of_nat (length shorter)
                  < maxLoginAttempts cfg).
    { apply (f_equal (@length _)) in Hsplit. unfold run in Hsplit.
      rewrite !length_app in Hsplit. cbn [length] in Hsplit.
      destruct rest as [|r rest]; [contradiction Hrest; reflexivity|].
      cbn [length] in Hsplit. lia. }
    assert (Hws : Forall (fun call =>
                    bcrypt_compare (snd call) (password_hash u) = false) shorter).
    { fold run in Hw. rewrite Hsplit in Hw. apply Forall_app in Hw. tauto. }
    destruct (Hbelow shorter Hws Hlt)
      as [_ (uk & Hacck & Hactk & Hhk & Hpk' & Hnk & Hbk)].
    exists uk. split; [exact Hacck|]. split; [exact Hnk|]. split; [exact Hbk|].
    intros env password Hc Hfault.
    assert (Hlk : Usuario.is_locked uk (clock_check env) = false)
      by (unfold Usuario.is_locked; rewrite Hbk; reflexivity).
    rewrite <- Hhk in Hc.
    rewrite (verifyCredentials_verified cfg env email' password dbk uk
               (proj1 Hacck) Hlk Hactk Hc), Hfault, Hpk'.
    reflexivity.
  - exists u'. split; [exact Hacc'|]. split; [exact Hcount|].
    split; [exact Hlock|]. split.
    + intros env password Hlt.
      apply (verifyCredentials_locked cfg env email' password db' u' (proj1 Hacc')).
      unfold Usuario.is_locked. rewrite Hlock. apply Z.ltb_lt. exact Hlt.
    + intros env password Hge Hc Hfault.
      assert (Hl : Usuario.is_locked u' (clock_check env) = false)
        by (unfold Usuario.is_locked; rewrite Hlock; apply Z.ltb_ge; exact Hge).
      assert (Hh' : password_hash u' = password_hash u) by exact Hhn.
      assert (Hp' : public u' = public u) by exact Hpn.
      rewrite <- Hh' in Hc.
      pose proof (verifyCredentials_verified cfg env email' password db' u'
                    (proj1 Hacc') Hl Hactn Hc) as Hvc'.
      cbv zeta in Hvc'. rewrite Hfault, Hp' in Hvc'.
      eexists _, (after_success (sql_timestamp env) u').
      split; [exact Hvc'|]. split; [|split; reflexivity].
      eapply account_same_usuarios;
        [|exact (account_write_success env email' db' u' Hacc')]. reflexivity.
Qed.

(** C9. An active account whose counter is at or past the threshold and
    whose lockout has run out. A login with a wrong password fails, puts
    the counter one further past the threshold and stores a new lockout,
    the time of that write plus [lockoutTime], until which every login is
    refused as locked. A login that leaves the counter at 0 or the lockout
    cleared is one that authenticated; and a login with the right password
    does authenticate and leaves the counter at 0 and the lockout
    cleared. *)
Theorem C9_relock_after_expiry (env : Env) (password : string) (db : Db)
    (u : UsuarioRow) :
  1 <= maxLoginAttempts cfg ->
  account email' db u ->
  activo u = true ->
  maxLoginAttempts cfg <= intentos_fallidos u ->
  Usuario.is_locked u (clock_check env) = false ->
  (bcrypt_compare password (password_hash u) = false ->
   exists c db',
     Usuario.verifyCredentials cfg env email' password db = (c, db')
     /\ failed c
     /\ account email' db' (after_failure cfg (clock_write env) u)
     /\ intentos_fallidos (after_failure cfg (clock_write env) u)
        = intentos_fallidos u + 1
     /\ maxLoginAttempts cfg < intentos_fallidos u + 1
     /\ bloqueado_hasta (after_failure cfg (clock_write env) u)
        = Some (clock_write env + lockoutTime cfg)
     /\ forall env2 password2,
          clock_check env2 < clock_write env + lockoutTime cfg ->
          Usuario.verifyCredentials cfg env2 email' password2 db'
          = (Throw Usuario.CuentaBloqueada, db'))
  /\ (forall c db' u',
        Usuario.verifyCredentials cfg env email' password db = (c, db') ->
        ledger_fault env = None ->
        account email' db' u' ->
        intentos_fallidos u' = 0 \/ bloqueado_hasta u' = None ->
        c = Return (Some (public u)))
  /\ (bcrypt_compare password (password_hash u) = true ->
      ledger_fault env = None ->
      exists db',
        Usuario.verifyCredentials cfg env email' password db
        = (Return (Some (public u)), db')
        /\ account email' db' (after_success (sql_timestamp env) u)
        /\ intentos_fallidos (after_success (sql_timestamp env) u) = 0
        /\ bloqueado_hasta (after_success (sql_timestamp env) u) = None).
Proof.
  intros Hmax Hacc Hact Hthr Hl.
  assert (Hlock : bloqueado_hasta (after_failure cfg (clock_write env) u)
                  = Some (clock_write env + lockoutTime cfg)).
  { unfold after_failure; simpl.
    destruct (Z.leb_spec (maxLoginAttempts cfg) (intentos_fallidos u + 1));
      [reflexivity|lia]. }
  pose proof (account_write_failure cfg env email' db u Hacc) as Hacc1.
  split; [|split].
  - intros Hw.
    pose proof (verifyCredentials_wrong cfg env email' password db u Hacc Hl Hact Hw)
      as Hvc. cbv zeta in Hvc.
    assert (Hrefused : forall db', usuarios db'
                = usuarios (write_failure cfg (clock_write env) u db) ->
              forall env2 password2,
                clock_check env2 < clock_write env + lockoutTime cfg ->
                Usuario.verifyCredentials cfg env2 email' password2 db'
                = (Throw Usuario.CuentaBloqueada, db')).
    { intros db' Hu env2 password2 Hlt.
      apply (verifyCredentials_locked cfg env2 email' password2 db'
               (after_failure cfg (clock_write env) u)).
      - exact (proj1 (account_same_usuarios email' _ db' _ Hu Hacc1)).
      - unfold Usuario.is_locked. rewrite Hlock. apply Z.ltb_lt. exact Hlt. }
    destruct (ledger_fault env) as [e|].
    + exists (Throw e), (write_failure cfg (clock_write env) u db).
      split; [exact Hvc|]. split; [intros p; discriminate|].
      split; [exact Hacc1|]. split; [reflexivity|]. split; [lia|].
      split; [exact Hlock|]. apply Hrefused. reflexivity.
    + exists (Return None),
        (Usuario.ledger_append env email' false
           (write_failure cfg (clock_write env) u db)).
      split; [exact Hvc|]. split; [intros p; discriminate|].
      split; [eapply account_same_usuarios; [|exact Hacc1]; reflexivity|].
      split; [reflexivity|]. split; [lia|].
      split; [exact Hlock|]. apply Hrefused. reflexivity.
  - intros c db' u' Hvc Hfault [Hm' _] Hreset.
    destruct (bcrypt_compare password (password_hash u)) eqn:Hc.
    + rewrite (verifyCredentials_verified cfg env email' password db u
                 (proj1 Hacc) Hl Hact Hc), Hfault in Hvc.
      congruence.
    + rewrite (verifyCredentials_wrong cfg env email' password db u Hacc Hl Hact Hc),
        Hfault in Hvc.
      injection Hvc as <- <-.
      assert (Hm1 : Usuario.findByEmail email'
                (Usuario.ledger_append env email' false
                   (write_failure cfg (clock_write env) u db))
              = Some (after_failure cfg (clock_write env) u))
        by exact (proj1 Hacc1).
      rewrite Hm1 in Hm'. injection Hm' as <-.
      rewrite Hlock in Hreset. simpl in Hreset.
      destruct Hreset as [Hz|Hn]; [lia|discriminate].
  - intros Hc Hfault.
    pose proof (verifyCredentials_verified cfg env email' password db u
                  (proj1 Hacc) Hl Hact Hc) as Hvc.
    cbv zeta in Hvc. rewrite Hfault in Hvc.
    eexists. split; [exact Hvc|]. split; [|split; reflexivity].
    eapply account_same_usuarios;
      [|exact (account_write_success env email' db u Hacc)]. reflexivity.
Qed.

End Lockout.

Section LockoutInvariant.
Context `{Bcrypt}.
Variable cfg : Config.
Variable email' : string.

(** Every call keeps the counter and the lockout of an account in
    agreement: the hypothesis of the lockout theorems holds of every
    account from its creation on. *)
Lemma lockout_state_after_failure now u :
  lockout_state cfg u -> lockout_state cfg (after_failure cfg now u).
Proof.
  intros Hls.
  assert (Hc : counted cfg 0 u) by (split; [exact Hls|intros _; destruct Hls; lia]).
  exact (proj1 (counted_after_failure cfg 0 now u ltac:(lia) Hc)).
Qed.

Lemma lockout_state_after_success t u : lockout_state cfg (after_success t u).
Proof. split; simpl; [lia|intros Hb; contradiction]. Qed.

Lemma verifyCredentials_lockout_state env password db u :
  account email' db u -> lockout_state cfg u ->
  exists u',
    account email' (snd (Usuario.verifyCredentials cfg env email' password db)) u'
    /\ lockout_state cfg u'.
Proof.
  intros Hacc Hls.
  destruct (Usuario.is_locked u (clock_check env)) eqn:Hl.
  { rewrite (verifyCredentials_locked cfg env email' password db u (proj1 Hacc) Hl).
    exists u. auto. }
  destruct (activo u) eqn:Ha.
  2:{ rewrite (verifyCredentials_inactive cfg env email' password db u
                 (proj1 Hacc) Hl Ha).
      exists u. auto. }
  destruct (bcrypt_compare password (password_hash u)) eqn:Hc.
  - rewrite (verifyCredentials_verified cfg env email' password db u
               (proj1 Hacc) Hl Ha Hc).
    exists (after_success (sql_timestamp env) u).
    split; [|apply lockout_state_after_success].
    pose proof (account_write_success env email' db u Hacc) as Hacc1.
    destruct (ledger_fault env); [exact Hacc1|].
    eapply account_same_usuarios; [|exact Hacc1]. reflexivity.
  - rewrite (verifyCredentials_wrong cfg env email' password db u Hacc Hl Ha Hc).
    exists (after_failure cfg (clock_write env) u).
    split; [|apply lockout_state_after_failure; exact Hls].
    pose proof (account_write_failure cfg env email' db u Hacc) as Hacc1.
    destruct (ledger_fault env); [exact Hacc1|].
    eapply account_same_usuarios; [|exact Hacc1]. reflexivity.
Qed.
End LockoutInvariant.

(** ** Registration *)

Section Registration.
Context `{Bcrypt}.
Variable cfg : Config.

Lemma create_registered env nombre' email' password rol' db u :
  Usuario.findByEmail email' db = Some u ->
  Usuario.create cfg env nombre' (Some email') password rol' db
  = (Throw Usuario.EmailYaRegistrado, db).
Proof.
  intros Hm. unfold Usuario.create. run_m. rewrite Hm. reflexivity.
Qed.

(** What a successful [create] did: the identity was free and one row was
    appended, holding the normalized identity and the role passed in. *)
Lemma create_returned env nombre' email' password rol' db user db1 :
  Usuario.create cfg env nombre' (Some email') password rol' db
  = (Return user, db1) ->
  Usuario.findByEmail email' db = None
  /\ exists row,
       usuarios db1 = (usuarios db ++ [row])%list
       /\ intentos_login db1 = intentos_login db
       /\ email row = Js.trim (Js.toLowerCase email')
       /\ rol row = default "usuario" rol'
       /\ pu_rol user = rol row /\ pu_id user = id row
       /\ pu_email user = email row
       /\ activo row = true /\ intentos_fallidos row = 0
       /\ bloqueado_hasta row = None.
Proof.
  unfold Usuario.create, Usuario.insert_usuario. run_m.
  destruct (Usuario.findByEmail email' db); [discriminate|].
  destruct password as [password|]; [|discriminate].
  destruct nombre' as [nombre'|]; [|discriminate].
  destruct (existsb _ _); [discriminate|].
  destruct (negb _); [discriminate|].
  intros Heq. injection Heq as <- <-. split; [reflexivity|].
  eexists. simpl. repeat (split; [reflexivity|]). reflexivity.
Qed.

Lemma findByEmail_same_identity e1 e2 db :
  Js.trim (Js.toLowerCase e2) = Js.trim (Js.toLowerCase e1) ->
  Usuario.findByEmail e2 db = Usuario.findByEmail e1 db.
Proof. unfold Usuario.findByEmail. intros ->. reflexivity. Qed.

Lemma findByEmail_appended e rows row ledger :
  email row = Js.trim (Js.toLowerCase e) ->
  Usuario.findByEmail e {| usuarios := rows ++ [row]; intentos_login := ledger |}
  = Some (default row (find (fun u => String.eqb (email u)
                                        (Js.trim (Js.toLowerCase e))) rows)).
Proof.
  intros He. unfold Usuario.findByEmail. simpl.
  induction rows as [|r rows IH]; simpl.
  - rewrite He, String.eqb_refl. reflexivity.
  - destruct (String.eqb (email r) _); [reflexivity|exact IH].
Qed.

(** A created account starts with its counter and lockout in agreement. *)
Lemma create_lockout_state env nombre' email' password rol' db user db1 :
  Usuario.create cfg env nombre' (Some email') password rol' db
  = (Return user, db1) ->
  exists row,
    Usuario.findByEmail email' db1 = Some row /\ lockout_state cfg row.
Proof.
  intros Hc.
  destruct (create_returned _ _ _ _ _ _ _ _ Hc)
    as [Hfree (row & Hu & _ & He & _ & _ & _ & _ & _ & Hn & Hb)].
  exists row. split.
  - destruct db1 as [rows1 ledger1]. simpl in Hu. subst rows1.
    rewrite (findByEmail_appended email' _ row _ He).
    unfold Usuario.findByEmail in Hfree. rewrite Hfree. reflexivity.
  - split; [lia|]. intros Hne. contradiction.
Qed.

(** A registered identity is one [findByEmail] finds, and a [create] that
    returned has registered its identity. *)
Lemma registered_identity_found e db :
  registered_identity e db -> exists r, Usuario.findByEmail e db = Some r.
Proof.
  intros (u & Hin & He). unfold Usuario.findByEmail.
  destruct (find _ (usuarios db)) as [r|] eqn:Hf; [eauto|].
  apply (find_none _ _ Hf) in Hin. rewrite He, String.eqb_refl in Hin.
  discriminate.
Qed.

Lemma create_registers env nombre' email' password rol' db user db1 :
  Usuario.create cfg env nombre' (Some email') password rol' db
  = (Return user, db1) ->
  registered_identity email' db1.
Proof.
  intros Hc.
  destruct (create_returned _ _ _ _ _ _ _ _ Hc) as [_ (row & Hu & _ & He & _)].
  exists row. split; [|exact He]. rewrite Hu. apply in_or_app. right. left.
  reflexivity.
Qed.

(** C7. An identity that is registered, that is, whose normalized form is
    the email of a stored row, whatever the state of that row (active or
    deactivated, locked or not, with any counter): a [create] for any
    identity with the same normalized form, whatever its other arguments,
    throws 'El email ya está registrado' and leaves the whole database,
    every stored row with it, as it was; [apiRegister] answers it 400 and
    [register] by a redirect, both with that message and the database
    unchanged. When the database is the one a first [create] for the
    identity returned, the row found for the identity is the one that
    [create] inserted. *)
Theorem C7_duplicate_identity (env : Env) (nombre' password rol' : option string)
    (email1 email2 : string) (db : Db) :
  registered_identity email1 db ->
  Js.trim (Js.toLowerCase email2) = Js.trim (Js.toLowerCase email1) ->
  Usuario.create cfg env nombre' (Some email2) password rol' db
  = (Throw Usuario.EmailYaRegistrado, db)
  /\ (forall (tokens : Jwt) (body : Body),
        body !! "email" = Some email2 ->
        AuthController.apiRegister cfg env body db
        = (Return (Json 400 false "El email ya está registrado" None), db))
  /\ (forall body : Body,
        body !! "email" = Some email2 ->
        AuthController.register cfg env body db
        = (Return (Redirect "/auth/register"
                     [("errors", FlashList ["El email ya está registrado"]);
                      ("oldInput",
                       FlashObject (pick "nombre" body ∪ pick "email" body))]),
           db))
  /\ (forall env0 nombre0 password0 rol0 db0 user,
        Usuario.create cfg env0 nombre0 (Some email1) password0 rol0 db0
        = (Return user, db) ->
        exists row,
          Usuario.findByEmail email1 db = Some row
          /\ In row (usuarios db) /\ pu_id user = id row).
Proof.
  intros Hreg Hn.
  destruct (registered_identity_found email1 db Hreg) as (r & Hm1).
  assert (Hm2 : Usuario.findByEmail email2 db = Some r)
    by (rewrite (findByEmail_same_identity email1 email2 db Hn); exact Hm1).
  split; [exact (create_registered env nombre' email2 password rol' db r Hm2)|].
  split; [|split].
  - intros tokens body Hb. unfold AuthController.apiRegister. run_m.
    rewrite Hb. rewrite (create_registered env _ email2 _ _ db r Hm2).
    reflexivity.
  - intros body Hb. unfold AuthController.register. run_m.
    rewrite Hb. rewrite (create_registered env _ email2 _ _ db r Hm2).
    reflexivity.
  - intros env0 nombre0 password0 rol0 db0 user Hc.
    destruct (create_returned _ _ _ _ _ _ _ _ Hc)
      as [Hfree (row & Hu & Hl & He & Hrest)].
    exists row. split; [|split; [|tauto]].
    + destruct db as [rows1 ledger1]. simpl in Hu. subst rows1.
      rewrite (findByEmail_appended email1 _ row _ He).
      unfold Usuario.findByEmail in Hfree. rewrite Hfree. reflexivity.
    + rewrite Hu. apply in_or_app. right. left. reflexivity.
Qed.

(** A key the controllers do not read does not matter. *)
Lemma pick_insert_ne k k' v (body : Body) :
  k' <> k -> pick k (<[k' := v]> body) = pick k body.
Proof. intros Hne. unfold pick. rewrite lookup_insert_ne by exact Hne. reflexivity. Qed.

Lemma create_rol_usuario env nombre' email' password db :
  usuarios (snd (Usuario.create cfg env nombre' email' password (Some "usuario") db))
  = usuarios db
  \/ exists row,
       usuarios (snd (Usuario.create cfg env nombre' email' password
                        (Some "usuario") db))
       = (usuarios db ++ [row])%list
       /\ rol row = "usuario".
Proof.
  destruct email' as [email'|]; [|left; reflexivity].
  destruct (Usuario.create cfg env nombre' (Some email') password
              (Some "usuario") db) as [[user|e] db1] eqn:Hc.
  - right. destruct (create_returned _ _ _ _ _ _ _ _ Hc) as [_ (row & Hu & _ & _ & Hr & _)].
    exists row. split; [exact Hu|exact Hr].
  - left. revert Hc. unfold Usuario.create, Usuario.insert_usuario. run_m.
    destruct (Usuario.findByEmail email' db); [intros Heq; injection Heq as _ <-; reflexivity|].
    destruct password; [|intros Heq; injection Heq as _ <-; reflexivity].
    destruct nombre'; [|intros Heq; injection Heq as _ <-; reflexivity].
    destruct (existsb _ _); [intros Heq; injection Heq as _ <-; reflexivity|].
    discriminate.
Qed.

(** The controllers read the fields [nombre], [email] and [password] of
    the body and no other. *)
Lemma register_other_field `{Jwt} env (body : Body) db k v :
  k <> "nombre" -> k <> "email" -> k <> "password" ->
  AuthController.register cfg env (<[k := v]> body) db
  = AuthController.register cfg env body db
  /\ AuthController.apiRegister cfg env (<[k := v]> body) db
     = AuthController.apiRegister cfg env body db.
Proof.
  intros Hn He Hp. unfold AuthController.register, AuthController.apiRegister.
  rewrite !lookup_insert_ne, !pick_insert_ne by assumption. split; reflexivity.
Qed.

(** C5. Neither [register] nor [apiRegister] reads a [rol] field of the
    request body: whatever value it holds, response and database are those
    of the request without it; each of them leaves [usuarios] as it was
    or with one more row whose role is 'usuario'; and the user a response
    of [apiRegister] carries has the role 'usuario'. *)
Theorem C5_role_forced `{Jwt} (env : Env) (body : Body) (db : Db) :
  (forall r, AuthController.register cfg env (<["rol" := r]> body) db
             = AuthController.register cfg env body db)
  /\ (forall r, AuthController.apiRegister cfg env (<["rol" := r]> body) db
                = AuthController.apiRegister cfg env body db)
  /\ (usuarios (snd (AuthController.register cfg env body db)) = usuarios db
      \/ exists row,
           usuarios (snd (AuthController.register cfg env body db))
           = (usuarios db ++ [row])%list
           /\ rol row = "usuario")
  /\ (usuarios (snd (AuthController.apiRegister cfg env body db)) = usuarios db
      \/ exists row,
           usuarios (snd (AuthController.apiRegister cfg env body db))
           = (usuarios db ++ [row])%list
           /\ rol row = "usuario")
  /\ (forall status success message user token,
        fst (AuthController.apiRegister cfg env body db)
        = Return (Json status success message (Some (user, token))) ->
        pu_rol user = "usuario").
Proof.
  split; [|split; [|split; [|split]]].
  - intros r. apply (register_other_field env body db "rol" r); discriminate.
  - intros r. apply (register_other_field env body db "rol" r); discriminate.
  - pose proof (create_rol_usuario env (body !! "nombre") (body !! "email")
                  (body !! "password") db) as Hc.
    unfold AuthController.register. run_m.
    destruct (Usuario.create cfg env _ _ _ _ db) as [[user|e] db1]; exact Hc.
  - pose proof (create_rol_usuario env (body !! "nombre") (body !! "email")
                  (body !! "password") db) as Hc.
    unfold AuthController.apiRegister. run_m.
    destruct (Usuario.create cfg env _ _ _ _ db) as [[user|e] db1]; exact Hc.
  - intros status success message user token.
    unfold AuthController.apiRegister. run_m.
    destruct (body !! "email") as [email'|]; [|discriminate].
    destruct (Usuario.create cfg env _ (Some email') _ _ db) as [[u|e] db1] eqn:Hc;
      [|discriminate].
    simpl. intros Heq. injection Heq as _ _ _ <- _.
    destruct (create_returned _ _ _ _ _ _ _ _ Hc)
      as [_ (row & _ & _ & _ & Hr & Hp & _)].
    rewrite Hp. exact Hr.
Qed.

End Registration.

(** ** Two logins at once *)

Section TwoLogins.
Context `{Bcrypt}.
Variable cfg : Config.
Import EventLoop.

(** A call alone on the event loop is [verifyCredentials]. *)
Lemma step_step_alone env email' password db :
  let '(t, db1) := step cfg (Start env email' password) db in
  let '(t', db2) := step cfg t db1 in
  (t', db2)
  = (Finished (fst (Usuario.verifyCredentials cfg env email' password db)),
     snd (Usuario.verifyCredentials cfg env email' password db)).
Proof.
  unfold step, Usuario.verifyCredentials, bind.
  destruct (Usuario.before_await env email' db) as [[[r|user]|e] db1]; simpl;
    try reflexivity.
  destruct (Usuario.after_await cfg env email' user _ db1); reflexivity.
Qed.

Lemma step_start env email' password db u :
  Usuario.findByEmail email' db = Some u ->
  Usuario.is_locked u (clock_check env) = false ->
  activo u = true ->
  step cfg (Start env email' password) db = (Waiting env email' password u, db).
Proof.
  intros Hm Hl Ha. unfold step, Usuario.before_await. run_m.
  rewrite Hm, Hl, Ha. reflexivity.
Qed.

(** The write of a resumed call, whatever row it read before it waited. *)
Lemma after_await_wrong env email' user db cur :
  select_by_id (id user) db = Some cur ->
  exists c db',
    Usuario.after_await cfg env email' user false db = (c, db')
    /\ failed c
    /\ select_by_id (id user) db'
       = Some (after_failure cfg (clock_write env) cur).
Proof.
  intros Hs.
  assert (Hid : id cur = id user).
  { apply find_some in Hs as [_ Hid]. apply Z.eqb_eq. exact Hid. }
  assert (Hsel : forall db1,
            usuarios db1 = usuarios (write_failure cfg (clock_write env) cur db) ->
            select_by_id (id user) db1
            = Some (after_failure cfg (clock_write env) cur)).
  { intros db1 Hu. unfold select_by_id. rewrite Hu.
    change (select_by_id (id user) (write_failure cfg (clock_write env) cur db)
            = Some (after_failure cfg (clock_write env) cur)).
    unfold write_failure. rewrite select_by_id_update_by_id, Hs by reflexivity.
    simpl. rewrite Hid, Z.eqb_refl. reflexivity. }
  unfold Usuario.after_await, Usuario.incrementFailedAttempts,
    Usuario.registerLoginAttempt. run_m. rewrite Hs.
  destruct (ledger_fault env) as [e|]; simpl.
  - eexists _, _. split; [reflexivity|]. split; [intros p; discriminate|].
    apply Hsel. unfold write_failure. rewrite Hid. reflexivity.
  - eexists _, _. split; [reflexivity|]. split; [intros p; discriminate|].
    apply Hsel. unfold write_failure. rewrite Hid. reflexivity.
Qed.

Variables (userId c0 : Z).

Lemma two_in_flight_sym t1 t2 db :
  two_in_flight cfg userId c0 t1 t2 db -> two_in_flight cfg userId c0 t2 t1 db.
Proof.
  intros (H1 & H2 & Hcur & Hsum & Hlock).
  split; [exact H2|]. split; [exact H1|]. split; [exact Hcur|].
  split; [lia|]. intros Hp. apply Hlock. lia.
Qed.

(** Advancing one of two calls in flight finishes it and keeps the count. *)
Lemma step_two_in_flight t1 t2 db :
  two_in_flight cfg userId c0 t1 t2 db ->
  two_in_flight cfg userId c0 (fst (step cfg t1 db)) t2 (snd (step cfg t1 db))
  /\ finished (fst (step cfg t1 db)).
Proof.
  intros (H1 & H2 & [cur Hcur] & Hsum & Hlock).
  destruct t1 as [env email' password|env email' password user|c]; simpl in H1.
  - contradiction.
  - destruct H1 as [Hid Hw]. subst userId. cbn [step]. rewrite Hw.
    destruct (after_await_wrong env email' user db cur Hcur)
      as (c & db' & Hstep & Hfail & Hsel).
    rewrite Hstep. cbn [fst snd]. split; [|exact I].
    unfold two_in_flight, counter, lockout in *.
    rewrite Hsel. rewrite Hcur in Hsum, Hlock. cbn [pending] in *.
    split; [exact Hfail|]. split; [exact H2|]. split; [eauto|].
    split; [simpl; lia|].
    intros _. simpl.
    destruct (Z.leb_spec (maxLoginAttempts cfg) (intentos_fallidos cur + 1));
      [discriminate|lia].
  - cbn [step fst snd]. split; [|exact I].
    split; [exact H1|]. split; [exact H2|]. split; [eauto|]. split; assumption.
Qed.

(** Under every schedule two calls in flight stay so, and a call the
    schedule names at least once ends finished. *)
Lemma run_two_in_flight schedule :
  forall t1 t2 db,
    two_in_flight cfg userId c0 t1 t2 db ->
    let r := run cfg schedule t1 t2 db in
    two_in_flight cfg userId c0 (fst (fst r)) (snd (fst r)) (snd r)
    /\ (In true schedule \/ finished t1 -> finished (fst (fst r)))
    /\ (In false schedule \/ finished t2 -> finished (snd (fst r))).
Proof.
  induction schedule as [|turn schedule IH]; intros t1 t2 db Hinv.
  - simpl. split; [exact Hinv|]. split; intros [[]|Hf]; exact Hf.
  - destruct turn; cbn [run].
    + destruct (step_two_in_flight t1 t2 db Hinv) as [Hinv1 Hfin1].
      destruct (step cfg t1 db) as [t1' db1]. cbn [fst snd] in *.
      destruct (IH t1' t2 db1 Hinv1) as (Hinv' & Hf1 & Hf2).
      split; [exact Hinv'|]. split; [intros _; apply Hf1; right; exact Hfin1|].
      intros [[Hd|Hin]|Hf]; [discriminate| |]; apply Hf2; tauto.
    + destruct (step_two_in_flight t2 t1 db (two_in_flight_sym _ _ _ Hinv))
        as [Hinv1 Hfin1].
      destruct (step cfg t2 db) as [t2' db1]. cbn [fst snd] in *.
      destruct (IH t1 t2' db1 (two_in_flight_sym _ _ _ Hinv1)) as (Hinv' & Hf1 & Hf2).
      split; [exact Hinv'|]. split; [|intros _; apply Hf2; right; exact Hfin1].
      intros [[Hd|Hin]|Hf]; [discriminate| |]; apply Hf1; tauto.
Qed.

End TwoLogins.

Section Concurrent.
Context `{Bcrypt}.
Import EventLoop.

(** C8. Two logins for the same account, both with a wrong password, both
    started (row read, checks passed) before either resumes from its
    [await]: in whatever order the event loop then resumes them, both
    finish without authenticating and the stored counter has advanced by
    two; and where that reaches the threshold a lockout is stored. No
    schedule lets the two increments collapse into one, because
    [incrementFailedAttempts] reads the counter and writes it back without
    an [await] in between. *)
Theorem C8_concurrent_failures_both_counted (cfg : Config) (env1 env2 : Env)
    (email1 email2 password1 password2 : string) (db : Db) (u : UsuarioRow)
    (first : bool) (rest : list bool) :
  account email1 db u ->
  Usuario.findByEmail email2 db = Some u ->
  activo u = true ->
  Usuario.is_locked u (clock_check env1) = false ->
  Usuario.is_locked u (clock_check env2) = false ->
  bcrypt_compare password1 (password_hash u) = false ->
  bcrypt_compare password2 (password_hash u) = false ->
  In true rest -> In false rest ->
  exists c1 c2 db',
    run cfg (first :: negb first :: rest)
        (Start env1 email1 password1) (Start env2 email2 password2) db
    = (Finished c1, Finished c2, db')
    /\ failed c1 /\ failed c2
    /\ counter (id u) db' = intentos_fallidos u + 2
    /\ (maxLoginAttempts cfg <= intentos_fallidos u + 2 ->
        exists until_, lockout (id u) db' = Some until_).
Proof.
  intros [Hm1 Hs] Hm2 Hact Hl1 Hl2 Hw1 Hw2 Ht Hf.
  assert (Hstart : run cfg (first :: negb first :: rest)
                     (Start env1 email1 password1) (Start env2 email2 password2) db
                   = run cfg rest (Waiting env1 email1 password1 u)
                         (Waiting env2 email2 password2 u) db).
  { pose proof (step_start cfg env1 email1 password1 db u Hm1 Hl1 Hact) as Hs1.
    pose proof (step_start cfg env2 email2 password2 db u Hm2 Hl2 Hact) as Hs2.
    destruct first; cbn [run negb].
    - rewrite Hs1. cbn [run]. rewrite Hs2. reflexivity.
    - rewrite Hs2. cbn [run]. rewrite Hs1. reflexivity. }
  rewrite Hstart.
  assert (Hinv : two_in_flight cfg (id u) (intentos_fallidos u)
                   (Waiting env1 email1 password1 u)
                   (Waiting env2 email2 password2 u) db).
  { unfold two_in_flight, counter. rewrite Hs. simpl.
    repeat split; auto; try lia. eauto. }
  destruct (run_two_in_flight cfg (id u) (intentos_fallidos u) rest _ _ _ Hinv)
    as (Hinv' & Hfin1 & Hfin2).
  destruct (run cfg rest _ _ db) as [[t1 t2] db']. cbn [fst snd] in *.
  specialize (Hfin1 (or_introl Ht)). specialize (Hfin2 (or_introl Hf)).
  destruct t1 as [| |c1]; try contradiction.
  destruct t2 as [| |c2]; try contradiction.
  destruct Hinv' as (H1 & H2 & _ & Hsum & Hlock). simpl in *.
  exists c1, c2, db'. split; [reflexivity|]. split; [exact H1|].
  split; [exact H2|]. split; [lia|].
  intros Hthr. destruct (lockout (id u) db') as [t|] eqn:Hlk; [eauto|].
  exfalso. apply Hlock; [lia|lia|reflexivity].
Qed.

End Concurrent.

(** ** Tokens *)

Section Header.

Lemma split_space_no_space t :
  Js.no_space t = true -> Js.split_space t = [t].
Proof.
  induction t as [|c t IH]; simpl; [reflexivity|].
  destruct (Ascii.eqb c " "); simpl; [discriminate|].
  intros Hn. rewrite (IH Hn). reflexivity.
Qed.

Lemma token_of_bearer t :
  Js.no_space t = true -> Auth.token_of ("Bearer " ++ t) = t.
Proof.
  intros Hn. unfold Auth.token_of.
  change (Js.split_space ("Bearer " ++ t)) with ("Bearer" :: Js.split_space t).
  rewrite (split_space_no_space t Hn). reflexivity.
Qed.

Lemma startsWith_bearer t : Js.startsWith "Bearer " ("Bearer " ++ t) = true.
Proof. reflexivity. Qed.

End Header.

Section Store.

Lemma findById_of_row db u :
  primary_key db -> In u (usuarios db) -> activo u = true ->
  Usuario.findById (id u) db = Some (view u).
Proof.
  unfold primary_key, Usuario.findById. intros Hpk Hin Ha.
  induction (usuarios db) as [|r rows IH]; simpl in *; [contradiction|].
  apply NoDup_cons in Hpk as [Hr Hpk].
  destruct Hin as [->|Hin]; [rewrite Z.eqb_refl, Ha; reflexivity|].
  destruct (Z.eqb_spec (id r) (id u)) as [Heq|_]; simpl; [|auto].
  exfalso. apply Hr. rewrite Heq. apply list_elem_of_In, in_map, Hin.
Qed.

Lemma findById_absent userId' db :
  (forall u, In u (usuarios db) -> id u = userId' -> activo u = false) ->
  Usuario.findById userId' db = None.
Proof.
  unfold Usuario.findById. intros Hall.
  induction (usuarios db) as [|r rows IH]; simpl in *; [reflexivity|].
  destruct (Z.eqb_spec (id r) userId') as [Heq|_]; simpl.
  - rewrite (Hall r (or_introl eq_refl) Heq). apply IH. auto.
  - apply IH. auto.
Qed.

Lemma findById_deactivate env userId' db :
  Usuario.findById userId' (snd (Usuario.deactivate env userId' db)) = None.
Proof.
  apply findById_absent. unfold Usuario.deactivate. run_m.
  intros u Hin Hid. apply in_map_iff in Hin as (r & Hr & _). subst u.
  destruct (Z.eqb_spec (id r) userId') as [_|Hne]; [reflexivity|].
  contradiction.
Qed.

Lemma findById_some userId' db v :
  Usuario.findById userId' db = Some v ->
  exists u, In u (usuarios db) /\ v = view u /\ id u = userId' /\ activo u = true.
Proof.
  unfold Usuario.findById. destruct (find _ _) as [u|] eqn:Hf; [|discriminate].
  intros Hv. injection Hv as <-. apply find_some in Hf as [Hin Hp].
  apply andb_prop in Hp as [Hid Ha]. apply Z.eqb_eq in Hid. eauto.
Qed.

End Store.

Section Issuance.
Context `{Bcrypt}.
Variable cfg : Config.

Lemma update_by_id_ids i f db :
  (forall v, id (f v) = id v) ->
  map id (usuarios (update_by_id i f db)) = map id (usuarios db).
Proof.
  intros Hf. unfold update_by_id; simpl. rewrite map_map. apply map_ext.
  intros v. destruct (id v =? i); [apply Hf|reflexivity].
Qed.

Lemma In_update_by_id u f db :
  In u (usuarios db) -> In (f u) (usuarios (update_by_id (id u) f db)).
Proof.
  intros Hin. unfold update_by_id; simpl.
  apply in_map_iff. exists u. rewrite Z.eqb_refl. auto.
Qed.

Lemma findById_write_success env email' ok t db u :
  primary_key db -> In u (usuarios db) -> activo u = true ->
  Usuario.findById (id u)
    (Usuario.ledger_append env email' ok (write_success t u db))
  = Some (view (after_success t u)).
Proof.
  intros Hpk Hin Ha.
  apply (findById_of_row
           (Usuario.ledger_append env email' ok (write_success t u db))
           (after_success t u)).
  - unfold primary_key, Usuario.ledger_append, write_success. cbn [usuarios].
    rewrite !update_by_id_ids by reflexivity. exact Hpk.
  - unfold Usuario.ledger_append, write_success, after_success. cbn [usuarios].
    apply (In_update_by_id (set_attempts 0 None u) (set_ultimo_login t)).
    apply (In_update_by_id u (set_attempts 0 None)). exact Hin.
  - exact Ha.
Qed.

(** What a [verifyCredentials] that returned a user did. *)
Lemma verifyCredentials_returned env email' password db user db' :
  Usuario.verifyCredentials cfg env email' password db = (Return (Some user), db') ->
  exists u,
    Usuario.findByEmail email' db = Some u /\ activo u = true
    /\ user = public u
    /\ db' = Usuario.ledger_append env email' true
               (write_success (sql_timestamp env) u db).
Proof.
  destruct (Usuario.findByEmail email' db) as [u|] eqn:Hm.
  - destruct (Usuario.is_locked u (clock_check env)) eqn:Hl.
    { rewrite (verifyCredentials_locked cfg env email' password db u Hm Hl).
      discriminate. }
    destruct (activo u) eqn:Ha.
    2:{ rewrite (verifyCredentials_inactive cfg env email' password db u Hm Hl Ha).
        discriminate. }
    unfold Usuario.verifyCredentials, Usuario.before_await, Usuario.after_await,
      Usuario.incrementFailedAttempts, Usuario.resetFailedAttempts,
      Usuario.updateLastLogin, Usuario.registerLoginAttempt. run_m.
    rewrite Hm, Hl, Ha. simpl.
    destruct (bcrypt_compare password (password_hash u)); simpl;
      destruct (ledger_fault env); simpl; try discriminate.
    intros Heq. injection Heq as <- <-. exists u. auto.
  - rewrite (verifyCredentials_unknown cfg env email' password db Hm).
    destruct (ledger_fault env); discriminate.
Qed.

Lemma next_rowid_fresh rows r : In r rows -> id r < next_rowid rows.
Proof.
  unfold next_rowid. induction rows as [|x rows IH]; simpl; [contradiction|].
  intros [->|Hin]; [lia|]. specialize (IH Hin). lia.
Qed.

Lemma primary_key_appended rows row ledger :
  NoDup (map id rows) -> id row = next_rowid rows ->
  primary_key {| usuarios := rows ++ [row]; intentos_login := ledger |}.
Proof.
  intros Hnd Hid. unfold primary_key. cbn [usuarios]. rewrite map_app.
  apply NoDup_app. split; [exact Hnd|]. split.
  - intros x Hx Hx'. apply list_elem_of_In in Hx. apply in_map_iff in Hx as (r & <- & Hr).
    apply list_elem_of_In in Hx'. simpl in Hx'. destruct Hx' as [Heq|[]].
    pose proof (next_rowid_fresh rows r Hr). lia.
  - simpl. apply NoDup_cons. split; [apply not_elem_of_nil|]. apply NoDup_nil. exact I.
Qed.

(** The row a successful [create] appended takes the next rowid. *)
Lemma create_rowid env nombre' email' password rol' db user db1 :
  Usuario.create cfg env nombre' (Some email') password rol' db
  = (Return user, db1) ->
  exists row,
    db1 = {| usuarios := usuarios db ++ [row]; intentos_login := intentos_login db |}
    /\ id row = next_rowid (usuarios db) /\ activo row = true
    /\ user = public row.
Proof.
  unfold Usuario.create, Usuario.insert_usuario. run_m.
  destruct (Usuario.findByEmail email' db); [discriminate|].
  destruct password as [password|]; [|discriminate].
  destruct nombre' as [nombre'|]; [|discriminate].
  destruct (existsb _ _); [discriminate|].
  destruct (negb _); [discriminate|].
  intros Heq. injection Heq as <- <-.
  eexists. split; [reflexivity|]. repeat split.
Qed.

Context `{Jwt}.

(** A 200 of [apiLogin] carries the user [verifyCredentials] returned and
    the token made for it. *)
Lemma apiLogin_ok env (body : Body) db message user token db' :
  AuthController.apiLogin cfg env body db
  = (Return (Json 200 true message (Some (user, token))), db') ->
  exists email' password,
    Usuario.verifyCredentials cfg env email' password db = (Return (Some user), db')
    /\ token = Auth.generateToken cfg env user.
Proof.
  unfold AuthController.apiLogin, AuthController.verifyCredentials_body.
  destruct (body !! "email") as [email'|]; [|run_m; discriminate].
  destruct (body !! "password") as [password|].
  - unfold try_catch, bind.
    destruct (Usuario.verifyCredentials cfg env email' password db)
      as [[[u|]|e] db1] eqn:Hvc; unfold ret; try discriminate.
    intros Heq. injection Heq as _ <- <- <-. eauto.
  - unfold Usuario.before_await, Usuario.registerLoginAttempt. run_m.
    destruct (Usuario.findByEmail email' db) as [u|].
    + destruct (Usuario.is_locked u (clock_check env)); [discriminate|].
      destruct (negb (activo u)); discriminate.
    + destruct (ledger_fault env); discriminate.
Qed.

(** A 201 of [apiRegister] carries the user [create] returned and the
    token made for it. *)
Lemma apiRegister_created env (body : Body) db message user token db' :
  AuthController.apiRegister cfg env body db
  = (Return (Json 201 true message (Some (user, token))), db') ->
  exists nombre' email' password,
    Usuario.create cfg env nombre' (Some email') password (Some "usuario") db
    = (Return user, db')
    /\ token = Auth.generateToken cfg env user.
Proof.
  unfold AuthController.apiRegister, try_catch, bind.
  destruct (body !! "email") as [email'|].
  - destruct (Usuario.create cfg env (body !! "nombre") (Some email')
                (body !! "password") (Some "usuario") db) as [[u|e] db1] eqn:Hc;
      unfold ret; [|discriminate].
    intros Heq. injection Heq as _ <- <- <-. eauto.
  - unfold Usuario.create, throw, ret. discriminate.
Qed.

End Issuance.

Section Tokens.
Context `{Bcrypt} `{JwtLaws}.
Variable cfg : Config.

Lemma verifyToken_fresh env user now db v :
  now / 1000 < clock_sign env / 1000 + jwt_expiresIn cfg ->
  Usuario.findById (pu_id user) db = Some v ->
  Auth.verifyToken cfg now (Auth.bearer (Auth.generateToken cfg env user)) db
  = Auth.Next v.
Proof.
  intros Hnow Hf. unfold Auth.verifyToken, Auth.bearer.
  rewrite startsWith_bearer, token_of_bearer by apply jwt_sign_no_space.
  cbn [negb]. unfold Auth.generateToken.
  rewrite jwt_verify_fresh by exact Hnow. cbn [payload userId].
  rewrite Hf. reflexivity.
Qed.

Lemma verifyToken_expired env user now db :
  clock_sign env / 1000 + jwt_expiresIn cfg <= now / 1000 ->
  Auth.verifyToken cfg now (Auth.bearer (Auth.generateToken cfg env user)) db
  = Auth.unauthorized "Token expirado. Por favor, inicie sesión nuevamente.".
Proof.
  intros Hnow. unfold Auth.verifyToken, Auth.bearer.
  rewrite startsWith_bearer, token_of_bearer by apply jwt_sign_no_space.
  cbn [negb]. unfold Auth.generateToken.
  rewrite jwt_verify_expired by exact Hnow. reflexivity.
Qed.

(** What [verifyToken] answers when the token of the header is one that
    [jwt.sign] returned for the secret: never 'Token inválido'. *)
Lemma verifyToken_signed now authHeader p e t db :
  Js.startsWith "Bearer " authHeader = true ->
  Auth.token_of authHeader = jwt_sign p (jwt_secret cfg) e t ->
  Auth.verifyToken cfg now (Some authHeader) db
  <> Auth.unauthorized "Token inválido".
Proof.
  intros Hs Ht. unfold Auth.verifyToken. rewrite Hs, Ht. cbn [negb].
  destruct (Z.lt_ge_cases (now / 1000) (t / 1000 + e)) as [Hlt|Hge].
  - rewrite jwt_verify_fresh by exact Hlt.
    destruct (Usuario.findById _ db); discriminate.
  - rewrite jwt_verify_expired by exact Hge. discriminate.
Qed.

(** And when it is a string that no [jwt.sign] with the secret returned. *)
Lemma verifyToken_unsigned now authHeader db :
  Js.startsWith "Bearer " authHeader = true ->
  (forall p e t, Auth.token_of authHeader <> jwt_sign p (jwt_secret cfg) e t) ->
  Auth.verifyToken cfg now (Some authHeader) db
  = Auth.unauthorized "Token inválido".
Proof.
  intros Hs Hno. unfold Auth.verifyToken. rewrite Hs. cbn [negb].
  rewrite (jwt_verify_unsigned _ _ now Hno). reflexivity.
Qed.

(** A string that [jwt.verify] refuses as invalid is not a signed token. *)
Lemma rejected_not_signed token secret now :
  jwt_verify token secret now = JwtThrow "JsonWebTokenError" ->
  forall p e t, token <> jwt_sign p secret e t.
Proof.
  intros Hv p e t ->.
  destruct (Z.lt_ge_cases (now / 1000) (t / 1000 + e)) as [Hlt|Hge].
  - rewrite jwt_verify_fresh in Hv by exact Hlt. discriminate.
  - rewrite jwt_verify_expired in Hv by exact Hge. discriminate.
Qed.

(** C6, as amended. Under a positive [expiresIn] and over a table whose
    ids are distinct: the token [apiLogin] or [apiRegister] issues for an
    account, presented at the instant of issuance or at any instant before
    its expiry to the database the call left, makes [verifyToken] pass the
    request on with the account's stored record, whose id, email and role
    are the ones issued; from its expiry on, a token is answered 401
    'Token expirado...' in every database. Every header whose token, the
    text between its first and second space, is a string that no
    [jwt.sign] with the secret returned, so every mutation of a token that
    is not itself a signed token, also presented whole when it has no
    space, is answered 401 'Token inválido', a different answer; and these
    are all the headers so answered among those that begin with 'Bearer ':
    a header whose token is a signed one, such as a token with text
    appended after a space, never is. More generally 'Token inválido'
    answers every header whose token makes [jwt.verify] throw anything but
    [TokenExpiredError]. *)
Theorem C6_token_round_trip (env : Env) (db : Db) :
  0 < jwt_expiresIn cfg ->
  primary_key db ->
  let issued := clock_sign env / 1000 in
  let same_subject (user : PublicUser) (principal : UsuarioView) :=
    v_id principal = pu_id user /\ v_email principal = pu_email user
    /\ v_rol principal = pu_rol user in
  let signed (token : string) :=
    exists p e t, token = jwt_sign p (jwt_secret cfg) e t in
  (forall (body : Body) message user token db' now,
     AuthController.apiLogin cfg env body db
     = (Return (Json 200 true message (Some (user, token))), db') ->
     now = clock_sign env \/ now / 1000 < issued + jwt_expiresIn cfg ->
     exists principal,
       Auth.verifyToken cfg now (Auth.bearer token) db' = Auth.Next principal
       /\ same_subject user principal)
  /\ (forall (body : Body) message user token db' now,
        AuthController.apiRegister cfg env body db
        = (Return (Json 201 true message (Some (user, token))), db') ->
        now = clock_sign env \/ now / 1000 < issued + jwt_expiresIn cfg ->
        exists principal,
          Auth.verifyToken cfg now (Auth.bearer token) db' = Auth.Next principal
          /\ same_subject user principal)
  /\ (forall user now db',
        issued + jwt_expiresIn cfg <= now / 1000 ->
        Auth.verifyToken cfg now
          (Auth.bearer (Auth.generateToken cfg env user)) db'
        = Auth.unauthorized "Token expirado. Por favor, inicie sesión nuevamente.")
  /\ (forall now authHeader db',
        Js.startsWith "Bearer " authHeader = true ->
        ~ signed (Auth.token_of authHeader) ->
        Auth.verifyToken cfg now (Some authHeader) db'
        = Auth.unauthorized "Token inválido")
  /\ (forall now mutated db',
        Js.no_space mutated = true ->
        ~ signed mutated ->
        Auth.verifyToken cfg now (Auth.bearer mutated) db'
        = Auth.unauthorized "Token inválido")
  /\ (forall now authHeader db',
        Js.startsWith "Bearer " authHeader = true ->
        signed (Auth.token_of authHeader) ->
        Auth.verifyToken cfg now (Some authHeader) db'
        <> Auth.unauthorized "Token inválido")
  /\ (forall now authHeader name db',
        Js.startsWith "Bearer " authHeader = true ->
        jwt_verify (Auth.token_of authHeader) (jwt_secret cfg) now = JwtThrow name ->
        name <> "TokenExpiredError" ->
        Auth.verifyToken cfg now (Some authHeader) db'
        = Auth.unauthorized "Token inválido")
  /\ Auth.unauthorized "Token inválido"
     <> Auth.unauthorized "Token expirado. Por favor, inicie sesión nuevamente.".
Proof.
  intros He Hpk issued same_subject signed.
  assert (Hnow : forall now,
            now = clock_sign env \/ now / 1000 < issued + jwt_expiresIn cfg ->
            now / 1000 < clock_sign env / 1000 + jwt_expiresIn cfg).
  { intros now [->|Hlt]; [lia|exact Hlt]. }
  assert (Hunsigned : forall token,
            ~ signed token ->
            forall p e t, token <> jwt_sign p (jwt_secret cfg) e t).
  { intros token Hno p e t Heq. apply Hno. exists p, e, t. exact Heq. }
  split; [|split; [|split; [|split; [|split; [|split; [|split]]]]]].
  - intros body message user token db' now Hok Hn.
    destruct (apiLogin_ok cfg env body db message user token db' Hok)
      as (email' & password & Hvc & ->).
    destruct (verifyCredentials_returned cfg env email' password db user db' Hvc)
      as (u & Hm & Ha & -> & ->).
    exists (view (after_success (sql_timestamp env) u)).
    split; [|repeat split].
    apply verifyToken_fresh; [exact (Hnow now Hn)|].
    apply findById_write_success; [exact Hpk| |exact Ha].
    apply find_some in Hm. tauto.
  - intros body message user token db' now Hok Hn.
    destruct (apiRegister_created cfg env body db message user token db' Hok)
      as (nombre' & email' & password & Hc & ->).
    destruct (create_rowid cfg env nombre' email' password _ db user db' Hc)
      as (row & -> & Hid & Ha & ->).
    exists (view row). split; [|repeat split].
    apply verifyToken_fresh; [exact (Hnow now Hn)|].
    apply (findById_of_row _ row).
    + apply primary_key_appended; [exact Hpk|exact Hid].
    + cbn [usuarios]. apply in_or_app. right. left. reflexivity.
    + exact Ha.
  - intros user now db' Hexp. apply verifyToken_expired. exact Hexp.
  - intros now authHeader db' Hs Hno.
    apply verifyToken_unsigned; [exact Hs|apply Hunsigned, Hno].
  - intros now mutated db' Hsp Hno.
    apply verifyToken_unsigned; [apply startsWith_bearer|].
    rewrite token_of_bearer by exact Hsp. apply Hunsigned, Hno.
  - intros now authHeader db' Hs (p & e & t & Ht).
    exact (verifyToken_signed now authHeader p e t db' Hs Ht).
  - intros now authHeader name db' Hs Hv Hn. unfold Auth.verifyToken.
    rewrite Hs, Hv. cbn [negb].
    destruct (String.eqb_spec name "TokenExpiredError"); [contradiction|reflexivity].
  - discriminate.
Qed.

End Tokens.

Section Principal.
Context `{Jwt}.
Variable cfg : Config.

(** C10. For a header whose token [jwt.verify] accepts, [verifyToken]
    decides by looking the token's [userId] up in the store at that call:
    it answers 401 "Usuario no encontrado o inactivo" when the account has
    been deactivated since or has no row, and otherwise passes the request
    on with the record of an active stored row of that id; the email and
    role written in the token play no part, two accepted tokens of the same
    [userId] being answered alike. *)
Theorem C10_subject_revalidated (now : Z) (authHeader : string)
    (decoded : JwtDecoded) (db : Db) :
  Js.startsWith "Bearer " authHeader = true ->
  jwt_verify (Auth.token_of authHeader) (jwt_secret cfg) now = Decoded decoded ->
  Auth.verifyToken cfg now (Some authHeader) db
  = match Usuario.findById (userId (payload decoded)) db with
    | None => Auth.unauthorized "Usuario no encontrado o inactivo"
    | Some user => Auth.Next user
    end
  /\ (forall env,
        Auth.verifyToken cfg now (Some authHeader)
          (snd (Usuario.deactivate env (userId (payload decoded)) db))
        = Auth.unauthorized "Usuario no encontrado o inactivo")
  /\ ((forall u, In u (usuarios db) -> id u <> userId (payload decoded)) ->
      Auth.verifyToken cfg now (Some authHeader) db
      = Auth.unauthorized "Usuario no encontrado o inactivo")
  /\ (forall principal,
        Auth.verifyToken cfg now (Some authHeader) db = Auth.Next principal ->
        exists u, In u (usuarios db) /\ principal = view u
                  /\ id u = userId (payload decoded) /\ activo u = true)
  /\ (forall now2 authHeader2 decoded2,
        Js.startsWith "Bearer " authHeader2 = true ->
        jwt_verify (Auth.token_of authHeader2) (jwt_secret cfg) now2
        = Decoded decoded2 ->
        userId (payload decoded2) = userId (payload decoded) ->
        Auth.verifyToken cfg now2 (Some authHeader2) db
        = Auth.verifyToken cfg now (Some authHeader) db).
Proof.
  intros Hs Hv.
  assert (Heq : forall db', Auth.verifyToken cfg now (Some authHeader) db'
            = match Usuario.findById (userId (payload decoded)) db' with
              | None => Auth.unauthorized "Usuario no encontrado o inactivo"
              | Some user => Auth.Next user
              end).
  { intros db'. unfold Auth.verifyToken. rewrite Hs, Hv. reflexivity. }
  split; [apply Heq|]. split; [|split; [|split]].
  - intros env. rewrite Heq, findById_deactivate. reflexivity.
  - intros Hno. rewrite Heq, findById_absent; [reflexivity|].
    intros u Hin Hid. destruct (Hno u Hin Hid).
  - intros principal. rewrite Heq.
    destruct (Usuario.findById _ db) as [v|] eqn:Hf; [|discriminate].
    intros Hp. injection Hp as <-. exact (findById_some _ _ _ Hf).
  - intros now2 authHeader2 decoded2 Hs2 Hv2 Hid. rewrite Heq.
    unfold Auth.verifyToken. rewrite Hs2, Hv2, Hid. reflexivity.
Qed.

End Principal.

(** ** The reference token library has the behaviour relied on *)

Section ReferenceLaws.
Import Reference.

Lemma char_bit_char b : char_bit (bit_char b) = b.
Proof. destruct b; reflexivity. Qed.

Lemma bit_char_not_dot b : Ascii.eqb (bit_char b) "." = false.
Proof. destruct b; reflexivity. Qed.

Lemma dec_enc_field f rest : dec_field (enc_field f rest) = Some (f, rest).
Proof.
  induction f as [|[b0 b1 b2 b3 b4 b5 b6 b7] f IH].
  - destruct rest as [|c1 [|c2 [|c3 [|c4 [|c5 [|c6 [|c7 rest]]]]]]]; reflexivity.
  - cbn [enc_field dec_field]. rewrite bit_char_not_dot, IH, !char_bit_char.
    reflexivity.
Qed.

Lemma no_space_enc_field f rest :
  Js.no_space (enc_field f rest) = Js.no_space rest.
Proof.
  induction f as [|[b0 b1 b2 b3 b4 b5 b6 b7] f IH]; [reflexivity|].
  cbn [enc_field Js.no_space]. rewrite IH.
  destruct b0, b1, b2, b3, b4, b5, b6, b7; reflexivity.
Qed.

Lemma decode_encode secret d : decode (encode secret d) = Some (secret, d).
Proof.
  destruct d as [[uid mail role] issued expires].
  unfold decode, encode. cbn [payload userId jwt_email jwt_rol iat exp].
  repeat (rewrite dec_enc_field; cbn [mbind option_bind]).
  rewrite !HexString.to_Z_of_Z. reflexivity.
Qed.

Lemma reference_jwt_laws : @JwtLaws Reference.jwt.
Proof.
  split.
  - intros p secret e t now Hnow. cbn [jwt_verify jwt_sign jwt].
    rewrite decode_encode, !String.eqb_refl. cbn [negb exp].
    destruct (Z.leb_spec (t / 1000 + e) (now / 1000)); [lia|reflexivity].
  - intros p secret e t now Hnow. cbn [jwt_verify jwt_sign jwt].
    rewrite decode_encode, !String.eqb_refl. cbn [negb exp].
    destruct (Z.leb_spec (t / 1000 + e) (now / 1000)); [reflexivity|lia].
  - intros p secret e t. cbn [jwt_sign jwt]. unfold encode.
    rewrite !no_space_enc_field. reflexivity.
  - intros token secret now Hno. cbn [jwt_verify jwt].
    destruct (decode token) as [[secret' d]|]; [|reflexivity].
    destruct (String.eqb_spec secret' secret) as [->|_]; [|reflexivity].
    destruct (String.eqb_spec token (encode secret d)) as [Heq|_]; [|reflexivity].
    exfalso. apply (Hno (payload d) (exp d - iat d) (iat d * 1000)).
    cbn [jwt_sign jwt]. rewrite Heq. f_equal.
    destruct d as [p issued expires]. cbn [payload iat exp].
    rewrite Z.div_mul by lia. f_equal. lia.
Qed.

End ReferenceLaws.

(** * Further properties of the sources *)

(** ** Normalized identities *)

Section Normalization.

Lemma lower_char_idem c : Js.lower_char (Js.lower_char c) = Js.lower_char c.
Proof. destruct c as [[] [] [] [] [] [] [] []]; reflexivity. Qed.

Lemma is_space_lower_char c : Js.is_space (Js.lower_char c) = Js.is_space c.
Proof. destruct c as [[] [] [] [] [] [] [] []]; reflexivity. Qed.

Lemma toLowerCase_idem s : Js.toLowerCase (Js.toLowerCase s) = Js.toLowerCase s.
Proof.
  induction s as [|c s IH]; simpl; [reflexivity|].
  rewrite lower_char_idem, IH. reflexivity.
Qed.

Lemma trimStart_toLowerCase s :
  Js.trimStart (Js.toLowerCase s) = Js.toLowerCase (Js.trimStart s).
Proof.
  induction s as [|c s IH]; simpl; [reflexivity|].
  rewrite is_space_lower_char. destruct (Js.is_space c); [exact IH|reflexivity].
Qed.

Lemma trimEnd_toLowerCase s :
  Js.trimEnd (Js.toLowerCase s) = Js.toLowerCase (Js.trimEnd s).
Proof.
  induction s as [|c s IH]; simpl; [reflexivity|].
  rewrite IH, is_space_lower_char.
  destruct (Js.trimEnd s); simpl; [destruct (Js.is_space c)|]; reflexivity.
Qed.

Lemma trim_toLowerCase s : Js.trim (Js.toLowerCase s) = Js.toLowerCase (Js.trim s).
Proof. unfold Js.trim. rewrite trimStart_toLowerCase. apply trimEnd_toLowerCase. Qed.

Lemma trimStart_head_kept s : head_kept (Js.trimStart s).
Proof.
  induction s as [|c s IH]; simpl; [exact I|].
  destruct (Js.is_space c) eqn:Hc; [exact IH|exact Hc].
Qed.

Lemma trimStart_fixed s : head_kept s -> Js.trimStart s = s.
Proof. destruct s as [|c s]; simpl; [reflexivity|]. intros ->. reflexivity. Qed.

Lemma trimEnd_head_kept s : head_kept s -> head_kept (Js.trimEnd s).
Proof.
  destruct s as [|c s]; simpl; [trivial|]. intros Hc.
  destruct (Js.trimEnd s); [rewrite Hc|]; exact Hc.
Qed.

Lemma trimEnd_idem s : Js.trimEnd (Js.trimEnd s) = Js.trimEnd s.
Proof.
  induction s as [|c s IH]; simpl; [reflexivity|].
  destruct (Js.trimEnd s) as [|d r] eqn:Hr.
  - destruct (Js.is_space c) eqn:Hc; simpl; [reflexivity|]. rewrite Hc. reflexivity.
  - change (Js.trimEnd (String c (String d r))) with
      (match Js.trimEnd (String d r) with
       | EmptyString => if Js.is_space c then EmptyString else String c EmptyString
       | x => String c x
       end).
    rewrite IH. reflexivity.
Qed.

Lemma trim_idem s : Js.trim (Js.trim s) = Js.trim s.
Proof.
  unfold Js.trim.
  rewrite (trimStart_fixed (Js.trimEnd (Js.trimStart s)))
    by apply trimEnd_head_kept, trimStart_head_kept.
  apply trimEnd_idem.
Qed.

(** The identity [create] and [update] store is a fixed point of the
    normalization [findByEmail] applies. *)
Lemma normalized_normalize e : normalized (Js.trim (Js.toLowerCase e)).
Proof.
  unfold normalized.
  rewrite <- (trim_toLowerCase (Js.toLowerCase e)), toLowerCase_idem.
  apply trim_idem.
Qed.

End Normalization.

(** ** Registering and logging in *)

Section RoundTrip.
Context `{Bcrypt}.
Variable cfg : Config.

(** The answer of [verifyCredentials], read off the row [findByEmail]
    returns. *)
Lemma verifyCredentials_result env email' password db :
  fst (Usuario.verifyCredentials cfg env email' password db)
  = match Usuario.findByEmail email' db with
    | None => match ledger_fault env with Some e => Throw e | None => Return None end
    | Some u =>
        if Usuario.is_locked u (clock_check env) then Throw Usuario.CuentaBloqueada
        else if negb (activo u) then Throw Usuario.CuentaDesactivada
        else match ledger_fault env with
             | Some e => Throw e
             | None =>
                 if bcrypt_compare password (password_hash u)
                 then Return (Some (public u)) else Return None
             end
    end.
Proof.
  unfold Usuario.verifyCredentials, Usuario.before_await, Usuario.after_await,
    Usuario.incrementFailedAttempts, Usuario.resetFailedAttempts,
    Usuario.updateLastLogin, Usuario.registerLoginAttempt. run_m.
  destruct (Usuario.findByEmail email' db) as [u|].
  - destruct (Usuario.is_locked u (clock_check env)); simpl; [reflexivity|].
    destruct (activo u); simpl; [|reflexivity].
    destruct (bcrypt_compare password (password_hash u)); simpl;
      destruct (ledger_fault env); reflexivity.
  - destruct (ledger_fault env); reflexivity.
Qed.

(** The row a successful [create] appended, field by field. *)
Lemma create_inserted env nombre' email' password rol' db user db1 :
  Usuario.create cfg env nombre' email' password rol' db = (Return user, db1) ->
  exists n e p,
    nombre' = Some n /\ email' = Some e /\ password = Some p
    /\ Usuario.findByEmail e db = None
    /\ rol_check (default "usuario" rol') = true
    /\ db1 = {| usuarios := usuarios db ++
                  [{| id := next_rowid (usuarios db); nombre := Js.trim n;
                      email := Js.trim (Js.toLowerCase e);
                      password_hash :=
                        bcrypt_hash p (bcryptRounds cfg) (bcrypt_salt env);
                      rol := default "usuario" rol'; activo := true;
                      intentos_fallidos := 0; bloqueado_hasta := None;
                      ultimo_login := None;
                      fecha_creacion := sql_timestamp env;
                      fecha_actualizacion := sql_timestamp env |}];
                intentos_login := intentos_login db |}
    /\ user = {| pu_id := next_rowid (usuarios db); pu_nombre := Js.trim n;
                 pu_email := Js.trim (Js.toLowerCase e);
                 pu_rol := default "usuario" rol' |}.
Proof.
  unfold Usuario.create, Usuario.insert_usuario. run_m.
  destruct email' as [e|]; [|discriminate].
  destruct (Usuario.findByEmail e db) eqn:Hm; [discriminate|].
  destruct password as [p|]; [|discriminate].
  destruct nombre' as [n|]; [|discriminate].
  destruct (existsb _ _); [discriminate|].
  destruct (rol_check (default "usuario" rol')) eqn:Hr; [|discriminate].
  simpl. intros Heq. injection Heq as <- <-.
  exists n, e, p. repeat split; reflexivity || assumption.
Qed.

(** Looking an appended row up by any spelling of its identity. *)
Lemma findByEmail_created e e2 rows row ledger :
  Usuario.findByEmail e {| usuarios := rows; intentos_login := ledger |} = None ->
  email row = Js.trim (Js.toLowerCase e) ->
  Js.trim (Js.toLowerCase e2) = Js.trim (Js.toLowerCase e) ->
  Usuario.findByEmail e2 {| usuarios := rows ++ [row]; intentos_login := ledger |}
  = Some row.
Proof.
  intros Hfree He Hn.
  rewrite (findByEmail_same_identity e e2 _ Hn),
          (findByEmail_appended e rows row ledger He).
  unfold Usuario.findByEmail in Hfree. simpl in Hfree. rewrite Hfree. reflexivity.
Qed.

(** X1. What [create] returned is found again: [findByEmail], given the
    identity as it was typed, any spelling of it with the same normalized
    form, or the email [create] returned, yields the row that was
    inserted, whose public fields are the ones returned; and over a table
    with distinct ids [findById] with the returned id yields that row's
    columns. *)
Theorem create_then_find env nombre' email' password rol' db user db1 :
  Usuario.create cfg env nombre' (Some email') password rol' db
  = (Return user, db1) ->
  exists row,
    public row = user
    /\ (forall spelling,
          Js.trim (Js.toLowerCase spelling) = Js.trim (Js.toLowerCase email')
          \/ spelling = pu_email user ->
          Usuario.findByEmail spelling db1 = Some row)
    /\ (primary_key db -> Usuario.findById (pu_id user) db1 = Some (view row)).
Proof.
  intros Hc.
  destruct (create_inserted _ _ _ _ _ _ _ _ Hc)
    as (n & e & p & _ & He & _ & Hfree & _ & -> & ->).
  injection He as <-.
  set (row := {| id := next_rowid (usuarios db); nombre := Js.trim n;
                 email := Js.trim (Js.toLowerCase email');
                 password_hash := bcrypt_hash p (bcryptRounds cfg) (bcrypt_salt env);
                 rol := default "usuario" rol'; activo := true;
                 intentos_fallidos := 0; bloqueado_hasta := None;
                 ultimo_login := None;
                 fecha_creacion := sql_timestamp env;
                 fecha_actualizacion := sql_timestamp env |}).
  exists row. split; [reflexivity|]. split.
  - intros spelling Hs.
    apply (findByEmail_created email' spelling); [destruct db; exact Hfree|reflexivity|].
    destruct Hs as [Hn | ->]; [exact Hn|]. apply normalized_normalize.
  - intros Hpk. apply (findById_of_row _ row).
    + apply primary_key_appended; [exact Hpk|reflexivity].
    + cbn [usuarios]. apply in_or_app. right. left. reflexivity.
    + reflexivity.
Qed.

(** X2. Registering and then logging in. After a successful [create],
    [verifyCredentials] with the same password and any spelling of the
    identity that normalizes alike, the ledger being writable, returns the
    very user [create] returned, and leaves the account with counter 0, no
    lockout and its last login stamped. *)
Theorem create_then_verifyCredentials `{!BcryptLaws} env1 env2
    nombre' email' password rol' spelling db user db1 :
  Usuario.create cfg env1 nombre' (Some email') (Some password) rol' db
  = (Return user, db1) ->
  Js.trim (Js.toLowerCase spelling) = Js.trim (Js.toLowerCase email') ->
  ledger_fault env2 = None ->
  exists db2 row,
    Usuario.verifyCredentials cfg env2 spelling password db1
    = (Return (Some user), db2)
    /\ Usuario.findByEmail spelling db2 = Some row
    /\ intentos_fallidos row = 0 /\ bloqueado_hasta row = None
    /\ ultimo_login row = Some (sql_timestamp env2).
Proof.
  intros Hc Hn Hfault.
  destruct (create_inserted _ _ _ _ _ _ _ _ Hc)
    as (n & e & p & _ & He & Hp & Hfree & _ & -> & ->).
  injection He as <-. injection Hp as <-.
  set (row := {| id := next_rowid (usuarios db); nombre := Js.trim n;
                 email := Js.trim (Js.toLowerCase email');
                 password_hash :=
                   bcrypt_hash password (bcryptRounds cfg) (bcrypt_salt env1);
                 rol := default "usuario" rol'; activo := true;
                 intentos_fallidos := 0; bloqueado_hasta := None;
                 ultimo_login := None;
                 fecha_creacion := sql_timestamp env1;
                 fecha_actualizacion := sql_timestamp env1 |}).
  assert (Hm : Usuario.findByEmail spelling
                 {| usuarios := usuarios db ++ [row];
                    intentos_login := intentos_login db |} = Some row).
  { apply (findByEmail_created email' spelling); [|reflexivity|exact Hn].
    destruct db; exact Hfree. }
  pose proof (verifyCredentials_verified cfg env2 spelling password _ row Hm
                eq_refl eq_refl (bcrypt_compare_hash _ _ _)) as Hvc.
  cbv zeta in Hvc. rewrite Hfault in Hvc.
  eexists _, (after_success (sql_timestamp env2) row).
  split; [exact Hvc|]. split; [|repeat split].
  change (Usuario.findByEmail spelling
            (Usuario.ledger_append env2 spelling true
               (write_success (sql_timestamp env2) row
                  {| usuarios := usuarios db ++ [row];
                     intentos_login := intentos_login db |})))
    with (Usuario.findByEmail spelling
            (write_success (sql_timestamp env2) row
               {| usuarios := usuarios db ++ [row];
                  intentos_login := intentos_login db |})).
  unfold write_success.
  rewrite !findByEmail_update_by_id, Hm by reflexivity. simpl.
  rewrite !Z.eqb_refl. reflexivity.
Qed.

End RoundTrip.

(** ** What a login writes *)

Section LoginWrites.
Context `{Bcrypt}.
Variable cfg : Config.

Lemma update_by_id_others i f db :
  (forall v, id (f v) = id v) ->
  List.filter (fun r => negb (id r =? i)) (usuarios (update_by_id i f db))
  = List.filter (fun r => negb (id r =? i)) (usuarios db).
Proof.
  intros Hf. unfold update_by_id; simpl.
  induction (usuarios db) as [|r rows IH]; [reflexivity|].
  cbn [map List.filter]. destruct (id r =? i) eqn:Hr.
  - rewrite Hf, Hr. exact IH.
  - rewrite Hr. cbn [negb]. rewrite IH. reflexivity.
Qed.

Lemma update_by_id_map {A} (g : UsuarioRow -> A) i f db :
  (forall v, g (f v) = g v) ->
  map g (usuarios (update_by_id i f db)) = map g (usuarios db).
Proof.
  intros Hf. unfold update_by_id; simpl. rewrite map_map. apply map_ext.
  intros v. destruct (id v =? i); [apply Hf|reflexivity].
Qed.

(** The table [usuarios] after a call is the table before it, or that
    table with the counter and lockout of the account rewritten, or with
    its counter, lockout and last login rewritten. *)
Lemma verifyCredentials_usuarios env email' password db :
  usuarios (snd (Usuario.verifyCredentials cfg env email' password db))
  = usuarios db
  \/ exists u,
       Usuario.findByEmail email' db = Some u
       /\ ((exists n b,
              usuarios (snd (Usuario.verifyCredentials cfg env email' password db))
              = usuarios (update_by_id (id u) (set_attempts n b) db))
           \/ usuarios (snd (Usuario.verifyCredentials cfg env email' password db))
              = usuarios (write_success (sql_timestamp env) u db)).
Proof.
  unfold Usuario.verifyCredentials, Usuario.before_await, Usuario.after_await,
    Usuario.incrementFailedAttempts, Usuario.resetFailedAttempts,
    Usuario.updateLastLogin, Usuario.registerLoginAttempt. run_m.
  destruct (Usuario.findByEmail email' db) as [u|].
  - destruct (Usuario.is_locked u (clock_check env)); simpl; [left; reflexivity|].
    destruct (activo u); simpl; [|left; reflexivity].
    right. exists u. split; [reflexivity|].
    destruct (bcrypt_compare password (password_hash u)); simpl;
      destruct (ledger_fault env); simpl;
      solve [right; reflexivity | left; eexists _, _; reflexivity].
  - destruct (ledger_fault env); left; reflexivity.
Qed.

(** X3. A login leaves the table [usuarios] with the same rows in the
    same order, in each the id, name, email, password hash, role, active
    flag and both dates it had; the rows of every account but the one
    addressed are unchanged altogether; and for an identity without an
    account the whole table is. *)
Theorem verifyCredentials_frame env email' password db :
  let db' := snd (Usuario.verifyCredentials cfg env email' password db) in
  map identity_data (usuarios db') = map identity_data (usuarios db)
  /\ (forall u,
        Usuario.findByEmail email' db = Some u ->
        List.filter (fun r => negb (id r =? id u)) (usuarios db')
        = List.filter (fun r => negb (id r =? id u)) (usuarios db))
  /\ (Usuario.findByEmail email' db = None -> usuarios db' = usuarios db).
Proof.
  intros db'. subst db'.
  destruct (verifyCredentials_usuarios env email' password db)
    as [Hu | (u & Hm & [(n & b & Hu) | Hu])]; rewrite Hu.
  - repeat split; reflexivity.
  - split; [apply update_by_id_map; reflexivity|]. split.
    + intros u' Hm'. rewrite Hm in Hm'. injection Hm' as <-.
      apply update_by_id_others. reflexivity.
    + rewrite Hm. discriminate.
  - unfold write_success. split.
    + rewrite !update_by_id_map by reflexivity. reflexivity.
    + split.
      * intros u' Hm'. rewrite Hm in Hm'. injection Hm' as <-.
        rewrite !update_by_id_others by reflexivity. reflexivity.
      * rewrite Hm. discriminate.
Qed.

(** X4. The ledger gets a row exactly when [verifyCredentials] returns:
    one row, keyed by the attempted identity in lower case, telling
    whether a user was returned. A call that throws, so every attempt on
    a locked or deactivated account, leaves the ledger as it was. *)
Theorem verifyCredentials_ledger env email' password db :
  intentos_login (snd (Usuario.verifyCredentials cfg env email' password db))
  = (intentos_login db ++
     match fst (Usuario.verifyCredentials cfg env email' password db) with
     | Return (Some _) => [Usuario.ledger_record env email' true]
     | Return None => [Usuario.ledger_record env email' false]
     | Throw _ => []
     end)%list
  /\ (forall u,
        Usuario.findByEmail email' db = Some u ->
        Usuario.is_locked u (clock_check env) = true \/ activo u = false ->
        intentos_login (snd (Usuario.verifyCredentials cfg env email' password db))
        = intentos_login db).
Proof.
  split.
  - unfold Usuario.verifyCredentials, Usuario.before_await, Usuario.after_await,
      Usuario.incrementFailedAttempts, Usuario.resetFailedAttempts,
      Usuario.updateLastLogin, Usuario.registerLoginAttempt. run_m.
    destruct (Usuario.findByEmail email' db) as [u|].
    + destruct (Usuario.is_locked u (clock_check env)); simpl;
        [rewrite app_nil_r; reflexivity|].
      destruct (activo u); simpl; [|rewrite app_nil_r; reflexivity].
      destruct (bcrypt_compare password (password_hash u)); simpl;
        destruct (ledger_fault env); simpl; rewrite ?app_nil_r; reflexivity.
    + destruct (ledger_fault env); simpl; rewrite ?app_nil_r; reflexivity.
  - intros u Hm Hblocked.
    destruct (Usuario.is_locked u (clock_check env)) eqn:Hl.
    + rewrite (verifyCredentials_locked cfg env email' password db u Hm Hl).
      reflexivity.
    + destruct Hblocked as [Hd|Ha]; [discriminate|].
      rewrite (verifyCredentials_inactive cfg env email' password db u Hm Hl Ha).
      reflexivity.
Qed.

End LoginWrites.

(** ** Writes by id *)

Section WritesById.
Context `{Bcrypt}.
Variable cfg : Config.

Lemma update_by_id_absent i f db :
  (forall u, In u (usuarios db) -> id u <> i) -> update_by_id i f db = db.
Proof.
  intros Hno. destruct db as [rows ledger]. unfold update_by_id; simpl in *.
  f_equal. induction rows as [|r rows IH]; [reflexivity|]. simpl.
  destruct (Z.eqb_spec (id r) i) as [Hi|_].
  - destruct (Hno r (or_introl eq_refl) Hi).
  - rewrite IH; [reflexivity|]. intros u Hu. apply Hno. right. exact Hu.
Qed.

Lemma existsb_id_absent i rows :
  (forall u : UsuarioRow, In u rows -> id u <> i) ->
  existsb (fun u => id u =? i) rows = false.
Proof.
  intros Hno. induction rows as [|r rows IH]; [reflexivity|]. simpl.
  destruct (Z.eqb_spec (id r) i) as [Hi|_].
  - destruct (Hno r (or_introl eq_refl) Hi).
  - apply IH. intros u Hu. apply Hno. right. exact Hu.
Qed.

Lemma existsb_rewritten_absent i (P : UsuarioRow -> bool) rows :
  (forall u : UsuarioRow, In u rows -> id u <> i) ->
  existsb (fun u => (id u =? i) && P u) rows = false.
Proof.
  intros Hno. induction rows as [|r rows IH]; [reflexivity|]. simpl.
  destruct (Z.eqb_spec (id r) i) as [Hi|_].
  - destruct (Hno r (or_introl eq_refl) Hi).
  - apply IH. intros u Hu. apply Hno. right. exact Hu.
Qed.

Lemma existsb_id_present (u : UsuarioRow) rows :
  In u rows -> existsb (fun v => id v =? id u) rows = true.
Proof.
  intros Hin. apply existsb_exists. exists u. split; [exact Hin|apply Z.eqb_refl].
Qed.

Lemma filter_id_absent i rows :
  (forall u : UsuarioRow, In u rows -> id u <> i) ->
  List.filter (fun u => id u =? i) rows = [].
Proof.
  intros Hno. induction rows as [|r rows IH]; [reflexivity|]. simpl.
  destruct (Z.eqb_spec (id r) i) as [Hi|_].
  - destruct (Hno r (or_introl eq_refl) Hi).
  - apply IH. intros u Hu. apply Hno. right. exact Hu.
Qed.

(** X5. An id that no row has: [deactivate], [activate], [changePassword]
    and [update] (its email, if it names one, not being another
    account's) return false and leave the database as it was. *)
Theorem write_by_absent_id env userId newPassword nombre' email' rol' db :
  (forall u, In u (usuarios db) -> id u <> userId) ->
  Usuario.deactivate env userId db = (Return false, db)
  /\ Usuario.activate env userId db = (Return false, db)
  /\ Usuario.changePassword cfg env userId (Some newPassword) db = (Return false, db)
  /\ ((Usuario.truthy email' = false
       \/ email' ≫= (fun e => Usuario.findByEmail e db) = None) ->
      Usuario.update env userId nombre' email' rol' db = (Return false, db)).
Proof.
  intros Hno.
  pose proof (existsb_id_absent userId (usuarios db) Hno) as Hex.
  split; [|split; [|split]].
  - unfold Usuario.deactivate. run_m. rewrite update_by_id_absent, Hex by exact Hno.
    reflexivity.
  - unfold Usuario.activate. run_m. rewrite update_by_id_absent, Hex by exact Hno.
    reflexivity.
  - unfold Usuario.changePassword. run_m.
    rewrite update_by_id_absent, Hex by exact Hno. reflexivity.
  - intros Hfree.
    assert (Hstmt : Usuario.update_usuario env userId nombre'
                      ((fun e => Js.trim (Js.toLowerCase e)) <$> email') rol' db
                    = (Return 0, db)).
    { unfold Usuario.update_usuario.
      rewrite update_by_id_absent by exact Hno.
      rewrite filter_id_absent by exact Hno.
      rewrite !existsb_rewritten_absent by exact Hno. reflexivity. }
    unfold Usuario.update. run_m.
    destruct Hfree as [Ht|Hf].
    + rewrite Ht, Hstmt. reflexivity.
    + destruct (Usuario.truthy email'); [rewrite Hf|]; rewrite Hstmt; reflexivity.
Qed.

(** X6. Deactivating an account and activating it again. [deactivate]
    finds the row. While deactivated, every login for the account throws
    and writes nothing: locked if its lockout still runs, deactivated
    otherwise, whatever the password. After [activate] the account has the
    counter, lockout, password hash and public fields it had, and if it
    was active before, every login is answered as it would have been on
    the database before the two calls. *)
Theorem deactivate_then_activate env1 env2 email' db u :
  Usuario.findByEmail email' db = Some u ->
  let db1 := snd (Usuario.deactivate env1 (id u) db) in
  let db2 := snd (Usuario.activate env2 (id u) db1) in
  fst (Usuario.deactivate env1 (id u) db) = Return true
  /\ (forall env password,
        Usuario.verifyCredentials cfg env email' password db1
        = (Throw (if Usuario.is_locked u (clock_check env)
                  then Usuario.CuentaBloqueada else Usuario.CuentaDesactivada),
           db1))
  /\ (exists u2,
        Usuario.findByEmail email' db2 = Some u2 /\ activo u2 = true
        /\ intentos_fallidos u2 = intentos_fallidos u
        /\ bloqueado_hasta u2 = bloqueado_hasta u
        /\ password_hash u2 = password_hash u /\ public u2 = public u)
  /\ (activo u = true ->
      forall env password,
        fst (Usuario.verifyCredentials cfg env email' password db2)
        = fst (Usuario.verifyCredentials cfg env email' password db)).
Proof.
  intros Hm db1 db2.
  assert (Hm1 : Usuario.findByEmail email' db1
                = Some (set_activo false (sql_timestamp env1) u)).
  { unfold db1, Usuario.deactivate. run_m.
    rewrite findByEmail_update_by_id, Hm by reflexivity. simpl.
    rewrite Z.eqb_refl. reflexivity. }
  assert (Hm2 : Usuario.findByEmail email' db2
                = Some (set_activo true (sql_timestamp env2)
                          (set_activo false (sql_timestamp env1) u))).
  { unfold db2, Usuario.activate. run_m.
    rewrite findByEmail_update_by_id, Hm1 by reflexivity. simpl.
    rewrite Z.eqb_refl. reflexivity. }
  split; [|split; [|split]].
  - unfold Usuario.deactivate. run_m. f_equal.
    apply existsb_id_present. apply find_some in Hm. tauto.
  - intros env password.
    destruct (Usuario.is_locked u (clock_check env)) eqn:Hl.
    + apply (verifyCredentials_locked cfg env email' password db1 _ Hm1). exact Hl.
    + apply (verifyCredentials_inactive cfg env email' password db1 _ Hm1);
        [exact Hl|reflexivity].
  - eexists. split; [exact Hm2|]. repeat split.
  - intros Ha env password. rewrite !verifyCredentials_result, Hm2, Hm.
    unfold Usuario.is_locked. simpl. rewrite Ha. reflexivity.
Qed.

(** X7. Changing a password. [changePassword] finds the row; after it a
    login with the new password, on an active account that is not locked
    and with the ledger writable, returns the user; the counter and the
    lockout are the ones the account had, so a login during a lockout is
    still refused as locked, with the new password too. *)
Theorem changePassword_then_login `{!BcryptLaws} env1 email' newPassword db u :
  Usuario.findByEmail email' db = Some u ->
  let db1 := snd (Usuario.changePassword cfg env1 (id u) (Some newPassword) db) in
  fst (Usuario.changePassword cfg env1 (id u) (Some newPassword) db) = Return true
  /\ (forall env,
        activo u = true ->
        Usuario.is_locked u (clock_check env) = false ->
        ledger_fault env = None ->
        fst (Usuario.verifyCredentials cfg env email' newPassword db1)
        = Return (Some (public u)))
  /\ (forall env password,
        Usuario.is_locked u (clock_check env) = true ->
        Usuario.verifyCredentials cfg env email' password db1
        = (Throw Usuario.CuentaBloqueada, db1))
  /\ (exists u1,
        Usuario.findByEmail email' db1 = Some u1
        /\ intentos_fallidos u1 = intentos_fallidos u
        /\ bloqueado_hasta u1 = bloqueado_hasta u
        /\ activo u1 = activo u).
Proof.
  intros Hm db1.
  set (u1 := set_password_hash
               (bcrypt_hash newPassword (bcryptRounds cfg) (bcrypt_salt env1))
               (sql_timestamp env1) u).
  assert (Hm1 : Usuario.findByEmail email' db1 = Some u1).
  { unfold db1, Usuario.changePassword. run_m.
    rewrite findByEmail_update_by_id, Hm by reflexivity. simpl.
    rewrite Z.eqb_refl. reflexivity. }
  split; [|split; [|split]].
  - unfold Usuario.changePassword. run_m. f_equal.
    apply existsb_id_present. apply find_some in Hm. tauto.
  - intros env Ha Hl Hfault. rewrite verifyCredentials_result, Hm1.
    change (Usuario.is_locked u1 (clock_check env))
      with (Usuario.is_locked u (clock_check env)).
    rewrite Hl. change (activo u1) with (activo u). rewrite Ha, Hfault. simpl.
    rewrite bcrypt_compare_hash. reflexivity.
  - intros env password Hl.
    apply (verifyCredentials_locked cfg env email' password db1 u1 Hm1). exact Hl.
  - exists u1. split; [exact Hm1|]. repeat split.
Qed.

End WritesById.

(** ** What every write keeps *)

Section Invariants.
Context `{Bcrypt}.
Variable cfg : Config.

Lemma well_formed_same_usuarios db db' :
  usuarios db' = usuarios db -> well_formed cfg db -> well_formed cfg db'.
Proof. unfold well_formed. intros ->. tauto. Qed.

(** Rewriting rows by id with [f] keeps the shape when [f] keeps the
    email and what a row must satisfy. *)
Lemma well_formed_update_by_id i f db :
  (forall v, id (f v) = id v) -> (forall v, email (f v) = email v) ->
  (forall v, In v (usuarios db) -> id v = i ->
             rol_check (rol v) = true -> lockout_state cfg v ->
             rol_check (rol (f v)) = true /\ lockout_state cfg (f v)) ->
  well_formed cfg db -> well_formed cfg (update_by_id i f db).
Proof.
  intros Hid He Hf (Hpk & Hem & Hall). split; [|split].
  - rewrite update_by_id_ids by exact Hid. exact Hpk.
  - rewrite (update_by_id_map email) by exact He. exact Hem.
  - unfold update_by_id; simpl. rewrite Forall_forall in *.
    intros w Hw. apply list_elem_of_In, in_map_iff in Hw as (v & <- & Hv).
    specialize (Hall v (proj2 (list_elem_of_In _ _) Hv)).
    destruct (Z.eqb_spec (id v) i) as [Hi|_]; [|exact Hall].
    destruct Hall as (Hn & Hr & Hl). rewrite He.
    destruct (Hf v Hv Hi Hr Hl). auto.
Qed.

Lemma well_formed_create env nombre' email' password rol' db :
  well_formed cfg db ->
  well_formed cfg (snd (Usuario.create cfg env nombre' email' password rol' db)).
Proof.
  intros Hwf.
  destruct (Usuario.create cfg env nombre' email' password rol' db)
    as [[user|e] db1] eqn:Hc.
  - destruct (create_inserted cfg _ _ _ _ _ _ _ _ Hc)
      as (n & e & p & _ & _ & _ & Hfree & Hrol & -> & _).
    destruct Hwf as (Hpk & Hem & Hall). cbn [snd]. split; [|split].
    + apply primary_key_appended; [exact Hpk|reflexivity].
    + cbn [usuarios]. rewrite map_app. apply NoDup_app. split; [exact Hem|]. split.
      * intros x Hx Hx'. apply list_elem_of_In in Hx, Hx'.
        apply in_map_iff in Hx as (r & <- & Hr). simpl in Hx'.
        destruct Hx' as [Heq|[]].
        unfold Usuario.findByEmail in Hfree.
        apply (find_none _ _ Hfree) in Hr. rewrite Heq, String.eqb_refl in Hr.
        discriminate.
      * simpl. apply NoDup_cons. split; [apply not_elem_of_nil|]. apply NoDup_nil.
        exact I.
    + cbn [usuarios]. apply Forall_app. split; [exact Hall|].
      apply Forall_cons. split; [|apply Forall_nil; exact I].
      simpl. split; [apply normalized_normalize|]. split; [exact Hrol|].
      split; [simpl; lia|]. intros Hb. contradiction.
  - revert Hc. unfold Usuario.create, Usuario.insert_usuario. run_m.
    destruct email' as [e'|]; [|intros Heq; injection Heq as _ <-; exact Hwf].
    destruct (Usuario.findByEmail e' db); [intros Heq; injection Heq as _ <-; exact Hwf|].
    destruct password; [|intros Heq; injection Heq as _ <-; exact Hwf].
    destruct nombre'; [|intros Heq; injection Heq as _ <-; exact Hwf].
    destruct (existsb _ _); [intros Heq; injection Heq as _ <-; exact Hwf|].
    destruct (negb _); [intros Heq; injection Heq as _ <-; exact Hwf|].
    discriminate.
Qed.

Lemma verifyCredentials_usuarios_counted env email' password db :
  usuarios (snd (Usuario.verifyCredentials cfg env email' password db))
  = usuarios db
  \/ exists u,
       Usuario.findByEmail email' db = Some u
       /\ (usuarios (snd (Usuario.verifyCredentials cfg env email' password db))
           = usuarios
               (update_by_id (id u)
                  (set_attempts (EventLoop.counter (id u) db + 1)
                     (if maxLoginAttempts cfg <=? EventLoop.counter (id u) db + 1
                      then Some (clock_write env + lockoutTime cfg) else None)) db)
           \/ usuarios (snd (Usuario.verifyCredentials cfg env email' password db))
              = usuarios (write_success (sql_timestamp env) u db)).
Proof.
  unfold Usuario.verifyCredentials, Usuario.before_await, Usuario.after_await,
    Usuario.incrementFailedAttempts, Usuario.resetFailedAttempts,
    Usuario.updateLastLogin, Usuario.registerLoginAttempt, EventLoop.counter. run_m.
  destruct (Usuario.findByEmail email' db) as [u|].
  - destruct (Usuario.is_locked u (clock_check env)); simpl; [left; reflexivity|].
    destruct (activo u); simpl; [|left; reflexivity].
    right. exists u. split; [reflexivity|].
    destruct (bcrypt_compare password (password_hash u)); simpl;
      destruct (ledger_fault env); simpl;
      solve [right; reflexivity | left; reflexivity].
  - destruct (ledger_fault env); left; reflexivity.
Qed.

Lemma counter_nonneg i db :
  well_formed cfg db -> 0 <= EventLoop.counter i db.
Proof.
  intros (_ & _ & Hall). unfold EventLoop.counter, select_by_id.
  destruct (find _ _) as [r|] eqn:Hf; [|lia].
  apply find_some in Hf as [Hin _]. rewrite Forall_forall in Hall.
  apply list_elem_of_In in Hin. destruct (Hall r Hin) as (_ & _ & Hc & _). exact Hc.
Qed.

Lemma well_formed_verifyCredentials env email' password db :
  well_formed cfg db ->
  well_formed cfg (snd (Usuario.verifyCredentials cfg env email' password db)).
Proof.
  intros Hwf.
  destruct (verifyCredentials_usuarios_counted env email' password db)
    as [Hu | (u & Hm & [Hu | Hu])];
    apply (well_formed_same_usuarios _ _ Hu); [exact Hwf| |].
  - apply well_formed_update_by_id; [reflexivity..| |exact Hwf].
    intros v _ _ Hr _. split; [exact Hr|].
    pose proof (counter_nonneg (id u) db Hwf). split; simpl; [lia|].
    destruct (Z.leb_spec (maxLoginAttempts cfg) (EventLoop.counter (id u) db + 1));
      [intros _; assumption|intros Hb; contradiction].
  - unfold write_success.
    apply well_formed_update_by_id; [reflexivity..| |].
    + intros v _ _ Hr Hl. auto.
    + apply well_formed_update_by_id; [reflexivity..| |exact Hwf].
      intros v _ _ Hr _. split; [exact Hr|].
      split; simpl; [lia|intros Hb; contradiction].
Qed.

Lemma well_formed_before_await env email' db :
  well_formed cfg db -> well_formed cfg (snd (Usuario.before_await env email' db)).
Proof.
  apply well_formed_same_usuarios.
  unfold Usuario.before_await, Usuario.registerLoginAttempt. run_m.
  destruct (Usuario.findByEmail email' db) as [u|].
  - destruct (Usuario.is_locked u (clock_check env)); simpl; [reflexivity|].
    destruct (negb (activo u)); reflexivity.
  - destruct (ledger_fault env); reflexivity.
Qed.

Lemma well_formed_activo a env userId db :
  well_formed cfg db ->
  well_formed cfg (update_by_id userId (set_activo a (sql_timestamp env)) db).
Proof.
  apply well_formed_update_by_id; try reflexivity. intros v _ _ Hr Hl. auto.
Qed.

Lemma well_formed_changePassword env userId newPassword db :
  well_formed cfg db ->
  well_formed cfg (snd (Usuario.changePassword cfg env userId newPassword db)).
Proof.
  intros Hwf. unfold Usuario.changePassword.
  destruct newPassword as [p|]; [|exact Hwf]. run_m.
  apply well_formed_update_by_id; try reflexivity; [|exact Hwf].
  intros v _ _ Hr Hl. auto.
Qed.

(** The emails of a table whose rows of id [i] were rewritten: an email
    that none of the rewritten rows has is no more frequent than it was. *)
Lemma count_occ_rewritten i f x rows :
  (forall v, In v rows -> id v = i -> email (f v) <> x) ->
  (count_occ string_dec
     (map email (map (fun u => if (id u =? i)%Z then f u else u) rows)) x
   <= count_occ string_dec (map email rows) x)%nat.
Proof.
  intros Hne. induction rows as [|r rows IH]; [reflexivity|].
  assert (IH' := IH (fun v Hv => Hne v (or_intror Hv))).
  cbn [map]. destruct (Z.eqb_spec (id r) i) as [Hi|_].
  - rewrite (count_occ_cons_neq _ _ (Hne r (or_introl eq_refl) Hi)).
    destruct (string_dec (email r) x) as [Hx|Hx];
      [rewrite (count_occ_cons_eq _ _ Hx)|rewrite (count_occ_cons_neq _ _ Hx)]; lia.
  - destruct (string_dec (email r) x) as [Hx|Hx];
      [rewrite !(count_occ_cons_eq _ _ Hx)|rewrite !(count_occ_cons_neq _ _ Hx)]; lia.
Qed.

Lemma existsb_false_forall {A} (P : A -> bool) l :
  existsb P l = false -> forall x, In x l -> P x = false.
Proof.
  intros He x Hx. destruct (P x) eqn:Hp; [|reflexivity].
  rewrite <- He. symmetry. apply existsb_exists. eauto.
Qed.

Lemma well_formed_update_usuario env userId nombre' email' rol' db :
  (forall e, email' = Some e -> normalized e) ->
  well_formed cfg db ->
  well_formed cfg (snd (Usuario.update_usuario env userId nombre' email' rol' db)).
Proof.
  intros Hnorm Hwf. unfold Usuario.update_usuario.
  set (f := set_profile nombre' email' rol' (sql_timestamp env)).
  cbv zeta. fold f.
  destruct (existsb (fun u => (id u =? userId) && negb (rol_check (rol u)))
              (usuarios (update_by_id userId f db))) eqn:Hcheck; [exact Hwf|].
  destruct (existsb
              (fun u => (id u =? userId) &&
                 (1 <? count_occ string_dec
                         (map email (usuarios (update_by_id userId f db)))
                         (email u))%nat)
              (usuarios (update_by_id userId f db))) eqn:Huniq; [exact Hwf|].
  cbn [snd]. destruct Hwf as (Hpk & Hem & Hall).
  pose proof (existsb_false_forall _ _ Hcheck) as Hc.
  pose proof (existsb_false_forall _ _ Huniq) as Hu.
  split; [|split].
  - rewrite update_by_id_ids by reflexivity. exact Hpk.
  - apply NoDup_ListNoDup, (NoDup_count_occ string_dec). intros x.
    destruct (existsb (fun w => (id w =? userId) && String.eqb (email w) x)
                (usuarios (update_by_id userId f db))) eqn:Hx.
    + apply existsb_exists in Hx as (w & Hw & Hwx).
      apply andb_prop in Hwx as [Hwi Hwe]. apply String.eqb_eq in Hwe. subst x.
      specialize (Hu w Hw). cbv beta in Hu. rewrite Hwi in Hu. simpl in Hu.
      apply Nat.ltb_ge in Hu. exact Hu.
    + pose proof (existsb_false_forall _ _ Hx) as Hnx.
      etransitivity; [apply count_occ_rewritten|].
      * intros v Hv Hi Heq. specialize (Hnx (f v)).
        assert (Hin : In (f v) (usuarios (update_by_id userId f db))).
        { unfold update_by_id; simpl. apply in_map_iff. exists v.
          rewrite (proj2 (Z.eqb_eq _ _) Hi). auto. }
        specialize (Hnx Hin). cbv beta in Hnx.
        change (id (f v)) with (id v) in Hnx.
        rewrite (proj2 (Z.eqb_eq _ _) Hi), Heq, String.eqb_refl in Hnx.
        discriminate.
      * apply (NoDup_count_occ string_dec), NoDup_ListNoDup. exact Hem.
  - unfold update_by_id; simpl. rewrite Forall_forall in *.
    intros w Hw. pose proof Hw as Hw'.
    apply list_elem_of_In, in_map_iff in Hw as (v & Hvw & Hv).
    specialize (Hall v (proj2 (list_elem_of_In _ _) Hv)).
    destruct (Z.eqb_spec (id v) userId) as [Hi|_]; [|subst w; exact Hall].
    destruct Hall as (Hn & Hr & Hl). subst w. split; [|split].
    + unfold f; simpl. destruct email' as [e|]; simpl; [apply Hnorm; reflexivity|exact Hn].
    + assert (Hin : In (f v) (usuarios (update_by_id userId f db))).
      { unfold update_by_id; simpl. apply in_map_iff. exists v.
        rewrite (proj2 (Z.eqb_eq _ _) Hi). auto. }
      specialize (Hc (f v) Hin). cbv beta in Hc.
      change (id (f v)) with (id v) in Hc.
      rewrite (proj2 (Z.eqb_eq _ _) Hi) in Hc. simpl in Hc.
      apply negb_false_iff in Hc. exact Hc.
    + exact Hl.
Qed.

Lemma well_formed_update env userId nombre' email' rol' db :
  well_formed cfg db ->
  well_formed cfg (snd (Usuario.update env userId nombre' email' rol' db)).
Proof.
  intros Hwf.
  assert (Hstmt : well_formed cfg
            (snd (Usuario.update_usuario env userId nombre'
                    ((fun e => Js.trim (Js.toLowerCase e)) <$> email') rol' db))).
  { apply well_formed_update_usuario; [|exact Hwf].
    intros e He. destruct email' as [e'|]; [|discriminate].
    injection He as <-. apply normalized_normalize. }
  assert (Hrun : well_formed cfg
            (snd (bind (Usuario.update_usuario env userId nombre'
                          ((fun e => Js.trim (Js.toLowerCase e)) <$> email') rol')
                       (fun changes => ret (0 <? changes)) db))).
  { unfold bind, ret.
    destruct (Usuario.update_usuario env userId nombre' _ rol' db) as [[n|e] db1];
      exact Hstmt. }
  unfold Usuario.update. unfold bind at 1. unfold get_db. cbv zeta.
  destruct (if Usuario.truthy email' then _ else _) as [existing|];
    [destruct (negb _)|]; [exact Hwf|exact Hrun..].
Qed.

(** Every call of the model keeps the shape. *)
Lemma well_formed_write w db :
  well_formed cfg db -> well_formed cfg (write cfg w db).
Proof.
  intros Hwf. destruct w; cbn [write].
  - apply well_formed_create, Hwf.
  - apply well_formed_verifyCredentials, Hwf.
  - apply well_formed_before_await, Hwf.
  - apply well_formed_update, Hwf.
  - apply well_formed_changePassword, Hwf.
  - unfold Usuario.deactivate. run_m. apply well_formed_activo, Hwf.
  - unfold Usuario.activate. run_m. apply well_formed_activo, Hwf.
Qed.

End Invariants.

(** ** Histories of calls *)

Section Histories.
Context `{Bcrypt} `{Jwt}.
Variable cfg : Config.

Lemma try_catch_db {A} (m : M A) (h : Exn -> M A) db :
  (forall e db', snd (h e db') = db') ->
  snd (try_catch m h db) = snd (m db).
Proof.
  intros Hh. unfold try_catch. destruct (m db) as [[a|e] db']; [reflexivity|].
  apply Hh.
Qed.

Lemma bind_ret_db {A B} (m : M A) (f : A -> B) db :
  snd (bind m (fun a => ret (f a)) db) = snd (m db).
Proof. unfold bind, ret. destruct (m db) as [[a|e] db']; reflexivity. Qed.

Lemma verifyCredentials_body_write env email' password db :
  snd (AuthController.verifyCredentials_body cfg env email' password db) = db
  \/ exists w,
       snd (AuthController.verifyCredentials_body cfg env email' password db)
       = write cfg w db.
Proof.
  destruct email' as [e|]; [|left; reflexivity].
  destruct password as [p|].
  - right. exists (WriteVerifyCredentials env e p). reflexivity.
  - right. exists (WriteBeforeAwait env e). cbn [write].
    unfold AuthController.verifyCredentials_body, bind.
    destruct (Usuario.before_await env e db) as [[[r|u]|x] db']; reflexivity.
Qed.

(** Every controller changes the tables only through the calls of the
    model. *)
Lemma exec_write c db :
  exec cfg c db = db \/ exists w, exec cfg c db = write cfg w db.
Proof.
  destruct c as [env nombre' email' password rol' | env email' password
                 | env i nombre' email' rol' | env i newPassword | env i | env i
                 | env body | env body | env body | env newId body session
                 | env body user | env body user | env idParam activo req user];
    cbn [exec].
  - right. exists (WriteCreate env nombre' email' password rol'). reflexivity.
  - right. exists (WriteVerifyCredentials env email' password). reflexivity.
  - right. exists (WriteUpdate env i nombre' email' rol'). reflexivity.
  - right. exists (WriteChangePassword env i newPassword). reflexivity.
  - right. exists (WriteDeactivate env i). reflexivity.
  - right. exists (WriteActivate env i). reflexivity.
  - right. exists (WriteCreate env (body !! "nombre") (body !! "email")
                     (body !! "password") (Some "usuario")).
    unfold AuthController.register. rewrite try_catch_db by reflexivity.
    apply (bind_ret_db _ (fun _ => _)).
  - right. exists (WriteCreate env (body !! "nombre") (body !! "email")
                     (body !! "password") (Some "usuario")).
    unfold AuthController.apiRegister. rewrite try_catch_db by reflexivity.
    apply (bind_ret_db _ (fun user => _)).
  - unfold AuthController.apiLogin. rewrite try_catch_db by reflexivity.
    replace (snd (bind _ _ db))
      with (snd (AuthController.verifyCredentials_body cfg env (body !! "email")
                   (body !! "password") db)).
    + apply verifyCredentials_body_write.
    + unfold bind.
      destruct (AuthController.verifyCredentials_body cfg env _ _ db)
        as [[[u|]|x] db']; reflexivity.
  - unfold AuthController.login. rewrite try_catch_db by reflexivity.
    replace (snd (bind _ _ db))
      with (snd (AuthController.verifyCredentials_body cfg env (body !! "email")
                   (body !! "password") db)).
    + apply verifyCredentials_body_write.
    + unfold bind.
      destruct (AuthController.verifyCredentials_body cfg env _ _ db)
        as [[[u|]|x] db']; reflexivity.
  - right. exists (WriteUpdate env (su_id user) (body !! "nombre") (body !! "email") None).
    unfold UserController.updateProfile. rewrite try_catch_db by reflexivity.
    apply (bind_ret_db _ (fun _ => _)).
  - unfold UserController.changePassword. rewrite try_catch_db by reflexivity.
    destruct (su_email user) as [sessionEmail|]; [|left; reflexivity].
    change (snd (bind get_db ?k db)) with (snd (k db db)). cbv beta.
    destruct (Usuario.findByEmail sessionEmail db) as [row|]; [|left; reflexivity].
    destruct (body !! "currentPassword") as [currentPassword|]; [|left; reflexivity].
    destruct (negb _); [left; reflexivity|].
    right. exists (WriteChangePassword env (su_id user) (body !! "newPassword")).
    apply (bind_ret_db _ (fun _ => _)).
  - unfold UserController.toggleUserStatus.
    destruct (idParam =? su_id user).
    + left. destruct (wants_json req); reflexivity.
    + right. destruct (js_truthy activo).
      * exists (WriteActivate env idParam). unfold Usuario.activate.
        destruct (wants_json req); reflexivity.
      * exists (WriteDeactivate env idParam). unfold Usuario.deactivate.
        destruct (wants_json req); reflexivity.
Qed.

Lemma well_formed_exec c db :
  well_formed cfg db -> well_formed cfg (exec cfg c db).
Proof.
  intros Hwf. destruct (exec_write c db) as [-> | (w & ->)];
    [exact Hwf|apply well_formed_write, Hwf].
Qed.

Lemma well_formed_no_rows : well_formed cfg no_rows.
Proof.
  split; [apply NoDup_nil; exact I|]. split; [apply NoDup_nil; exact I|].
  apply Forall_nil. exact I.
Qed.

Lemma well_formed_fold calls db :
  well_formed cfg db ->
  well_formed cfg (fold_left (fun db c => exec cfg c db) calls db).
Proof.
  revert db. induction calls as [|c calls IH]; intros db Hwf; [exact Hwf|].
  cbn [fold_left]. apply IH, well_formed_exec, Hwf.
Qed.

(** X8. Whatever calls ran, in whatever order and with whatever clocks
    and faults, starting from the empty tables, each call one of the
    controllers on a request body of string fields or one of the model's
    functions on arguments that are strings or [undefined] (not [null],
    which [create] would store as a NULL role): no two accounts share an id
    or an email, every stored email is lower-case and trimmed, every role
    is one of the three the schema allows, and in every row the counter is
    not negative and a lockout is set only with the counter at or above
    the threshold. *)
Theorem history_well_formed (calls : list Call) :
  well_formed cfg (history cfg calls).
Proof. apply well_formed_fold, well_formed_no_rows. Qed.

Lemma grows_refl db : grows db db.
Proof.
  split; exists []; (split; [simpl; lia|rewrite app_nil_r; reflexivity]).
Qed.

Lemma grows_update_by_id i f db db1 :
  (forall v, birth (f v) = birth v) -> grows db db1 ->
  grows db (update_by_id i f db1).
Proof.
  intros Hf (Hl & Hu). split; [exact Hl|].
  rewrite (update_by_id_map birth) by exact Hf. exact Hu.
Qed.

Lemma grows_ledger_append env email' exitoso db db1 :
  grows db db1 -> intentos_login db1 = intentos_login db ->
  grows db (Usuario.ledger_append env email' exitoso db1).
Proof.
  intros (_ & Hu) Hl. split; [|exact Hu].
  exists [Usuario.ledger_record env email' exitoso]. split; [simpl; lia|].
  cbn [Usuario.ledger_append intentos_login]. rewrite Hl. reflexivity.
Qed.

Lemma write_grows w db : grows db (write cfg w db).
Proof.
  destruct w as [env nombre' email' password rol' | env email' password
                 | env email' | env i nombre' email' rol' | env i newPassword
                 | env i | env i]; cbn [write].
  - unfold Usuario.create, Usuario.insert_usuario. run_m.
    destruct email' as [e'|]; [|apply grows_refl].
    destruct (Usuario.findByEmail e' db); [apply grows_refl|].
    destruct password; [|apply grows_refl].
    destruct nombre'; [|apply grows_refl].
    destruct (existsb _ _); [apply grows_refl|].
    destruct (negb _); [apply grows_refl|].
    cbn [snd]. split.
    + exists []. split; [simpl; lia|rewrite app_nil_r; reflexivity].
    + eexists [_]. split; [simpl; lia|]. cbn [usuarios]. rewrite map_app. reflexivity.
  - unfold Usuario.verifyCredentials, Usuario.before_await, Usuario.after_await,
      Usuario.incrementFailedAttempts, Usuario.resetFailedAttempts,
      Usuario.updateLastLogin, Usuario.registerLoginAttempt. run_m.
    destruct (Usuario.findByEmail email' db) as [u|].
    + destruct (Usuario.is_locked u (clock_check env)); simpl; [apply grows_refl|].
      destruct (activo u); simpl; [|apply grows_refl].
      destruct (bcrypt_compare password (password_hash u)); simpl;
        destruct (ledger_fault env); simpl.
      * do 2 (apply grows_update_by_id; [reflexivity|]). apply grows_refl.
      * apply (grows_ledger_append env email' true);
          [do 2 (apply grows_update_by_id; [reflexivity|]); apply grows_refl
          |reflexivity].
      * apply grows_update_by_id; [reflexivity|apply grows_refl].
      * apply (grows_ledger_append env email' false);
          [apply grows_update_by_id; [reflexivity|apply grows_refl]|reflexivity].
    + destruct (ledger_fault env); simpl; [apply grows_refl|].
      apply (grows_ledger_append env email' false); [apply grows_refl|reflexivity].
  - unfold Usuario.before_await, Usuario.registerLoginAttempt. run_m.
    destruct (Usuario.findByEmail email' db) as [u|].
    + destruct (Usuario.is_locked u (clock_check env)); simpl; [apply grows_refl|].
      destruct (negb (activo u)); apply grows_refl.
    + destruct (ledger_fault env); simpl; [apply grows_refl|].
      apply (grows_ledger_append env email' false); [apply grows_refl|reflexivity].
  - unfold Usuario.update.
    change (snd (bind get_db ?k db)) with (snd (k db db)). cbv beta zeta.
    assert (Hstmt : grows db
              (snd (bind (Usuario.update_usuario env i nombre'
                            ((fun e => Js.trim (Js.toLowerCase e)) <$> email') rol')
                         (fun changes => ret (0 <? changes)) db))).
    { rewrite (bind_ret_db _ (fun changes => 0 <? changes)).
      unfold Usuario.update_usuario. cbv zeta.
      destruct (existsb _ _); [apply grows_refl|].
      destruct (existsb _ _); [apply grows_refl|].
      apply grows_update_by_id; [reflexivity|apply grows_refl]. }
    destruct (if Usuario.truthy email' then _ else _) as [existing|];
      [destruct (negb _)|]; [apply grows_refl|exact Hstmt..].
  - unfold Usuario.changePassword. destruct newPassword; [|apply grows_refl]. run_m.
    apply grows_update_by_id; [reflexivity|apply grows_refl].
  - unfold Usuario.deactivate. run_m.
    apply grows_update_by_id; [reflexivity|apply grows_refl].
  - unfold Usuario.activate. run_m.
    apply grows_update_by_id; [reflexivity|apply grows_refl].
Qed.

(** X9. No call deletes or renumbers anything: after any one call the
    login ledger is the ledger before it with at most one row appended, and
    the table of accounts has the rows it had, in their order and with
    their ids and creation dates, with at most one row appended. *)
Theorem exec_grows (c : Call) (db : Db) : grows db (exec cfg c db).
Proof.
  destruct (exec_write c db) as [-> | (w & ->)];
    [apply grows_refl|apply write_grows].
Qed.

End Histories.

(** ** Changing the profile of an account *)

Section Profile.
Context `{Bcrypt}.
Variable cfg : Config.

Lemma NoDup_map_eq {A B} (g : A -> B) (l : list A) x y :
  NoDup (map g l) -> In x l -> In y l -> g x = g y -> x = y.
Proof.
  induction l as [|a l IH]; simpl; [tauto|].
  intros Hnd Hx Hy Heq. apply NoDup_cons in Hnd as [Ha Hnd].
  destruct Hx as [->|Hx], Hy as [->|Hy]; [reflexivity| | |auto].
  - exfalso. apply Ha. rewrite Heq. apply list_elem_of_In, in_map, Hy.
  - exfalso. apply Ha. rewrite <- Heq. apply list_elem_of_In, in_map, Hx.
Qed.

Lemma find_email_unique rows u :
  NoDup (map email rows) -> In u rows ->
  find (fun v => String.eqb (email v) (email u)) rows = Some u.
Proof.
  induction rows as [|r rows IH]; simpl; [tauto|].
  intros Hnd Hin. apply NoDup_cons in Hnd as [Hr Hnd].
  destruct Hin as [->|Hin]; [rewrite String.eqb_refl; reflexivity|].
  destruct (String.eqb_spec (email r) (email u)) as [Heq|_]; [|auto].
  exfalso. apply Hr. rewrite Heq. apply list_elem_of_In, in_map, Hin.
Qed.

(** Rewriting the rows of one id keeps the emails distinct when the new
    email of such a row is no other row's. *)
Lemma NoDup_email_rewritten i f rows :
  NoDup (map id rows) -> NoDup (map email rows) ->
  (forall v w, In v rows -> In w rows -> id v = i -> id w <> i ->
               email (f v) <> email w) ->
  NoDup (map email (map (fun v => if id v =? i then f v else v) rows)).
Proof.
  induction rows as [|r rows IH]; intros Hid Hem Hnew; [apply NoDup_nil; exact I|].
  apply NoDup_cons in Hid as [Hrid Hid]. apply NoDup_cons in Hem as [Hrem Hem].
  cbn [map]. apply NoDup_cons. split.
  - intros Hin. apply list_elem_of_In in Hin.
    rewrite map_map in Hin. apply in_map_iff in Hin as (w & Hw & Hin).
    destruct (Z.eqb_spec (id r) i) as [Hr|Hr], (Z.eqb_spec (id w) i) as [Hwi|Hwi].
    + apply Hrid. rewrite Hr, <- Hwi. apply list_elem_of_In, in_map, Hin.
    + apply (Hnew r w); [left; reflexivity|right; exact Hin|exact Hr|exact Hwi|].
      symmetry. exact Hw.
    + apply (Hnew w r); [right; exact Hin|left; reflexivity|exact Hwi|exact Hr|].
      exact Hw.
    + apply Hrem. rewrite <- Hw. apply list_elem_of_In, in_map, Hin.
  - apply IH; [exact Hid|exact Hem|].
    intros v w Hv Hw. apply Hnew; right; assumption.
Qed.

Lemma existsb_forall_false {A} (P : A -> bool) l :
  (forall x, In x l -> P x = false) -> existsb P l = false.
Proof.
  intros Hall. induction l as [|a l IH]; [reflexivity|].
  simpl. rewrite (Hall a (or_introl eq_refl)). apply IH.
  intros x Hx. apply Hall. right. exact Hx.
Qed.

Lemma filter_id_present (u : UsuarioRow) rows :
  In u rows ->
  (0 <? Z.of_nat (length (List.filter (fun v => id v =? id u) rows))) = true.
Proof.
  intros Hin. apply Z.ltb_lt.
  assert (Hf : In u (List.filter (fun v => id v =? id u) rows)).
  { apply filter_In. split; [exact Hin|apply Z.eqb_refl]. }
  destruct (List.filter _ rows); [destruct Hf|simpl; lia].
Qed.

(** The UPDATE of [update] on a well-formed table, for an email that is
    not another account's and a role of the CHECK list: it goes through. *)
Lemma update_usuario_runs env nombre' stored rol' db u :
  well_formed cfg db ->
  In u (usuarios db) ->
  (forall e w, stored = Some e -> In w (usuarios db) -> email w = e -> w = u) ->
  (forall r, rol' = Some r -> rol_check r = true) ->
  Usuario.update_usuario env (id u) nombre' stored rol' db
  = (Return (Z.of_nat (length (List.filter (fun v => id v =? id u) (usuarios db)))),
     update_by_id (id u) (set_profile nombre' stored rol' (sql_timestamp env)) db)
  /\ NoDup (map email
              (usuarios (update_by_id (id u)
                           (set_profile nombre' stored rol' (sql_timestamp env)) db))).
Proof.
  intros (Hpk & Hem & Hall) Hin Hfree Hrol.
  set (f := set_profile nombre' stored rol' (sql_timestamp env)).
  assert (Hnd : NoDup (map email (usuarios (update_by_id (id u) f db)))).
  { unfold update_by_id; cbn [usuarios].
    apply NoDup_email_rewritten; [exact Hpk|exact Hem|].
    intros v w Hv Hw Hvi Hwi Heq.
    assert (v = u) as -> by (apply (NoDup_map_eq id (usuarios db)); assumption).
    unfold f in Heq; simpl in Heq. destruct stored as [e|]; simpl in Heq.
    - apply Hwi. rewrite (Hfree e w eq_refl Hw (eq_sym Heq)). reflexivity.
    - apply Hwi. rewrite (NoDup_map_eq email (usuarios db) u w Hem Hin Hw Heq).
      reflexivity. }
  split; [|exact Hnd].
  unfold Usuario.update_usuario. cbv zeta. fold f.
  rewrite existsb_forall_false.
  - rewrite existsb_forall_false; [reflexivity|].
    intros w Hw. apply andb_false_iff. right. apply Nat.ltb_ge.
    apply (NoDup_count_occ string_dec), NoDup_ListNoDup. exact Hnd.
  - intros w Hw. unfold update_by_id in Hw; cbn [usuarios] in Hw.
    apply in_map_iff in Hw as (v & <- & Hv).
    rewrite Forall_forall in Hall.
    destruct (Hall v (proj2 (list_elem_of_In _ _) Hv)) as (_ & Hr & _).
    destruct (Z.eqb_spec (id v) (id u)) as [Hi|Hi].
    + change (id (f v)) with (id v). rewrite (proj2 (Z.eqb_eq _ _) Hi). simpl.
      apply negb_false_iff. unfold f; simpl.
      destruct rol' as [r|]; simpl; [apply Hrol; reflexivity|exact Hr].
    + rewrite (proj2 (Z.eqb_neq _ _) Hi). reflexivity.
Qed.

(** An email that is another account's: [update] refuses. *)
Lemma update_refused env userId nombre' e rol' db other :
  e <> "" ->
  Usuario.findByEmail e db = Some other -> id other <> userId ->
  Usuario.update env userId nombre' (Some e) rol' db
  = (Throw Usuario.EmailDeOtroUsuario, db).
Proof.
  intros Hne Hm Hother. unfold Usuario.update. run_m.
  destruct e as [|c e]; [contradiction Hne; reflexivity|]. cbn [Usuario.truthy].
  rewrite Hm. rewrite (proj2 (Z.eqb_neq _ _) Hother). reflexivity.
Qed.

(** An email that is free or the account's own, on a well-formed table:
    the statement runs and rewrites the row. *)
Lemma update_accepted env nombre' email' rol' db u :
  well_formed cfg db ->
  In u (usuarios db) ->
  email' <> Some "" ->
  (forall r, rol' = Some r -> rol_check r = true) ->
  (forall e other,
     email' = Some e -> Usuario.findByEmail e db = Some other -> id other = id u) ->
  let stored := (fun e => Js.trim (Js.toLowerCase e)) <$> email' in
  let row := set_profile nombre' stored rol' (sql_timestamp env) u in
  let db' := update_by_id (id u)
               (set_profile nombre' stored rol' (sql_timestamp env)) db in
  Usuario.update env (id u) nombre' email' rol' db = (Return true, db')
  /\ select_by_id (id u) db' = Some row
  /\ (forall e, email' = Some e -> Usuario.findByEmail e db' = Some row).
Proof.
  intros Hwf Hin Hne Hrol Hown stored row db'.
  assert (Hfree : forall e w, stored = Some e -> In w (usuarios db) ->
                              email w = e -> w = u).
  { intros e w He Hw Hwe. destruct email' as [e'|]; [|discriminate].
    injection He as <-.
    destruct (Usuario.findByEmail e' db) as [other|] eqn:Hm.
    - pose proof (Hown e' other eq_refl Hm) as Hid.
      pose proof Hm as Hm'. apply find_some in Hm' as [Ho Heq].
      apply String.eqb_eq in Heq. destruct Hwf as (Hpk & Hem & _).
      assert (other = u) as <-
          by (apply (NoDup_map_eq id (usuarios db)); assumption).
      apply (NoDup_map_eq email (usuarios db)); try assumption. congruence.
    - exfalso. apply (find_none _ _ Hm) in Hw.
      rewrite Hwe, String.eqb_refl in Hw. discriminate. }
  destruct (update_usuario_runs env nombre' stored rol' db u Hwf Hin Hfree Hrol)
    as [Hstmt Hnd].
  split; [|split].
  - unfold Usuario.update.
    change (bind get_db ?k db) with (k db db). cbv beta zeta.
    assert (Hrun : bind (Usuario.update_usuario env (id u) nombre' stored rol')
                     (fun changes => ret (0 <? changes)) db
                   = (Return true, db')).
    { unfold bind, ret. rewrite Hstmt, filter_id_present by exact Hin. reflexivity. }
    destruct email' as [e|]; [|exact Hrun].
    destruct e as [|c e]; [contradiction Hne; reflexivity|]. cbn [Usuario.truthy].
    cbn [mbind option_bind].
    destruct (Usuario.findByEmail (String c e) db) as [other|] eqn:Hm; [|exact Hrun].
    rewrite (proj2 (Z.eqb_eq _ _) (Hown _ other eq_refl Hm)). exact Hrun.
  - unfold db'. rewrite select_by_id_update_by_id by reflexivity.
    unfold select_by_id. destruct Hwf as (Hpk & _).
    rewrite (select_by_id_of_row _ u Hpk Hin). simpl. rewrite Z.eqb_refl. reflexivity.
  - intros e ->. unfold Usuario.findByEmail.
    change (Js.trim (Js.toLowerCase e)) with (email row).
    apply find_email_unique; [exact Hnd|]. apply In_update_by_id, Hin.
Qed.

(** X10. Changing the profile of an existing account, over tables any
    history of calls leaves. If the email is the address of another
    account, in any spelling, [update] throws its own error and changes
    nothing. Otherwise, for a role of the schema's list, it returns true:
    the UNIQUE constraint is never what answers. The row then carries the
    new name, the normalized email and the role, a fresh modification date
    and everything else as it was, and [findByEmail] with the email as it
    was passed finds it. *)
Theorem update_profile env nombre' email' rol' db u :
  well_formed cfg db ->
  In u (usuarios db) ->
  email' <> Some "" ->
  (forall r, rol' = Some r -> rol_check r = true) ->
  let stored := (fun e => Js.trim (Js.toLowerCase e)) <$> email' in
  let row := set_profile nombre' stored rol' (sql_timestamp env) u in
  (forall e other,
     email' = Some e -> Usuario.findByEmail e db = Some other -> id other <> id u ->
     Usuario.update env (id u) nombre' email' rol' db
     = (Throw Usuario.EmailDeOtroUsuario, db))
  /\ ((forall e other,
         email' = Some e -> Usuario.findByEmail e db = Some other ->
         id other = id u) ->
      exists db',
        Usuario.update env (id u) nombre' email' rol' db = (Return true, db')
        /\ select_by_id (id u) db' = Some row
        /\ (forall e, email' = Some e -> Usuario.findByEmail e db' = Some row)
        /\ List.filter (fun r => negb (id r =? id u)) (usuarios db')
           = List.filter (fun r => negb (id r =? id u)) (usuarios db)).
Proof.
  intros Hwf Hin Hne Hrol stored row. split.
  - intros e other -> Hm Hother. apply (update_refused _ _ _ _ _ _ other).
    + intros ->. apply Hne. reflexivity.
    + exact Hm.
    + exact Hother.
  - intros Hown.
    destruct (update_accepted env nombre' email' rol' db u Hwf Hin Hne Hrol Hown)
      as (Hrun & Hs & Hf).
    exists (update_by_id (id u)
              (set_profile nombre' stored rol' (sql_timestamp env)) db).
    split; [exact Hrun|]. split; [exact Hs|]. split; [exact Hf|].
    apply update_by_id_others. reflexivity.
Qed.

End Profile.

(** ** The login controllers *)

Section Logins.
Context `{Bcrypt} `{Jwt}.
Variable cfg : Config.

(** An account that [verifyCredentials] lets in with [password] under
    [env]. *)
Lemma verifyCredentials_body_result env email' password db :
  fst (AuthController.verifyCredentials_body cfg env email' password db)
  = match email' with
    | None =>
        Throw (TypeError "Cannot read properties of undefined (reading 'toLowerCase')")
    | Some e =>
        match Usuario.findByEmail e db with
        | None =>
            match ledger_fault env with Some x => Throw x | None => Return None end
        | Some u =>
            if Usuario.is_locked u (clock_check env) then Throw Usuario.CuentaBloqueada
            else if negb (activo u) then Throw Usuario.CuentaDesactivada
            else match password with
                 | None => Throw (Error "Illegal arguments: undefined, string")
                 | Some p =>
                     match ledger_fault env with
                     | Some x => Throw x
                     | None =>
                         if bcrypt_compare p (password_hash u)
                         then Return (Some (public u)) else Return None
                     end
                 end
        end
    end.
Proof.
  destruct email' as [e|]; [|reflexivity].
  destruct password as [p|]; cbn [AuthController.verifyCredentials_body].
  - rewrite verifyCredentials_result.
    destruct (Usuario.findByEmail e db) as [u|]; [|reflexivity].
    destruct (Usuario.is_locked u (clock_check env)); [reflexivity|].
    destruct (negb (activo u)); reflexivity.
  - unfold Usuario.before_await, Usuario.registerLoginAttempt. run_m.
    destruct (Usuario.findByEmail e db) as [u|].
    + destruct (Usuario.is_locked u (clock_check env)); simpl; [reflexivity|].
      destruct (negb (activo u)); reflexivity.
    + destruct (ledger_fault env); reflexivity.
Qed.

(** X11. [apiLogin] always answers, with 200, 401 or 500, whatever the
    body, the tables and the faults. It answers 200, and only then sends a
    user and a token, exactly when the body names an existing, unlocked,
    active account with its password and the ledger could be written; the
    user sent is that account's and the token is the one [generateToken]
    signs for it. Every 401 is the same answer, whether the account does
    not exist or the password is wrong. *)
Theorem apiLogin_answer (env : Env) (body : Body) (db : Db) :
  exists status success message data,
    fst (AuthController.apiLogin cfg env body db)
    = Return (Json status success message data)
    /\ (status = 200 \/ status = 401 \/ status = 500)
    /\ (status = 200 <->
        exists e p u,
          body !! "email" = Some e /\ body !! "password" = Some p
          /\ Usuario.findByEmail e db = Some u
          /\ Usuario.is_locked u (clock_check env) = false /\ activo u = true
          /\ bcrypt_compare p (password_hash u) = true
          /\ ledger_fault env = None
          /\ data = Some (public u, Auth.generateToken cfg env (public u)))
    /\ (status <> 200 -> data = None /\ success = false)
    /\ (status = 401 -> message = "Credenciales inválidas").
Proof.
  pose proof (verifyCredentials_body_result env (body !! "email")
                (body !! "password") db) as Hres.
  unfold AuthController.apiLogin, try_catch, bind.
  destruct (AuthController.verifyCredentials_body cfg env (body !! "email")
              (body !! "password") db) as [[[user|]|x] db'];
    cbn [fst] in Hres; cbn [ret fst].
  - exists 200, true, "Login exitoso",
      (Some (user, Auth.generateToken cfg env user)).
    split; [reflexivity|]. split; [auto|]. split; [|split; intros; congruence].
    split; [intros _|auto].
    destruct (body !! "email") as [e|]; [|discriminate].
    destruct (Usuario.findByEmail e db) as [u|] eqn:Hm;
      [|destruct (ledger_fault env); discriminate].
    destruct (Usuario.is_locked u (clock_check env)) eqn:Hl; [discriminate|].
    destruct (activo u) eqn:Ha; [|discriminate]. cbn [negb] in Hres.
    destruct (body !! "password") as [p|]; [|discriminate].
    destruct (ledger_fault env) eqn:Hf; [discriminate|].
    destruct (bcrypt_compare p (password_hash u)) eqn:Hp; [|discriminate].
    injection Hres as Hres. subst user. exists e, p, u. repeat (split; [reflexivity || assumption|]).
    reflexivity.
  - exists 401, false, "Credenciales inválidas", None.
    split; [reflexivity|]. split; [auto|]. split; [|auto].
    split; [discriminate|]. intros (e & p & u & _ & _ & _ & _ & _ & _ & _ & Hd).
    discriminate.
  - exists 500, false, (exn_message x), None.
    split; [reflexivity|]. split; [auto|]. split; [|split; [auto|discriminate]].
    split; [discriminate|]. intros (e & p & u & _ & _ & _ & _ & _ & _ & _ & Hd).
    discriminate.
Qed.

(** X12. [login] always answers, and it stores a user in the session
    only for an existing, unlocked, active account whose password was
    given, the ledger being writable: the session then holds the id, name,
    email and role of that account and no [returnTo]. In every other case
    the session keeps its id, its user and its [returnTo]. *)
Theorem login_session (env : Env) (newId : Z) (body : Body) (session : Session)
    (db : Db) :
  exists response session',
    fst (AuthController.login cfg env newId body session db)
    = Return (response, session')
    /\ (session' = session
        \/ exists e p u,
             body !! "email" = Some e /\ body !! "password" = Some p
             /\ Usuario.findByEmail e db = Some u
             /\ Usuario.is_locked u (clock_check env) = false /\ activo u = true
             /\ bcrypt_compare p (password_hash u) = true
             /\ ledger_fault env = None
             /\ session_user session' = Some (session_user_of (public u))
             /\ returnTo session' = None).
Proof.
  pose proof (verifyCredentials_body_result env (body !! "email")
                (body !! "password") db) as Hres.
  unfold AuthController.login, try_catch, bind.
  destruct (AuthController.verifyCredentials_body cfg env (body !! "email")
              (body !! "password") db) as [[[user|]|x] db'];
    cbn [fst] in Hres; cbn [ret fst].
  - eexists _, _. split; [reflexivity|]. right.
    destruct (body !! "email") as [e|]; [|discriminate].
    destruct (Usuario.findByEmail e db) as [u|] eqn:Hm;
      [|destruct (ledger_fault env); discriminate].
    destruct (Usuario.is_locked u (clock_check env)) eqn:Hl; [discriminate|].
    destruct (activo u) eqn:Ha; [|discriminate]. cbn [negb] in Hres.
    destruct (body !! "password") as [p|]; [|discriminate].
    destruct (ledger_fault env) eqn:Hf; [discriminate|].
    destruct (bcrypt_compare p (password_hash u)) eqn:Hp; [|discriminate].
    injection Hres as Hres. subst user. exists e, p, u. repeat (split; [reflexivity || assumption|]).
    reflexivity.
  - eexists _, _. split; [reflexivity|]. left. reflexivity.
  - eexists _, _. split; [reflexivity|]. left. reflexivity.
Qed.

End Logins.

(** ** The guards of [middleware/auth.js] *)

Section Guards.

Lemma existsb_eqb_In r roles :
  existsb (String.eqb r) roles = true <-> In r roles.
Proof.
  rewrite existsb_exists. split.
  - intros (x & Hx & Heq). apply String.eqb_eq in Heq. subst x. exact Hx.
  - intros Hin. exists r. split; [exact Hin|apply String.eqb_refl].
Qed.

Lemma hasRole_iff roles req :
  Auth.hasRole roles req = Auth.Proceed req None <->
  exists p, Auth.effective_user req = Some p /\ In (principal_rol p) roles.
Proof.
  unfold Auth.hasRole.
  destruct (Auth.effective_user req) as [p|].
  - destruct (existsb (String.eqb (principal_rol p)) roles) eqn:Hex; cbn [negb].
    + split; [intros _|reflexivity]. exists p. split; [reflexivity|].
      apply existsb_eqb_In, Hex.
    + split.
      * destruct (wants_json req); discriminate.
      * intros (p' & Hp & Hin). injection Hp as <-.
        apply existsb_eqb_In in Hin. congruence.
  - split.
    + destruct (wants_json req); discriminate.
    + intros (p & Hp & _). discriminate.
Qed.

Lemma hasRole_request roles req :
  match Auth.hasRole roles req with
  | Auth.Answer _ req' => req' = req
  | Auth.Proceed req' locals => req' = req /\ locals = None
  end.
Proof.
  unfold Auth.hasRole.
  destruct (Auth.effective_user req) as [p|].
  - destruct (negb _); [destruct (wants_json req); reflexivity|auto].
  - destruct (wants_json req); reflexivity.
Qed.

Lemma hasRole_mono roles roles' req :
  (forall r, In r roles -> In r roles') ->
  Auth.hasRole roles req = Auth.Proceed req None ->
  Auth.hasRole roles' req = Auth.Proceed req None.
Proof.
  intros Hsub Hp. apply hasRole_iff. apply hasRole_iff in Hp as (p & Hp & Hin).
  exists p. auto.
Qed.

(** X13. [hasRole] lets a request through exactly when the user it
    reads, the session's if there is one and else the one a token
    middleware set, has one of the roles; it leaves the session's user and
    [returnTo] and [req.user] as they were; so a longer list of roles lets
    through every request a shorter one does, and what passes [isAdmin]
    passes [isModeratorOrAdmin]. *)
Theorem hasRole_proceeds (roles : list string) (req : Request) :
  (Auth.hasRole roles req = Auth.Proceed req None <->
   exists p, Auth.effective_user req = Some p /\ In (principal_rol p) roles)
  /\ match Auth.hasRole roles req with
     | Auth.Answer _ req' => req' = req
     | Auth.Proceed req' locals => req' = req /\ locals = None
     end
  /\ (forall roles',
        (forall r, In r roles -> In r roles') ->
        Auth.hasRole roles req = Auth.Proceed req None ->
        Auth.hasRole roles' req = Auth.Proceed req None)
  /\ (Auth.isAdmin req = Auth.Proceed req None ->
      Auth.isModeratorOrAdmin req = Auth.Proceed req None).
Proof.
  split; [apply hasRole_iff|]. split; [apply hasRole_request|]. split.
  - intros roles'. apply hasRole_mono.
  - apply hasRole_mono. intros r [<-|[]]. left. reflexivity.
Qed.

(** X14. The two session guards are complementary: on every request
    exactly one of [isAuthenticated] and [isNotAuthenticated] calls
    [next()], the first when the session holds a user, whom it hands to the
    views. When [isAuthenticated] answers it leaves the session without a
    user; answering a browser it redirects to the login page and stores
    the requested URL in [returnTo], answering a JSON client it sends 401
    and leaves the session as it was. *)
Theorem session_guards (req : Request) :
  match Auth.isAuthenticated req, Auth.isNotAuthenticated req with
  | Auth.Proceed req1 locals, Auth.Answer r req2 =>
      req1 = req /\ req2 = req /\ locals = session_user (req_session req)
      /\ locals <> None /\ r = Redirect "/dashboard" []
  | Auth.Answer r req1, Auth.Proceed req2 locals =>
      req2 = req /\ locals = None
      /\ session_user (req_session req) = None
      /\ session_user (req_session req1) = None
      /\ if wants_json req
         then req1 = req /\ exists m, r = Json 401 false m None
         else returnTo (req_session req1) = Some (req_originalUrl req)
              /\ exists flash, r = Redirect "/auth/login" flash
  | _, _ => False
  end.
Proof.
  unfold Auth.isAuthenticated, Auth.isNotAuthenticated.
  destruct (session_user (req_session req)) as [user|] eqn:Hu.
  - split; [reflexivity|]. split; [reflexivity|]. split; [reflexivity|].
    split; [discriminate|reflexivity].
  - destruct (wants_json req) eqn:Hj.
    + split; [reflexivity|]. split; [reflexivity|]. split; [reflexivity|].
      split; [exact Hu|]. split; [reflexivity|]. eexists. reflexivity.
    + split; [reflexivity|]. split; [reflexivity|]. split; [reflexivity|].
      split; [reflexivity|]. split; [reflexivity|]. eexists. reflexivity.
Qed.

End Guards.

(** ** The account pages and the administration route *)

Section Accounts.
Context `{Bcrypt}.
Variable cfg : Config.

Lemma toggleUserStatus_db env idParam activo req user db :
  (exists r, fst (UserController.toggleUserStatus env idParam activo req user db)
             = Return r)
  /\ snd (UserController.toggleUserStatus env idParam activo req user db)
     = if idParam =? su_id user then db
       else update_by_id idParam
              (set_activo (js_truthy activo) (sql_timestamp env)) db.
Proof.
  unfold UserController.toggleUserStatus.
  destruct (idParam =? su_id user).
  - destruct (wants_json req); split; eauto.
  - destruct (js_truthy activo); unfold Usuario.activate, Usuario.deactivate; run_m;
      destruct (wants_json req); split; eauto.
Qed.

(** X15. [POST /admin/usuarios/:id/toggle] behind its guards always
    answers, and changes the tables only for a session whose user has the
    role admin, whatever user a token set, and only for an id other than
    that user's own: then it sets the active flag of the rows of that id
    to the truth value of [activo] and stamps them, and a deactivated id
    is no longer found by [findById]. The rows of every other id, the
    administrator's own among them, stay as they were. *)
Theorem toggle_route (env : Env) (idParam : Z) (activo : JsValue) (req : Request)
    (db : Db) :
  let db' := snd (AdminRoutes.toggle env idParam activo req db) in
  (exists r, fst (AdminRoutes.toggle env idParam activo req db) = Return r)
  /\ (db' = db
      \/ exists user,
           session_user (req_session req) = Some user
           /\ su_rol user = "admin" /\ idParam <> su_id user
           /\ db' = update_by_id idParam
                      (set_activo (js_truthy activo) (sql_timestamp env)) db
           /\ (js_truthy activo = false -> Usuario.findById idParam db' = None))
  /\ List.filter (fun r => negb (id r =? idParam)) (usuarios db')
     = List.filter (fun r => negb (id r =? idParam)) (usuarios db)
  /\ (forall user, session_user (req_session req) = Some user ->
      List.filter (fun r => id r =? su_id user) (usuarios db')
      = List.filter (fun r => id r =? su_id user) (usuarios db)).
Proof.
  intros db'. subst db'. unfold AdminRoutes.toggle, AdminRoutes.guards.
  pose proof (hasRole_request ["admin"] req) as Hsame.
  unfold Auth.isAuthenticated.
  destruct (session_user (req_session req)) as [user|] eqn:Hu.
  - pose proof (hasRole_iff ["admin"] req) as Hiff.
    fold Auth.isAdmin in Hsame, Hiff.
    destruct (Auth.isAdmin req) as [r req'|req' locals].
    + split; [eexists; reflexivity|]. split; [left; reflexivity|].
      split; [reflexivity|]. intros; reflexivity.
    + destruct Hsame as [-> ->]. rewrite Hu.
      destruct (proj1 Hiff eq_refl) as (p & Hp & [Hrol|[]]).
      unfold Auth.effective_user in Hp. rewrite Hu in Hp. injection Hp as <-.
      destruct (toggleUserStatus_db env idParam activo req user db) as [Hr ->].
      split; [exact Hr|].
      destruct (Z.eqb_spec idParam (su_id user)) as [Heq|Hne].
      * split; [left; reflexivity|]. split; [reflexivity|]. intros; reflexivity.
      * split; [|split].
        -- right. exists user. split; [reflexivity|]. split; [symmetry; exact Hrol|].
           split; [exact Hne|]. split; [reflexivity|]. intros Hfalse. rewrite Hfalse.
           apply (findById_deactivate env idParam db).
        -- apply update_by_id_others. reflexivity.
        -- intros user' Hu'. injection Hu' as <-.
           unfold update_by_id; cbn [usuarios].
           induction (usuarios db) as [|r rows IH]; [reflexivity|].
           cbn [map List.filter]. destruct (Z.eqb_spec (id r) idParam) as [Hi|Hi].
           ++ change (id (set_activo _ _ r)) with (id r).
              destruct (Z.eqb_spec (id r) (su_id user)) as [Hs|_]; [congruence|].
              exact IH.
           ++ destruct (id r =? su_id user); [rewrite IH; reflexivity|exact IH].
  - destruct (wants_json req);
      (split; [eexists; reflexivity|]; split; [left; reflexivity|];
       split; [reflexivity|]; intros user Hu'; discriminate).
Qed.

(** X16. The change-password form always answers, and it changes the
    tables only when the session's email names an account, the current
    password of the body matches that account's hash and the body has a
    new password: then only the password hash and the modification date of
    the rows with the session's id change. *)
Theorem changePassword_form (env : Env) (body : Body) (user : SessionUser)
    (db : Db) :
  let db' := snd (UserController.changePassword cfg env body user db) in
  (exists r, fst (UserController.changePassword cfg env body user db) = Return r)
  /\ (db' = db
      \/ exists e row current new,
           su_email user = Some e /\ Usuario.findByEmail e db = Some row
           /\ body !! "currentPassword" = Some current
           /\ bcrypt_compare current (password_hash row) = true
           /\ body !! "newPassword" = Some new
           /\ db' = update_by_id (su_id user)
                      (set_password_hash
                         (bcrypt_hash new (bcryptRounds cfg) (bcrypt_salt env))
                         (sql_timestamp env)) db).
Proof.
  intros db'. subst db'. unfold UserController.changePassword, try_catch.
  destruct (su_email user) as [e|]; [|split; [eexists; reflexivity|left; reflexivity]].
  change (bind get_db ?k db) with (k db db). cbv beta.
  destruct (Usuario.findByEmail e db) as [row|] eqn:Hm;
    [|split; [eexists; reflexivity|left; reflexivity]].
  destruct (body !! "currentPassword") as [current|] eqn:Hc;
    [|split; [eexists; reflexivity|left; reflexivity]].
  destruct (bcrypt_compare current (password_hash row)) eqn:Hp; cbn [negb];
    [|split; [eexists; reflexivity|left; reflexivity]].
  destruct (body !! "newPassword") as [new|] eqn:Hn;
    [|split; [eexists; reflexivity|left; reflexivity]].
  split; [eexists; reflexivity|]. right. exists e, row, current, new.
  repeat (split; [reflexivity || assumption|]). reflexivity.
Qed.

(** X17. The profile form, over tables any history of calls leaves, for
    a session whose id is an account's and a body with an email. It always
    answers. Either the email is another account's: then tables and
    session stay as they were. Or the update goes through: the session
    keeps its id and role and takes the name and email of the body, the
    account keeps its role, password, active flag, counter and lockout,
    and the session's new email still names the session's own account, so
    that the change-password form, which looks the account up by that
    email, reads the row it then writes. *)
Theorem updateProfile_session (env : Env) (body : Body) (user : SessionUser)
    (db : Db) (u : UsuarioRow) (e : string) :
  well_formed cfg db ->
  In u (usuarios db) -> id u = su_id user ->
  body !! "email" = Some e -> e <> "" ->
  exists r user',
    fst (UserController.updateProfile env body user db) = Return (r, user')
    /\ let db' := snd (UserController.updateProfile env body user db) in
       ((exists other,
           Usuario.findByEmail e db = Some other /\ id other <> id u
           /\ db' = db /\ user' = user)
        \/ (su_id user' = su_id user /\ su_rol user' = su_rol user
            /\ su_nombre user' = body !! "nombre" /\ su_email user' = Some e
            /\ exists row,
                 Usuario.findByEmail e db' = Some row
                 /\ select_by_id (su_id user') db' = Some row
                 /\ email row = Js.trim (Js.toLowerCase e)
                 /\ (rol row, password_hash row, activo row,
                     intentos_fallidos row, bloqueado_hasta row)
                    = (rol u, password_hash u, activo u,
                       intentos_fallidos u, bloqueado_hasta u))).
Proof.
  intros Hwf Hin Hid He Hne.
  assert (Hne' : body !! "email" <> Some "") by (rewrite He; congruence).
  pose proof (fun other =>
                update_refused env (id u) (body !! "nombre") e None db other Hne)
    as Hthrow.
  pose proof (update_accepted cfg env (body !! "nombre") (body !! "email") None db u
                Hwf Hin Hne' ltac:(discriminate)) as Hrun.
  cbv zeta in Hrun.
  unfold UserController.updateProfile, try_catch, bind. rewrite <- Hid.
  destruct (Usuario.findByEmail e db) as [other|] eqn:Hm.
  - destruct (Z.eq_dec (id other) (id u)) as [Hown|Hother].
    + destruct Hrun as (-> & Hs & Hf).
      { intros e' other' He' Hm'. rewrite He in He'. injection He' as <-.
        rewrite Hm in Hm'. injection Hm' as <-. exact Hown. }
      eexists _, _. split; [reflexivity|]. right. cbn [snd ret].
      split; [reflexivity|]. split; [reflexivity|]. split; [reflexivity|].
      split; [exact He|]. eexists. split; [apply Hf, He|]. split; [exact Hs|].
      rewrite He. split; reflexivity.
    + rewrite He. rewrite (Hthrow other eq_refl Hother).
      eexists _, _. split; [reflexivity|]. left. exists other. cbn [snd ret].
      auto.
  - destruct Hrun as (-> & Hs & Hf).
    { intros e' other' He' Hm'. rewrite He in He'. injection He' as <-.
      rewrite Hm in Hm'. discriminate. }
    eexists _, _. split; [reflexivity|]. right. cbn [snd ret].
    split; [reflexivity|]. split; [reflexivity|]. split; [reflexivity|].
    split; [exact He|]. eexists. split; [apply Hf, He|]. split; [exact Hs|].
    rewrite He. split; reflexivity.
Qed.
(** X18. [create] and [count]. A [create] that returns has added
    exactly one account and one that throws has added none: nothing is
    left of a failed registration. *)
Theorem create_count (env : Env) (nombre' email' password rol' : option string)
    (db : Db) :
  Usuario.count (snd (Usuario.create cfg env nombre' email' password rol' db))
  = Usuario.count db
    + match fst (Usuario.create cfg env nombre' email' password rol' db) with
      | Return _ => 1
      | Throw _ => 0
      end.
Proof.
  unfold Usuario.count, Usuario.create, Usuario.insert_usuario. run_m.
  destruct email' as [e'|]; [|simpl; lia].
  destruct (Usuario.findByEmail e' db); [simpl; lia|].
  destruct password; [|simpl; lia].
  destruct nombre'; [|simpl; lia].
  destruct (existsb _ _); [simpl; lia|].
  destruct (negb _); [simpl; lia|].
  simpl. rewrite length_app. simpl. lia.
Qed.

End Accounts.

(** ** The reference bcrypt and the roster *)

Section ReferenceBcrypt.

Lemma reference_bcrypt_laws : @BcryptLaws Reference.bcrypt.
Proof. constructor. intros password rounds salt. apply String.eqb_refl. Qed.

Lemma roster_well_formed : well_formed default_config Roster.two.
Proof.
  split; [|split].
  - apply NoDup_ListNoDup. repeat constructor; simpl; intuition discriminate.
  - apply NoDup_ListNoDup. repeat constructor; simpl; intuition discriminate.
  - repeat (apply Forall_cons; split; [|]); try (apply Forall_nil; exact I);
      (split; [reflexivity|]; split; [reflexivity|]; split; [simpl; lia|];
       intros Hb; contradiction).
Qed.

End ReferenceBcrypt.

(** * The scenario, run with the reference libraries *)

Import Reference.

(** C4 on the scenario: Ana's account deactivated, her correct password. *)
Lemma C4_check_order_witness :
  Usuario.verifyCredentials default_config (Scenario.env 3000)
    "a@x.com" "Secret1!" Scenario.deactivated
  = (Throw Usuario.CuentaDesactivada, Scenario.deactivated).
Proof.
  refine (proj1 (proj2 (proj2 (C4_check_order default_config (Scenario.env 3000)
            "a@x.com" "Secret1!" Scenario.deactivated)
            (set_activo false 2000 Scenario.ana) _)) _ _ Reference.bcrypt "Secret1!");
    reflexivity.
Defined.

(** C2 as stated fails: for the unknown identity "Ghost@X.com" the ledger
    row is keyed "ghost@x.com", not the identity as it was supplied. *)
Lemma C2_counterexample :
  Usuario.findByEmail "Ghost@X.com" Scenario.registered = None
  /\ ~ (exists r,
         intentos_login
           (snd (Usuario.verifyCredentials default_config (Scenario.env 3000)
                   "Ghost@X.com" "Secret1!" Scenario.registered))
         = (intentos_login Scenario.registered ++ [r])%list
         /\ il_email r = "Ghost@X.com").
Proof.
  split; [reflexivity|].
  intros [r [Hr He]]. vm_compute in Hr. injection Hr as <-.
  vm_compute in He. discriminate He.
Qed.

Lemma C2_unknown_identity_witness :
  Usuario.verifyCredentials default_config (Scenario.env 3000)
    "Ghost@X.com" "Secret1!" Scenario.registered
  = (Return None,
     {| usuarios := [Scenario.ana];
        intentos_login :=
          [{| il_email := "ghost@x.com"; il_ip_address := None;
              il_exitoso := false; il_fecha := 3000 |}] |}).
Proof.
  exact (proj1 (C2_unknown_identity default_config (Scenario.env 3000)
                  "Ghost@X.com" "Secret1!" Scenario.registered
                  eq_refl eq_refl)).
Defined.

(** C3 as stated fails: Ana's correct password authenticates while the
    ledger accepts the row, and ends in the ledger's exception when the
    INSERT throws. *)
Lemma C3_counterexample :
  fst (Usuario.verifyCredentials default_config (Scenario.env 3000)
         "a@x.com" "Secret1!" Scenario.registered)
  = Return (Some (public Scenario.ana))
  /\ fst (Usuario.verifyCredentials default_config (Scenario.env_ledger_down 3000)
            "a@x.com" "Secret1!" Scenario.registered)
     = Throw (SqliteError "disk I/O error").
Proof. split; reflexivity. Qed.

Lemma C3_ledger_failure_propagates_witness :
  Usuario.verifyCredentials default_config (Scenario.env_ledger_down 3000)
    "a@x.com" "Secret1!" Scenario.registered
  = (Throw (SqliteError "disk I/O error"),
     write_success 3000 Scenario.ana Scenario.registered).
Proof.
  exact (proj2 (C3_ledger_failure_propagates default_config
                  (Scenario.env_ledger_down 3000) "a@x.com" "Secret1!"
                  Scenario.registered (SqliteError "disk I/O error") eq_refl)
               Scenario.ana eq_refl eq_refl eq_refl eq_refl).
Defined.

Lemma registered_primary_key : primary_key Scenario.registered.
Proof.
  unfold primary_key. simpl. apply NoDup_cons. split; [apply not_elem_of_nil|].
  apply NoDup_nil. exact I.
Qed.

(** The scenario of C1: registering, five logins with "wrong", and then
    Ana's own password, refused at 7000 and accepted once the lockout,
    which runs to 906000, is over. *)
Lemma C1_lockout_after_max_failures_witness :
  let db5 := snd (logins default_config "a@x.com" Scenario.five_wrong
                    Scenario.registered) in
  Usuario.verifyCredentials default_config (Scenario.env 7000)
    "a@x.com" "Secret1!" db5
  = (Throw Usuario.CuentaBloqueada, db5)
  /\ exists db6 u6,
       Usuario.verifyCredentials default_config (Scenario.env 906000)
         "a@x.com" "Secret1!" db5
       = (Return (Some (public Scenario.ana)), db6)
       /\ account "a@x.com" db6 u6
       /\ intentos_fallidos u6 = 0 /\ bloqueado_hasta u6 = None.
Proof.
  intros db5.
  destruct (C1_lockout_after_max_failures default_config "a@x.com"
              Scenario.registered Scenario.ana (firstn 4 Scenario.five_wrong)
              (Scenario.env 6000) "wrong")
    as (_ & _ & u' & _ & _ & _ & Hlocked & Hopen).
  - exact registered_primary_key.
  - reflexivity.
  - reflexivity.
  - reflexivity.
  - reflexivity.
  - repeat constructor.
  - split.
    + apply (Hlocked (Scenario.env 7000) "Secret1!"). vm_compute. reflexivity.
    + apply (Hopen (Scenario.env 906000) "Secret1!");
        [vm_compute; discriminate | reflexivity | reflexivity].
Defined.

(** The scenario of C9: Ana at the threshold, her lockout over since
    906000, tries "wrong" at 1000000: the counter goes to 6 and she is
    locked again until 1900000. *)
Lemma C9_relock_after_expiry_witness :
  exists c db',
    Usuario.verifyCredentials default_config (Scenario.env 1000000)
      "a@x.com" "wrong" Scenario.at_threshold = (c, db')
    /\ failed c
    /\ account "a@x.com" db'
         (set_attempts 6 (Some 1900000) Scenario.ana)
    /\ forall env2 password2,
         clock_check env2 < 1900000 ->
         Usuario.verifyCredentials default_config env2 "a@x.com" password2 db'
         = (Throw Usuario.CuentaBloqueada, db').
Proof.
  destruct (C9_relock_after_expiry default_config "a@x.com"
              (Scenario.env 1000000) "wrong" Scenario.at_threshold
              Scenario.ana_at_threshold)
    as [Hwrong _].
  - vm_compute. discriminate.
  - split; reflexivity.
  - reflexivity.
  - vm_compute. discriminate.
  - reflexivity.
  - destruct (Hwrong eq_refl) as (c & db' & Hvc & Hf & Hacc & _ & _ & _ & Hlock).
    exists c, db'. split; [exact Hvc|]. split; [exact Hf|].
    split; [exact Hacc|]. exact Hlock.
Defined.

(** The scenario of C8: Ana's counter at 4, two logins with wrong passwords
    started one after the other and resumed in the same order end with the
    counter at 6 and a lockout stored. *)
Lemma C8_concurrent_failures_both_counted_witness :
  exists c1 c2 db',
    EventLoop.run default_config [true; false; true; false]
      (EventLoop.Start (Scenario.env 2000) "a@x.com" "wrong")
      (EventLoop.Start (Scenario.env 2001) "A@X.com" "guess")
      Scenario.one_short
    = (EventLoop.Finished c1, EventLoop.Finished c2, db')
    /\ failed c1 /\ failed c2
    /\ EventLoop.counter 1 db' = 6
    /\ exists until_, EventLoop.lockout 1 db' = Some until_.
Proof.
  destruct (C8_concurrent_failures_both_counted default_config
              (Scenario.env 2000) (Scenario.env 2001) "a@x.com" "A@X.com"
              "wrong" "guess" Scenario.one_short Scenario.ana_one_short
              true [true; false])
    as (c1 & c2 & db' & Hrun & Hf1 & Hf2 & Hc & Hl).
  - split; reflexivity.
  - reflexivity.
  - reflexivity.
  - reflexivity.
  - reflexivity.
  - reflexivity.
  - reflexivity.
  - left. reflexivity.
  - right. left. reflexivity.
  - exists c1, c2, db'. split; [exact Hrun|]. split; [exact Hf1|].
    split; [exact Hf2|]. split; [exact Hc|]. apply Hl. vm_compute. discriminate.
Defined.

(** The scenario of C7: Ana's account, registered and since deactivated,
    and a registration of " A@X.COM " after it, refused. *)
Lemma C7_duplicate_identity_witness :
  Usuario.create default_config (Scenario.env 3000) (Some "Eve")
    (Some " A@X.COM ") (Some "Other9?") (Some "admin") Scenario.deactivated
  = (Throw Usuario.EmailYaRegistrado, Scenario.deactivated).
Proof.
  refine (proj1 (C7_duplicate_identity default_config (Scenario.env 3000)
            (Some "Eve") (Some "Other9?") (Some "admin")
            "a@x.com" " A@X.COM " Scenario.deactivated _ _)).
  - exists (set_activo false 2000 Scenario.ana).
    split; [left; reflexivity|reflexivity].
  - reflexivity.
Defined.

(** C5 on the scenario: a payload asking for the role 'admin' creates a
    'usuario'. *)
Lemma C5_role_forced_witness :
  usuarios (snd (AuthController.register default_config (Scenario.env 1000)
                   (<["rol" := "admin"]>
                      (<["nombre" := "Ana"]> (<["email" := "a@x.com"]>
                         (<["password" := "Secret1!"]> ∅))))
                   Scenario.empty))
  = [Scenario.ana].
Proof.
  rewrite (proj1 (C5_role_forced default_config (Scenario.env 1000)
                    (<["nombre" := "Ana"]> (<["email" := "a@x.com"]>
                       (<["password" := "Secret1!"]> ∅)))
                    Scenario.empty) "admin").
  vm_compute. reflexivity.
Defined.

(** The scenario of C6: Ana logs in through [apiLogin] at 5000 and
    presents the token at once; the token with its first character
    replaced is refused as invalid. *)
Lemma C6_token_round_trip_witness :
  (exists principal,
     Auth.verifyToken default_config 5000 (Auth.bearer Scenario.token)
       (snd (AuthController.apiLogin default_config (Scenario.env 5000)
               (<["email" := "a@x.com"]> (<["password" := "Secret1!"]> ∅))
               Scenario.registered))
     = Auth.Next principal
     /\ v_id principal = 1 /\ v_email principal = "a@x.com"
     /\ v_rol principal = "usuario")
  /\ Auth.verifyToken default_config 5000
       (Auth.bearer (String "1" (String.substring 1 (String.length Scenario.token)
                                   Scenario.token)))
       Scenario.registered
     = Auth.unauthorized "Token inválido".
Proof.
  pose proof (@C6_token_round_trip Reference.bcrypt Reference.jwt reference_jwt_laws
                default_config (Scenario.env 5000) Scenario.registered)
    as Hc6.
  destruct Hc6 as (Hlogin & _ & _ & _ & Hmutated & _).
  - vm_compute. reflexivity.
  - exact registered_primary_key.
  - split.
    + refine (Hlogin (<["email" := "a@x.com"]> (<["password" := "Secret1!"]> ∅))
                "Login exitoso" (public Scenario.ana) Scenario.token _ 5000 _ _).
      * vm_compute. reflexivity.
      * left. reflexivity.
    + apply Hmutated; [vm_compute; reflexivity|].
      intros (p & e & t & Heq).
      refine (@rejected_not_signed Reference.jwt reference_jwt_laws _ _ 5000 _
                p e t Heq).
      vm_compute. reflexivity.
Defined.

(** C6 as stated fails: Ana's token with " x" appended is another string,
    and [verifyToken] accepts it, reading only the text up to the space. *)
Lemma C6_counterexample :
  (Scenario.token ++ " x")%string <> Scenario.token
  /\ Auth.verifyToken default_config 5000
       (Auth.bearer (Scenario.token ++ " x")) Scenario.registered
     = Auth.Next (view Scenario.ana)
  /\ Auth.verifyToken default_config 5000
       (Auth.bearer (Scenario.token ++ " x")) Scenario.registered
     <> Auth.unauthorized "Token inválido".
Proof.
  assert (Hv : Auth.verifyToken default_config 5000
                 (Auth.bearer (Scenario.token ++ " x")) Scenario.registered
               = Auth.Next (view Scenario.ana)) by (vm_compute; reflexivity).
  split; [|split; [exact Hv|rewrite Hv; discriminate]].
  intros Heq. apply (f_equal String.length) in Heq. vm_compute in Heq.
  discriminate Heq.
Qed.

(** The scenario of C10: Ana's token, still valid, after her account was
    deactivated. *)
Lemma C10_subject_revalidated_witness :
  Auth.verifyToken default_config 6000 (Auth.bearer Scenario.token)
    Scenario.deactivated
  = Auth.unauthorized "Usuario no encontrado o inactivo".
Proof.
  refine (proj1 (proj2 (@C10_subject_revalidated Reference.jwt default_config
            6000 ("Bearer " ++ Scenario.token)
            {| payload := {| userId := 1; jwt_email := "a@x.com";
                             jwt_rol := "usuario" |};
               iat := 5; exp := 3605 |}
            Scenario.registered _ _)) (Scenario.env 2000)).
  - reflexivity.
  - vm_compute. reflexivity.
Defined.

(** ** The further properties on the scenario *)

(** Registering Ana and looking her up under another spelling. *)
Lemma create_then_find_witness :
  Usuario.findByEmail " A@X.COM" Scenario.registered = Some Scenario.ana
  /\ Usuario.findById 1 Scenario.registered = Some (view Scenario.ana).
Proof.
  assert (Hc : Usuario.create default_config (Scenario.env 1000) (Some "Ana")
                 (Some "a@x.com") (Some "Secret1!") None Scenario.empty
               = (Return (public Scenario.ana), Scenario.registered))
    by reflexivity.
  destruct (create_then_find default_config (Scenario.env 1000) (Some "Ana")
              "a@x.com" (Some "Secret1!") None Scenario.empty
              (public Scenario.ana) Scenario.registered Hc)
    as (row & _ & Hfind & Hid).
  pose proof (Hfind "a@x.com" (or_intror eq_refl)) as Hrow.
  vm_compute in Hrow. injection Hrow as <-.
  split; [apply Hfind; left; reflexivity|].
  apply Hid. apply NoDup_nil. exact I.
Defined.

(** Registering Ana at 1000 and logging her in at 3000. *)
Lemma create_then_verifyCredentials_witness :
  exists db2 row,
    Usuario.verifyCredentials default_config (Scenario.env 3000)
      " A@X.COM " "Secret1!" Scenario.registered
    = (Return (Some (public Scenario.ana)), db2)
    /\ Usuario.findByEmail " A@X.COM " db2 = Some row
    /\ intentos_fallidos row = 0 /\ bloqueado_hasta row = None
    /\ ultimo_login row = Some 3000.
Proof.
  apply (@create_then_verifyCredentials Reference.bcrypt default_config
           reference_bcrypt_laws (Scenario.env 1000) (Scenario.env 3000)
           (Some "Ana") "a@x.com" "Secret1!" None " A@X.COM " Scenario.empty
           (public Scenario.ana) Scenario.registered); reflexivity.
Defined.

(** No account has the id 7. *)
Lemma write_by_absent_id_witness :
  Usuario.deactivate (Scenario.env 2000) 7 Scenario.registered
  = (Return false, Scenario.registered)
  /\ Usuario.update (Scenario.env 2000) 7 (Some "Eve") None (Some "admin")
       Scenario.registered
     = (Return false, Scenario.registered).
Proof.
  assert (Hno : forall u, In u (usuarios Scenario.registered) -> id u <> 7).
  { intros u [<-|[]]. discriminate. }
  pose proof (write_by_absent_id default_config (Scenario.env 2000) 7 "x"
                (Some "Eve") None (Some "admin") Scenario.registered Hno)
    as (Hd & _ & _ & Hu).
  split; [exact Hd|]. apply Hu. left. reflexivity.
Defined.

(** Ana deactivated at 2000: her correct password at 3000. *)
Lemma deactivate_then_activate_witness :
  Usuario.verifyCredentials default_config (Scenario.env 3000)
    "a@x.com" "Secret1!" Scenario.deactivated
  = (Throw Usuario.CuentaDesactivada, Scenario.deactivated).
Proof.
  refine (proj1 (proj2 (deactivate_then_activate default_config (Scenario.env 2000)
                          (Scenario.env 2500) "a@x.com" Scenario.registered
                          Scenario.ana _))
                (Scenario.env 3000) "Secret1!").
  reflexivity.
Defined.

(** Ana's password changed at 2000: the new one at 3000. *)
Lemma changePassword_then_login_witness :
  fst (Usuario.verifyCredentials default_config (Scenario.env 3000)
         "a@x.com" "New2pass!"
         (snd (Usuario.changePassword default_config (Scenario.env 2000) 1
                 (Some "New2pass!") Scenario.registered)))
  = Return (Some (public Scenario.ana)).
Proof.
  refine (proj1 (proj2 (@changePassword_then_login Reference.bcrypt default_config
                          reference_bcrypt_laws (Scenario.env 2000) "a@x.com"
                          "New2pass!" Scenario.registered Scenario.ana _))
                (Scenario.env 3000) _ _ _); reflexivity.
Defined.

(** Ana asking for Ben's address, in capitals. *)
Lemma update_profile_witness :
  Usuario.update (Scenario.env 4000) 1 (Some "Ana") (Some "B@X.com") None
    Roster.two
  = (Throw Usuario.EmailDeOtroUsuario, Roster.two).
Proof.
  refine (proj1 (update_profile default_config (Scenario.env 4000) (Some "Ana")
                   (Some "B@X.com") None Roster.two Scenario.ana
                   roster_well_formed _ _ _)
                "B@X.com" Roster.ben _ _ _).
  - left. reflexivity.
  - discriminate.
  - discriminate.
  - reflexivity.
  - reflexivity.
  - discriminate.
Defined.

(** Ana's profile form at 4000. *)
Lemma updateProfile_session_witness :
  exists r user',
    fst (UserController.updateProfile (Scenario.env 4000) Roster.profile
           Roster.ana_session Roster.two)
    = Return (r, user')
    /\ su_email user' = Some " Ana@X.com "
    /\ Usuario.findByEmail " Ana@X.com "
         (snd (UserController.updateProfile (Scenario.env 4000) Roster.profile
                 Roster.ana_session Roster.two))
       = Some (set_profile (Some "Ana Maria") (Some "ana@x.com") None 4000
                 Scenario.ana).
Proof.
  assert (He : Roster.profile !! "email" = Some " Ana@X.com ") by reflexivity.
  destruct (updateProfile_session default_config (Scenario.env 4000)
              Roster.profile Roster.ana_session Roster.two Scenario.ana
              " Ana@X.com " roster_well_formed (or_introl eq_refl) eq_refl
              He ltac:(discriminate))
    as (r & user' & Hr & _).
  exists r, user'. split; [exact Hr|].
  vm_compute in Hr. injection Hr as <- <-. split; reflexivity.
Defined.
